(** * Serial command channel of the Raspberry Pi robot controller

    A shallow embedding of the serial channel of [main_raspy.py] (the voice
    controller) and [serial_monitor.py] (the operator's monitor): endpoint
    discovery, the open/handshake sequence, the command line format, the
    timed response collection, the recovery after a failed write and the
    interactive dispatcher.

    Conventions of the embedding.
    - Python [str] values are [string]s (bytes of the UTF-8 text).  The
      white space of [strip] and [split] is that of [str.isspace], Unicode
      included.  [lower] maps the letters whose lower case has an ASCII
      letter, so the tests of the programs against their ASCII words are
      those of Python; it leaves the other letters as they are, and what
      shows the lower case of a text is stated for ASCII input.
    - Time is a virtual clock in milliseconds ([Z]); only [time.sleep]
      advances it, every other operation is instantaneous.
    - The serial device is a record threaded through the calls: a script of
      faults for the calls that can raise (the constructor, the two discards,
      [write] and [flush]) and the inbound lines with their arrival times.
      A line arrives whole and is text already; [in_waiting] is true when one
      has arrived.  [in_waiting], [readline] and [close] do not raise.
    - The effects are recorded in a trace.  Of the prints only those the
      channel is about are kept: the lines of the device, what was sent, and
      the messages of the monitor to the operator.
    - [json.loads] is the library's: [send_to_robot] takes what it returns.
    - Python's [float] is an interface ([PyFloat]); the results hold for every
      implementation of it.
    - The reader thread of the monitor only prints and is left out.
    - Of the voice controller's loop the channel, the LEDs and the choice of
      what is sent are modelled; what is heard and what the language model
      answers are inputs, and [speak], which touches neither the channel nor
      the LEDs, is left out. *)

From Stdlib Require Import ZArith String Ascii List Lia DecimalString.
From stdpp Require Import base option list strings gmap.

Local Open Scope Z_scope.

(** ** Python strings *)

Module PyStr.

Definition chr (n : nat) : ascii := ascii_of_nat n.

(** The white space of the ASCII range: TAB, LF, VT, FF, CR, FS, GS, RS, US
    and the space. *)
Definition isspace (c : ascii) : bool :=
  let n := nat_of_ascii c in
  ((9 <=? n)%nat && (n <=? 13)%nat) || ((28 <=? n)%nat && (n <=? 32)%nat).

(** The byte [c] has the value [n]. *)
Definition byte_is (c : ascii) (n : nat) : bool := (nat_of_ascii c =? n)%nat.

(** The number of bytes of the white-space character at the head of [s],
    0 when there is none.  The white space of [str.strip] and [str.split]
    is the characters [str.isspace] accepts: those of the ASCII range, and
    U+0085, U+00A0, U+1680, U+2000 to U+200A, U+2028, U+2029, U+202F,
    U+205F and U+3000, here in their UTF-8 encoding. *)
Definition space_len (s : string) : nat :=
  match s with
  | String a r =>
      if isspace a then 1%nat
      else
        match r with
        | String b r' =>
            if byte_is a 194 && (byte_is b 133 || byte_is b 160) then 2%nat
            else
              match r' with
              | String c _ =>
                  let n := nat_of_ascii c in
                  if byte_is a 225 && byte_is b 154 && byte_is c 128 then 3%nat
                  else if byte_is a 226 && byte_is b 128 &&
                          (((128 <=? n)%nat && (n <=? 138)%nat)
                           || byte_is c 168 || byte_is c 169 || byte_is c 175)
                  then 3%nat
                  else if byte_is a 226 && byte_is b 129 && byte_is c 159 then 3%nat
                  else if byte_is a 227 && byte_is b 128 && byte_is c 128 then 3%nat
                  else O
              | EmptyString => O
              end
        | EmptyString => O
        end
  | EmptyString => O
  end.

(** [s[n:]], in bytes. *)
Fixpoint drop (n : nat) (s : string) : string :=
  match n, s with
  | O, _ => s
  | S n', String _ r => drop n' r
  | S _, EmptyString => EmptyString
  end.

Definition lower_char (c : ascii) : ascii :=
  let n := nat_of_ascii c in
  if ((65 <=? n)%nat && (n <=? 90)%nat) then ascii_of_nat (n + 32) else c.

(** [s.lower()] for the letters of the ASCII range and for the two other
    characters whose lower case has an ASCII letter: U+0130, the dotted
    capital I, which becomes [i] and U+0307, and U+212A, the Kelvin sign,
    which becomes [k].  The other characters are left as they are, none of
    them having an ASCII character in its lower case: a test of the result
    against an ASCII word is that of Python. *)
Fixpoint lower (s : string) : string :=
  match s with
  | EmptyString => EmptyString
  | String a r =>
      match r with
      | String b r' =>
          if byte_is a 196 && byte_is b 176
          then String (chr 105) (String (chr 204) (String (chr 135) (lower r')))
          else
            match r' with
            | String c r'' =>
                if byte_is a 226 && byte_is b 132 && byte_is c 170
                then String (chr 107) (lower r'')
                else String (lower_char a) (lower r)
            | EmptyString => String (lower_char a) (lower r)
            end
      | EmptyString => String (lower_char a) (lower r)
      end
  end.

(** Takes white-space characters off the head of [s], [fuel] at most. *)
Fixpoint lstrip_go (fuel : nat) (s : string) : string :=
  match fuel with
  | O => s
  | S fuel' =>
      match space_len s with
      | O => s
      | n => lstrip_go fuel' (drop n s)
      end
  end.

(** [s.lstrip()] *)
Definition lstrip (s : string) : string := lstrip_go (String.length s) s.

(** [s] is one white-space character. *)
Definition is_space (s : string) : bool :=
  match space_len s with
  | O => false
  | n => (n =? String.length s)%nat
  end.

(** [s.rstrip()]: from the right; what is left of a character and the
    stripped rest is dropped when it is one white-space character. *)
Fixpoint rstrip (s : string) : string :=
  match s with
  | EmptyString => EmptyString
  | String c r =>
      let r' := rstrip r in
      if is_space (String c r') then EmptyString else String c r'
  end.

(** [s.strip()] *)
Definition strip (s : string) : string := rstrip (lstrip s).

(** [s.split()]: the maximal runs of characters that are not white space.
    [cur] is the run being read, reversed. *)
Fixpoint split_go (cur : list ascii) (s : string) : list string :=
  let flush := match cur with
               | [] => []
               | _ => [string_of_list_ascii (rev cur)]
               end in
  match space_len s, s with
  | 1%nat, String _ r => flush ++ split_go [] r
  | 2%nat, String _ (String _ r) => flush ++ split_go [] r
  | 3%nat, String _ (String _ (String _ r)) => flush ++ split_go [] r
  | _, String c r => split_go (c :: cur) r
  | _, EmptyString => flush
  end.

Definition split (s : string) : list string := split_go [] s.

(** [s.startswith(p)] *)
Definition startswith (s p : string) : bool := String.prefix p s.

(** [s.endswith(c)] for a single character [c]. *)
Fixpoint endswith_char (s : string) (c : ascii) : bool :=
  match s with
  | EmptyString => false
  | String d EmptyString => if ascii_dec d c then true else false
  | String _ r => endswith_char r c
  end.

(** [p in s] *)
Fixpoint contains (s p : string) : bool :=
  String.prefix p s ||
  match s with
  | EmptyString => false
  | String _ r => contains r p
  end.

(** [str(n)] for an [int]. *)
Definition of_Z (n : Z) : string := NilZero.string_of_int (Z.to_int n).

Definition LF : string := String (chr 10) EmptyString.

End PyStr.

(** ** Python numbers and values *)

(** The operations of Python's [float] the channel uses.  [float_of_str s] is
    [float(s)], [None] standing for [ValueError]; [float_repr] is [str(x)];
    the two comparisons are [n <= x] and [x <= n] for an [int] [n]. *)
Class PyFloat := {
  float : Type;
  float_of_str : string -> option float;
  float_repr : float -> string;
  int_le_float : Z -> float -> bool;
  float_le_int : float -> Z -> bool
}.

(** A reference implementation on exact decimals, [dmant * 10 ^ (- dscale)]
    with no trailing zero in the fraction, to run the model on inputs such as
    ["5"] or ["150"].  It reads plain decimal literals (sign, digits, an
    optional fraction) and no other form [float()] accepts.  On such a
    literal of at most 15 significant digits, of magnitude from 1e-4 up to
    1e16 and not a negative zero, it prints what CPython prints for the float
    read, and compares as CPython does. *)
Module Decimal.

Record dec := mkdec { dmant : Z; dscale : nat }.

Definition digit (c : ascii) : option Z :=
  let n := nat_of_ascii c in
  if ((48 <=? n)%nat && (n <=? 57)%nat) then Some (Z.of_nat (n - 48)) else None.

(** Reads the digits of the fraction: the mantissa so far and the scale. *)
Fixpoint frac_digits (m : Z) (k : nat) (s : string) : option (Z * nat) :=
  match s with
  | EmptyString => Some (m, k)
  | String c r =>
      match digit c with
      | Some d => frac_digits (10 * m + d) (S k) r
      | None => None
      end
  end.

(** Reads the integer digits; [seen] tells whether a digit was read. *)
Fixpoint int_digits (m : Z) (seen : bool) (s : string) : option (Z * nat) :=
  match s with
  | EmptyString => if seen then Some (m, O) else None
  | String c r =>
      match digit c with
      | Some d => int_digits (10 * m + d) true r
      | None =>
          if ascii_dec c "."%char then
            match r with
            | EmptyString => if seen then Some (m, O) else None
            | _ => frac_digits m O r
            end
          else None
      end
  end.

Fixpoint normalise (m : Z) (k : nat) : dec :=
  match k with
  | O => mkdec m O
  | S k' => if m mod 10 =? 0 then normalise (m / 10) k' else mkdec m k
  end.

Definition of_str (s : string) : option dec :=
  let (neg, body) :=
    match s with
    | String c r =>
        if ascii_dec c "-"%char then (true, r)
        else if ascii_dec c "+"%char then (false, r)
        else (false, s)
    | EmptyString => (false, s)
    end in
  match int_digits 0 false body with
  | Some (m, k) => Some (normalise (if neg then - m else m) k)
  | None => None
  end.

Fixpoint zeros (n : nat) : string :=
  match n with
  | O => EmptyString
  | S n' => String "0"%char (zeros n')
  end.

Definition repr (x : dec) : string :=
  let a := Z.abs (dmant x) in
  let p := 10 ^ Z.of_nat (dscale x) in
  let fr := PyStr.of_Z (a mod p) in
  (if dmant x <? 0 then "-" else "") +:+ PyStr.of_Z (a / p) +:+ "." +:+
  match dscale x with
  | O => "0"
  | S _ => zeros (dscale x - String.length fr) +:+ fr
  end.

Definition int_le (n : Z) (x : dec) : bool :=
  n * 10 ^ Z.of_nat (dscale x) <=? dmant x.

Definition le_int (x : dec) (n : Z) : bool :=
  dmant x <=? n * 10 ^ Z.of_nat (dscale x).

#[export] Instance decimal_float : PyFloat := {|
  float := dec;
  float_of_str := of_str;
  float_repr := repr;
  int_le_float := int_le;
  float_le_int := le_int
|}.

End Decimal.

Section Values.

Context `{PyFloat}.

(** The values a decoded command carries.  [VOther] stands for a list or a
    nested object, given by the text [str()] has for it: the channel only
    formats it. *)
Inductive pyval :=
| VNone
| VBool (b : bool)
| VInt (n : Z)
| VFloat (x : float)
| VStr (s : string)
| VOther (shown : string).

(** [str(v)], as an f-string field formats it. *)
Definition py_str (v : pyval) : string :=
  match v with
  | VNone => "None"
  | VBool true => "True"
  | VBool false => "False"
  | VInt n => PyStr.of_Z n
  | VFloat x => float_repr x
  | VStr s => s
  | VOther t => t
  end.

(** [f"{command},{value},{unit}\n"], the line of [send_to_robot]
    (main_raspy.py, line 317) and of [send_command]
    (serial_monitor.py, line 125). *)
Definition fstring_cmd (command value unit_ : pyval) : string :=
  py_str command +:+ "," +:+ py_str value +:+ "," +:+ py_str unit_ +:+ PyStr.LF.

(** What [json.loads] gives: it raises [JSONDecodeError], returns an object
    (a [dict]) or a value of another type, or raises [ValueError], as it
    does for a text that is valid JSON and has an integer of more than 4300
    digits (the limit of [int] on the length of a literal). *)
Inductive decoded :=
| JSONDecodeError
| JObject (d : gmap string pyval)
| JNotObject
| JValueError.

(** [d.get(key, default)] *)
Definition dict_get (d : gmap string pyval) (key : string) (default : pyval) : pyval :=
  match d !! key with
  | Some v => v
  | None => default
  end.

End Values.

(** ** The serial device and the effects of the channel *)

(** An entry of [serial.tools.list_ports.comports()]. *)
Record ListPortInfo := {
  device : string;
  description : option string;
  manufacturer : option string
}.

(** The calls on the serial object that can raise. *)
Inductive io :=
| Open (port : string)
| ResetInput
| ResetOutput
| Write (data : string)
| Flush.

(** What the programs show on the console, as far as the channel goes. *)
Inductive notice :=
| DeviceLine (text : string)
| Sent (line : string)
| RawSent (line : string)
| NotConnected
| SendError
| Usage (verb : string)
| SpeedRange
| UnknownCommand (input : string)
| Help
| ClearScreen
| Disconnected.

(** The observable effects, in the order they happen.  [EvIO op ok] is a
    call that returned ([ok = true]) or raised ([ok = false]). *)
Inductive event :=
| EvLed (status ready : bool)
| EvSleep (ms : Z)
| EvIO (op : io) (ok : bool)
| EvClose
| EvPrint (n : notice).

(** The state the calls thread.  [ser] is the serial object: [None] when
    there is none, otherwise its [is_open].  [SERIAL_PORT] is the endpoint in
    use ([self.port] in the monitor).  [faults] tells, for each fallible call
    to come, whether it raises (none does once the script is used up).  [rx]
    holds the inbound lines not read yet, each with its arrival time.  The
    last four fields are the surroundings of the discovery: the enumerated
    endpoints, the configuration flag of main_raspy.py ([False] as shipped),
    whether the node /dev/ttyS0 exists and whether the boot configuration
    enables the UART. *)
Record world := {
  clock : Z;
  trace : list event;
  ser : option bool;
  SERIAL_PORT : option string;
  running : bool;
  faults : list bool;
  rx : list (Z * string);
  comports : list ListPortInfo;
  GPIO_UART_ENABLE : bool;
  ttyS0_exists : bool;
  uart_in_boot_config : bool
}.

Definition with_clock (t : Z) (w : world) : world :=
  {| clock := t; trace := trace w; ser := ser w; SERIAL_PORT := SERIAL_PORT w;
     running := running w; faults := faults w; rx := rx w;
     comports := comports w; GPIO_UART_ENABLE := GPIO_UART_ENABLE w;
     ttyS0_exists := ttyS0_exists w;
     uart_in_boot_config := uart_in_boot_config w |}.

Definition with_trace (l : list event) (w : world) : world :=
  {| clock := clock w; trace := l; ser := ser w; SERIAL_PORT := SERIAL_PORT w;
     running := running w; faults := faults w; rx := rx w;
     comports := comports w; GPIO_UART_ENABLE := GPIO_UART_ENABLE w;
     ttyS0_exists := ttyS0_exists w;
     uart_in_boot_config := uart_in_boot_config w |}.

Definition with_ser (h : option bool) (w : world) : world :=
  {| clock := clock w; trace := trace w; ser := h; SERIAL_PORT := SERIAL_PORT w;
     running := running w; faults := faults w; rx := rx w;
     comports := comports w; GPIO_UART_ENABLE := GPIO_UART_ENABLE w;
     ttyS0_exists := ttyS0_exists w;
     uart_in_boot_config := uart_in_boot_config w |}.

Definition with_port (p : option string) (w : world) : world :=
  {| clock := clock w; trace := trace w; ser := ser w; SERIAL_PORT := p;
     running := running w; faults := faults w; rx := rx w;
     comports := comports w; GPIO_UART_ENABLE := GPIO_UART_ENABLE w;
     ttyS0_exists := ttyS0_exists w;
     uart_in_boot_config := uart_in_boot_config w |}.

Definition with_running (b : bool) (w : world) : world :=
  {| clock := clock w; trace := trace w; ser := ser w; SERIAL_PORT := SERIAL_PORT w;
     running := b; faults := faults w; rx := rx w;
     comports := comports w; GPIO_UART_ENABLE := GPIO_UART_ENABLE w;
     ttyS0_exists := ttyS0_exists w;
     uart_in_boot_config := uart_in_boot_config w |}.

Definition with_faults (l : list bool) (w : world) : world :=
  {| clock := clock w; trace := trace w; ser := ser w; SERIAL_PORT := SERIAL_PORT w;
     running := running w; faults := l; rx := rx w;
     comports := comports w; GPIO_UART_ENABLE := GPIO_UART_ENABLE w;
     ttyS0_exists := ttyS0_exists w;
     uart_in_boot_config := uart_in_boot_config w |}.

Definition with_rx (l : list (Z * string)) (w : world) : world :=
  {| clock := clock w; trace := trace w; ser := ser w; SERIAL_PORT := SERIAL_PORT w;
     running := running w; faults := faults w; rx := l;
     comports := comports w; GPIO_UART_ENABLE := GPIO_UART_ENABLE w;
     ttyS0_exists := ttyS0_exists w;
     uart_in_boot_config := uart_in_boot_config w |}.

(** A call returns a value, raises, or is cut short because the fuel of a
    loop ran out. *)
Inductive outcome (A : Type) :=
| Ret (a : A) (w : world)
| Exc (w : world)
| OutOfFuel.
Arguments Ret {A} a w.
Arguments Exc {A} w.
Arguments OutOfFuel {A}.

Definition M (A : Type) : Type := world -> outcome A.

Definition ret {A} (a : A) : M A := fun w => Ret a w.

Definition bind {A B} (m : M A) (f : A -> M B) : M B := fun w =>
  match m w with
  | Ret a w' => f a w'
  | Exc w' => Exc w'
  | OutOfFuel => OutOfFuel
  end.

Declare Scope py_scope.
Delimit Scope py_scope with py.
Notation "x <- m ;; k" := (bind m (fun x => k))
  (at level 100, m at next level, right associativity) : py_scope.
Notation "m ;; k" := (bind m (fun _ => k))
  (at level 100, k at level 200, right associativity) : py_scope.
Local Open Scope py_scope.

Definition raise {A} : M A := fun w => Exc w.
Definition out_of_fuel {A} : M A := fun _ => OutOfFuel.

(** [try: body except Exception: handler] *)
Definition try_except {A} (body handler : M A) : M A := fun w =>
  match body w with
  | Exc w' => handler w'
  | o => o
  end.

Definition emit (e : event) : M unit := fun w => Ret () (with_trace (trace w ++ [e]) w).

(** [time.time()] *)
Definition time : M Z := fun w => Ret (clock w) w.

(** [time.sleep(ms / 1000)] *)
Definition sleep (ms : Z) : M unit := fun w =>
  Ret () (with_clock (clock w + ms) (with_trace (trace w ++ [EvSleep ms]) w)).

(** [print] of a notice *)
Definition print (n : notice) : M unit := emit (EvPrint n).

(** [set_status_led]: the failures of the GPIO are swallowed, so it never
    raises (main_raspy.py, lines 143-149). *)
Definition set_status_led (status ready : bool) : M unit := emit (EvLed status ready).

(** A fallible call on the serial object: the next entry of the fault script
    decides whether it raises. *)
Definition fallible (op : io) : M unit := fun w =>
  match faults w with
  | true :: l => Exc (with_faults l (with_trace (trace w ++ [EvIO op false]) w))
  | false :: l => Ret () (with_faults l (with_trace (trace w ++ [EvIO op true]) w))
  | [] => Ret () (with_trace (trace w ++ [EvIO op true]) w)
  end.

(** [ser and ser.is_open] *)
Definition is_open (w : world) : bool :=
  match ser w with
  | Some b => b
  | None => false
  end.

(** [ser = serial.Serial(port=...)]: the assignment happens only when the
    constructor returns. *)
Definition serial_Serial (port : string) : M unit :=
  fallible (Open port) ;; fun w => Ret () (with_ser (Some true) w).

(** The calls below raise on a closed port, as pySerial does. *)
Definition on_open_port (op : io) : M unit := fun w =>
  if is_open w then fallible op w else Exc w.

Definition ser_write (data : string) : M unit := on_open_port (Write data).
Definition ser_flush : M unit := on_open_port Flush.
Definition ser_reset_output_buffer : M unit := on_open_port ResetOutput.

Definition arrived (t : Z) (l : Z * string) : bool := l.1 <=? t.

(** [ser.reset_input_buffer()] drops what has arrived. *)
Fixpoint drop_arrived (t : Z) (l : list (Z * string)) : list (Z * string) :=
  match l with
  | x :: r => if arrived t x then drop_arrived t r else l
  | [] => []
  end.

Definition ser_reset_input_buffer : M unit :=
  on_open_port ResetInput ;; fun w => Ret () (with_rx (drop_arrived (clock w) (rx w)) w).

(** [ser.in_waiting]: true when the next line has arrived. *)
Definition ser_in_waiting : M bool := fun w =>
  match rx w with
  | x :: _ => Ret (arrived (clock w) x) w
  | [] => Ret false w
  end.

(** [ser.readline().decode('utf-8', errors='ignore').strip()] *)
Definition ser_readline_strip : M string := fun w =>
  match rx w with
  | x :: r => Ret (PyStr.strip x.2) (with_rx r w)
  | [] => Ret EmptyString w
  end.

(** [ser.close()]; closing a closed port does nothing. *)
Definition ser_close : M unit := fun w =>
  if is_open w then Ret () (with_ser (Some false) (with_trace (trace w ++ [EvClose]) w))
  else Ret () w.

Definition nonempty (s : string) : bool :=
  match s with
  | EmptyString => false
  | _ => true
  end.

(** ** Endpoint discovery *)

(** [for port in ports: if port.device == port_name: return port.device] *)
Fixpoint first_named (port_name : string) (ports : list ListPortInfo) : option string :=
  match ports with
  | [] => None
  | port :: r =>
      if String.eqb (device port) port_name then Some (device port)
      else first_named port_name r
  end.

(** [for port_name in names: for port in ports: ...] *)
Fixpoint priority_scan (names : list string) (ports : list ListPortInfo) : option string :=
  match names with
  | [] => None
  | port_name :: r =>
      match first_named port_name ports with
      | Some d => Some d
      | None => priority_scan r ports
      end
  end.

(** [any(x in s for x in keywords)] *)
Definition any_in (keywords : list string) (s : string) : bool :=
  existsb (PyStr.contains s) keywords.

(** [ports[0].device if ports else None] *)
Definition first_port (ports : list ListPortInfo) : option string :=
  match ports with
  | port :: _ => Some (device port)
  | [] => None
  end.

Definition lower_or_empty (o : option string) : string :=
  match o with
  | Some d => PyStr.lower d
  | None => EmptyString
  end.

(** ** main_raspy.py: the voice controller *)

Module main_raspy.
Section Program.

Context `{PyFloat}.

Definition GPIO_UART_PORT : string := "/dev/ttyS0".

(** [check_gpio_uart_available] (lines 151-172): the node exists and the
    boot configuration has [enable_uart=1]. *)
Definition check_gpio_uart_available (w : world) : bool :=
  if negb (ttyS0_exists w) then false else uart_in_boot_config w.

Definition priority_ports : list string :=
  [GPIO_UART_PORT; "/dev/ttyUSB0"; "/dev/ttyUSB1"; "/dev/ttyACM0"; "/dev/ttyACM1"].

(** The second loop of [find_esp32_port_rpi] (lines 201-216). *)
Fixpoint keyword_scan (ports : list ListPortInfo) : option string :=
  match ports with
  | [] => None
  | port :: r =>
      let desc := lower_or_empty (description port) in
      let mfr := lower_or_empty (manufacturer port) in
      if any_in ["ch340"; "cp210"; "usb serial"; "uart"; "silicon labs"; "usb2.0-serial"] desc
      then Some (device port)
      else if any_in ["qinheng"; "silicon"; "ftdi"; "1a86"] mfr
      then Some (device port)
      else if PyStr.contains (device port) "ttyUSB" || PyStr.contains (device port) "ttyACM"
      then Some (device port)
      else keyword_scan r
  end.

(** [find_esp32_port_rpi] (lines 174-228) *)
Definition find_esp32_port_rpi (w : world) : option string :=
  if GPIO_UART_ENABLE w && check_gpio_uart_available w then Some GPIO_UART_PORT
  else
    let ports := comports w in
    match priority_scan priority_ports ports with
    | Some d => Some d
    | None =>
        match keyword_scan ports with
        | Some d => Some d
        | None => first_port ports
        end
    end.

Definition STATUS_probe : string := "STATUS,0,none" +:+ PyStr.LF.

(** The loop that reads the start-up lines (lines 281-294).  It returns
    [startup_messages]. *)
Fixpoint startup_loop (fuel : nat) (startup_messages : list string)
    (timeout_start : Z) : M (list string) :=
  match fuel with
  | O => out_of_fuel
  | S fuel' =>
      now <- time ;;
      if now - timeout_start <? 3000 then
        waiting <- ser_in_waiting ;;
        if waiting then
          startup_msg <- ser_readline_strip ;;
          if nonempty startup_msg then
            print (DeviceLine startup_msg) ;;
            now' <- time ;;
            startup_loop fuel' (startup_messages ++ [startup_msg]) now'
          else startup_loop fuel' startup_messages timeout_start
        else
          sleep 100 ;;
          startup_loop fuel' startup_messages timeout_start
      else ret startup_messages
  end.

(** The [try] block of [init_serial] (lines 246-297). *)
Definition handshake (port : string) (fuel : nat) : M bool :=
  serial_Serial port ;;
  sleep 3000 ;;
  ser_reset_input_buffer ;;
  ser_reset_output_buffer ;;
  ser_write STATUS_probe ;;
  sleep 500 ;;
  timeout_start <- time ;;
  startup_loop fuel [] timeout_start ;;
  set_status_led true true ;;
  ret true.

(** [if SERIAL_PORT is None: SERIAL_PORT = find_esp32_port_rpi()] *)
Definition resolve_port : M unit := fun w =>
  match SERIAL_PORT w with
  | None => Ret () (with_port (find_esp32_port_rpi w) w)
  | Some _ => Ret () w
  end.

(** [init_serial] (lines 230-303) *)
Definition init_serial (fuel : nat) : M bool :=
  set_status_led true false ;;
  resolve_port ;;
  fun w =>
    match SERIAL_PORT w with
    | None => (set_status_led false false ;; ret false) w
    | Some port =>
        try_except (handshake port fuel) (set_status_led false false ;; ret false) w
    end.

(** The loop that reads the replies to a command (lines 338-361).  It
    returns [response_count]; the lines are printed as they are read. *)
Fixpoint response_loop (fuel : nat) (response_count : Z) (timeout_start : Z) : M Z :=
  match fuel with
  | O => out_of_fuel
  | S fuel' =>
      now <- time ;;
      if now - timeout_start <? 3000 then
        waiting <- ser_in_waiting ;;
        if waiting then
          response <- ser_readline_strip ;;
          if nonempty response then
            print (DeviceLine response) ;;
            now' <- time ;;
            set_status_led false false ;;
            sleep 50 ;;
            set_status_led true true ;;
            response_loop fuel' (response_count + 1) now'
          else response_loop fuel' response_count timeout_start
        else
          sleep 50 ;;
          now' <- time ;;
          if (0 <? response_count) && (1000 <? now' - timeout_start)
          then ret response_count
          else response_loop fuel' response_count timeout_start
      else ret response_count
  end.

(** The reading of the replies, from the pause before it (lines 333-361). *)
Definition collect_responses (fuel : nat) : M Z :=
  sleep 300 ;;
  timeout_start <- time ;;
  response_loop fuel 0 timeout_start.

(** The [try] block of [send_to_robot] after [json.loads] (lines 312-367),
    for a decoded object [cmd_data]. *)
Definition transmit (fuel : nat) (cmd_data : gmap string pyval) : M bool :=
  let command := dict_get cmd_data "command" (VStr "STOP") in
  let value := dict_get cmd_data "value" (VInt 0) in
  let unit_ := dict_get cmd_data "unit" (VStr "none") in
  let serial_cmd := fstring_cmd command value unit_ in
  set_status_led false true ;;
  sleep 100 ;;
  set_status_led true true ;;
  ser_write serial_cmd ;;
  ser_flush ;;
  print (Sent (PyStr.strip serial_cmd)) ;;
  collect_responses fuel ;;
  ret true.

(** The handler [except Exception] of [send_to_robot] (lines 372-383). *)
Definition reconnect (fuel : nat) : M bool :=
  set_status_led false false ;;
  try_except
    ((fun w => match ser w with
               | Some _ => ser_close w
               | None => Ret () w
               end) ;;
     sleep 1000 ;;
     init_serial fuel ;;
     ret ())
    (ret ()) ;;
  ret false.

(** [send_to_robot] (lines 305-387); [cmd] is what [json.loads] makes of
    [command_json].  A [JSONDecodeError] has its own handler; a value that
    is not an object has no [get], which raises; and a [ValueError] of
    [json.loads] is raised in the [try] block as well. *)
Definition send_to_robot (fuel : nat) (cmd : decoded) : M bool := fun w =>
  if is_open w then
    match cmd with
    | JSONDecodeError => Ret false w
    | JObject cmd_data => try_except (transmit fuel cmd_data) (reconnect fuel) w
    | JNotObject => try_except raise (reconnect fuel) w
    | JValueError => try_except raise (reconnect fuel) w
    end
  else (set_status_led false false ;; ret false) w.

(** The literal ['{"command": "STOP", "value": 0, "unit": "none"}'], decoded. *)
Definition STOP_json : decoded :=
  JObject (<["command" := VStr "STOP"]> (<["value" := VInt 0]> (<["unit" := VStr "none"]> ∅))).

(** The [finally] block of [main] (lines 930-946), up to the GPIO cleanup. *)
Definition main_finally (fuel : nat) : M unit :=
  set_status_led false false ;;
  fun w =>
    if is_open w then
      try_except
        (send_to_robot fuel STOP_json ;;
         sleep 500 ;;
         ser_close)
        (ret ()) w
    else Ret () w.

End Program.
End main_raspy.

(** ** serial_monitor.py: the operator's monitor *)

(** What [input()] gives: a line, or one of the two exceptions the loop
    catches. *)
Inductive keyboard :=
| Line (text : string)
| KeyboardInterrupt
| EOFError.

(** Whether the body of the loop goes on to the next input or breaks. *)
Inductive flow := Continue | Break.

Module serial_monitor.
Section Program.

Context `{PyFloat}.

Definition priority_ports : list string :=
  ["/dev/ttyS0"; "/dev/ttyUSB0"; "/dev/ttyUSB1"; "/dev/ttyACM0"; "/dev/ttyACM1"].

(** [find_esp32_port] (lines 28-59) *)
Definition find_esp32_port (w : world) : option string :=
  let ports := comports w in
  if ttyS0_exists w then Some "/dev/ttyS0"
  else
    match priority_scan (tail priority_ports) ports with
    | Some d => Some d
    | None => first_port ports
    end.

(** [connect] (lines 61-90); [port] is the argument, [None] by default. *)
Definition connect (port : option string) : M bool :=
  (fun w => match port with
            | Some p => if nonempty p then Ret () (with_port (Some p) w)
                        else Ret () (with_port (find_esp32_port w) w)
            | None => Ret () (with_port (find_esp32_port w) w)
            end) ;;
  fun w =>
    match SERIAL_PORT w with
    | None => Ret false w
    | Some p =>
        if nonempty p then
          try_except
            (serial_Serial p ;;
             sleep 2000 ;;
             ret true)
            (ret false) w
        else Ret false w
    end.

(** [disconnect] (lines 92-100) *)
Definition disconnect : M unit :=
  (fun w => Ret () (with_running false w)) ;;
  fun w =>
    if is_open w then (ser_close ;; print Disconnected) w
    else Ret () w.

(** [send_command] (lines 118-135) *)
Definition send_command (command value unit_ : pyval) : M bool := fun w =>
  if negb (is_open w) then (print NotConnected ;; ret false) w
  else
    try_except
      (let cmd_string := fstring_cmd command value unit_ in
       ser_write cmd_string ;;
       ser_flush ;;
       print (Sent (PyStr.strip cmd_string)) ;;
       ret true)
      (print SendError ;; ret false) w.

(** [send_raw] (lines 137-156) *)
Definition send_raw (raw_data : string) : M bool := fun w =>
  if negb (is_open w) then (print NotConnected ;; ret false) w
  else
    try_except
      (let raw_data :=
         if negb (PyStr.endswith_char raw_data (PyStr.chr 10))
         then raw_data +:+ PyStr.LF else raw_data in
       ser_write raw_data ;;
       ser_flush ;;
       print (RawSent (PyStr.strip raw_data)) ;;
       ret true)
      (print SendError ;; ret false) w.

(** [start_monitoring] (lines 158-173); the reader thread only prints. *)
Definition start_monitoring : M bool := fun w =>
  if negb (is_open w) then (print NotConnected ;; ret false) w
  else Ret true (with_running true w).

(** [float(user_input.split()[1])]: [None] when either the index or the
    conversion raises. *)
Definition float_argument (user_input : string) : option float :=
  match PyStr.split user_input with
  | _ :: arg :: _ => float_of_str arg
  | _ => None
  end.

(** The branches for [forward], [backward], [left] and [right]
    (lines 232-255). *)
Definition motion (user_input name unit_ verb : string) : M unit :=
  match float_argument user_input with
  | Some x => try_except (send_command (VStr name) (VFloat x) (VStr unit_) ;; ret ())
                         (print (Usage verb))
  | None => print (Usage verb)
  end.

(** The branch for [speed] (lines 256-264). *)
Definition speed_command (user_input : string) : M unit :=
  match float_argument user_input with
  | Some speed =>
      try_except
        (if int_le_float 0 speed && float_le_int speed 100
         then send_command (VStr "SPEED") (VFloat speed) (VStr "percent") ;; ret ()
         else print SpeedRange)
        (print (Usage "speed"))
  | None => print (Usage "speed")
  end.

(** The chain of tests on [user_input] (lines 219-270). *)
Definition dispatch (user_input : string) : M flow :=
  if negb (nonempty user_input) then ret Continue
  else if String.eqb user_input "quit" || String.eqb user_input "exit"
          || String.eqb user_input "q" then ret Break
  else if String.eqb user_input "help" then print Help ;; ret Continue
  else if String.eqb user_input "clear" then print ClearScreen ;; ret Continue
  else if String.eqb user_input "status" then
    send_command (VStr "STATUS") (VInt 0) (VStr "none") ;; ret Continue
  else if String.eqb user_input "stop" then
    send_command (VStr "STOP") (VInt 0) (VStr "none") ;; ret Continue
  else if PyStr.startswith user_input "forward " then
    motion user_input "FORWARD" "meter" "forward" ;; ret Continue
  else if PyStr.startswith user_input "backward " then
    motion user_input "BACKWARD" "meter" "backward" ;; ret Continue
  else if PyStr.startswith user_input "left " then
    motion user_input "LEFT" "degree" "left" ;; ret Continue
  else if PyStr.startswith user_input "right " then
    motion user_input "RIGHT" "degree" "right" ;; ret Continue
  else if PyStr.startswith user_input "speed " then
    speed_command user_input ;; ret Continue
  else if PyStr.startswith user_input "raw " then
    let raw_data := PyStr.drop 4 user_input in
    send_raw raw_data ;; ret Continue
  else print (UnknownCommand user_input) ;; ret Continue.

(** The body of the loop of [interactive_mode] for one line of input:
    [user_input = input("ESP32> ").strip().lower()] and the tests on it
    (lines 217-270). *)
Definition handle_input (text : string) : M flow :=
  dispatch (PyStr.lower (PyStr.strip text)).

(** The loop of [interactive_mode] (lines 215-275).  An exhausted keyboard
    is the end of the input. *)
Fixpoint input_loop (keys : list keyboard) : M unit := fun w =>
  if running w then
    match keys with
    | Line text :: keys' =>
        (f <- handle_input text ;;
         match f with
         | Continue => input_loop keys'
         | Break => ret ()
         end) w
    | KeyboardInterrupt :: _ => Ret () w
    | EOFError :: _ => Ret () w
    | [] => Ret () w
    end
  else Ret () w.

(** [interactive_mode] (lines 207-282) *)
Definition interactive_mode (keys : list keyboard) : M unit :=
  started <- start_monitoring ;;
  if negb started then ret ()
  else
    print Help ;;
    try_except (input_loop keys) (ret ()) ;;
    disconnect.

(** [main] (lines 284-304); [argv1] is the optional port argument. *)
Definition main (argv1 : option string) (keys : list keyboard) : M unit :=
  try_except
    (connected <- connect argv1 ;;
     if connected then interactive_mode keys else ret ())
    (ret ()) ;;
  disconnect.

End Program.
End serial_monitor.

(** ** Reading a trace *)

(** The time slept during [evs]. *)
Fixpoint slept (evs : list event) : Z :=
  match evs with
  | EvSleep ms :: r => ms + slept r
  | _ :: r => slept r
  | [] => 0
  end.

(** The time since the last line of the device was shown, for a run that
    starts [q] ms after one: every sleep adds to it, every line restarts it. *)
Fixpoint quiet_after (q : Z) (evs : list event) : Z :=
  match evs with
  | EvSleep ms :: r => quiet_after (q + ms) r
  | EvPrint (DeviceLine _) :: r => quiet_after 0 r
  | _ :: r => quiet_after q r
  | [] => q
  end.

(** The lines of the device shown during [evs], in order. *)
Fixpoint shown (evs : list event) : list string :=
  match evs with
  | EvPrint (DeviceLine t) :: r => t :: shown r
  | _ :: r => shown r
  | [] => []
  end.

(** The data of the writes attempted during [evs], in order. *)
Fixpoint writes (evs : list event) : list string :=
  match evs with
  | EvIO (Write d) _ :: r => d :: writes r
  | _ :: r => writes r
  | [] => []
  end.

(** The ports of the opens attempted during [evs], in order. *)
Fixpoint opens (evs : list event) : list string :=
  match evs with
  | EvIO (Open p) _ :: r => p :: opens r
  | _ :: r => opens r
  | [] => []
  end.

(** The number of closes during [evs]. *)
Fixpoint closes (evs : list event) : nat :=
  match evs with
  | EvClose :: r => S (closes r)
  | _ :: r => closes r
  | [] => O
  end.

(** The texts a reader shows for the lines [l]: stripped, the empty ones
    left out. *)
Definition nonblank_lines (l : list (Z * string)) : list string :=
  List.filter nonempty (map (fun x => PyStr.strip x.2) l).

(** Fuel that is enough for the loops that read the device in [w]. *)
Definition enough_fuel (w : world) : nat := S (length (rx w) * 62 + 60).

(** None of the next [n] fallible calls raises. *)
Definition calm (n : nat) (l : list bool) : Prop := Forall (fun b => b = false) (take n l).

(** A world with an open connection and a quiet device, to run examples. *)
Definition connected (port : string) : world :=
  {| clock := 0; trace := []; ser := Some true; SERIAL_PORT := Some port;
     running := false; faults := []; rx := []; comports := [];
     GPIO_UART_ENABLE := false; ttyS0_exists := false;
     uart_in_boot_config := false |}.

(** The endpoint [init_serial] opens: the one in use, or else the one the
    discovery gives. *)
Definition endpoint (w : world) : option string :=
  match SERIAL_PORT w with
  | Some p => Some p
  | None => main_raspy.find_esp32_port_rpi w
  end.

(** ** The states a reading loop goes through *)

(** The world after [time.sleep(ms / 1000)]. *)
Definition tick (ms : Z) (w : world) : world :=
  with_clock (clock w + ms) (with_trace (trace w ++ [EvSleep ms]) w).

(** The world after the event [e]. *)
Definition logged (e : event) (w : world) : world := with_trace (trace w ++ [e]) w.

(** Whether the next fallible call raises. *)
Definition next_fault (w : world) : bool :=
  match faults w with
  | b :: _ => b
  | [] => false
  end.

(** The world after the fallible call [op] returned, and after it raised. *)
Definition passed (op : io) (w : world) : world :=
  with_faults (tail (faults w)) (logged (EvIO op true) w).
Definition failed (op : io) (w : world) : world :=
  with_faults (tail (faults w)) (logged (EvIO op false) w).

(** The world after [response_loop] took the line [t], [r] being the lines
    left. *)
Definition shown_line (t : string) (r : list (Z * string)) (w : world) : world :=
  logged (EvLed true true) (tick 50 (logged (EvLed false false)
    (logged (EvPrint (DeviceLine t)) (with_rx r w)))).

(** The [else] branch of [response_loop]: nothing is waiting. *)
Definition poll (fuel : nat) (response_count timeout_start : Z) (w : world) : outcome Z :=
  if (0 <? response_count) && (1000 <? clock w + 50 - timeout_start)
  then Ret response_count (tick 50 w)
  else main_raspy.response_loop fuel response_count timeout_start (tick 50 w).

(** What bounds the iterations left: the lines to read and the polls, of
    50 ms at least, to the end of the window. *)
Definition iterations_left (timeout_start : Z) (w : world) : nat :=
  (length (rx w) * 62 + Z.to_nat ((3000 - (clock w - timeout_start) + 49) / 50))%nat.

(** The next line, if there is one, has not arrived at time [t]. *)
Definition next_not_arrived (t : Z) (w : world) : Prop :=
  match rx w with
  | x :: _ => arrived t x = false
  | [] => True
  end.

(** An event of a loop that only reads: no call that can raise, no close. *)
Definition reading (e : event) : Prop :=
  match e with
  | EvIO _ _ | EvClose => False
  | _ => True
  end.

(** [w'] is [w] after a loop read [k] lines, with the events [evs]: the lines
    shown are the non-empty ones among those read, in order, the clock moved
    by the time slept, and the connection is as it was. *)
Record reads (w w' : world) (k : nat) (evs : list event) : Prop := {
  reads_rx : rx w' = drop k (rx w);
  reads_trace : trace w' = trace w ++ evs;
  reads_shown : shown evs = nonblank_lines (take k (rx w));
  reads_clock : clock w' = clock w + slept evs;
  reads_only : Forall reading evs;
  reads_ser : ser w' = ser w;
  reads_faults : faults w' = faults w;
  reads_port : SERIAL_PORT w' = SERIAL_PORT w
}.

(** ** Notions the properties are stated with *)

(** A device that sends the one line ["OK"], 200 ms after the loop starts. *)
Definition one_reply : world := with_rx [(200, "OK")] (connected "/dev/ttyUSB0").

(** A device that is still starting: its one line arrives 4 s after the
    call, that is 500 ms after the start-up loop began. *)
Definition booting : world :=
  with_rx [(4000, "ESP32 ready")] (with_ser None (connected "/dev/ttyUSB0")).

(** A device whose one line arrives 1 s after the start-up loop began. *)
Definition late_line : world := with_rx [(1000, "ESP32 ready")] (connected "/dev/ttyUSB0").

(** [w'] is [w] after the events [evs] of a call that leaves the connection
    and the loop flag as they were. *)
Record talks (w w' : world) (evs : list event) : Prop := {
  talks_trace : trace w' = trace w ++ evs;
  talks_ser : ser w' = ser w;
  talks_running : running w' = running w;
  talks_closes : closes evs = O
}.

(** The paths of the enumerated endpoints. *)
Definition devices (ports : list ListPortInfo) : list string := map device ports.

(** The world with another enumeration of the endpoints. *)
Definition with_comports (ports : list ListPortInfo) (w : world) : world :=
  {| clock := clock w; trace := trace w; ser := ser w; SERIAL_PORT := SERIAL_PORT w;
     running := running w; faults := faults w; rx := rx w;
     comports := ports; GPIO_UART_ENABLE := GPIO_UART_ENABLE w;
     ttyS0_exists := ttyS0_exists w;
     uart_in_boot_config := uart_in_boot_config w |}.

(** [d] is the first of [names] that is enumerated in [ports]. *)
Definition highest_priority (names : list string) (ports : list ListPortInfo)
    (d : string) : Prop :=
  exists before after,
    names = before ++ d :: after /\
    In d (devices ports) /\
    forall q, In q before -> ~ In q (devices ports).

(** The GPIO rule of each program does not apply: in the voice controller
    the flag is off or the UART is not available; for the monitor the node
    /dev/ttyS0 does not exist, and so is not enumerated. *)
Definition no_gpio_rule_rpi (w : world) : Prop :=
  GPIO_UART_ENABLE w && main_raspy.check_gpio_uart_available w = false.
Definition no_gpio_rule_monitor (w : world) : Prop :=
  ttyS0_exists w = false /\ ~ In "/dev/ttyS0" (devices (comports w)).

(** A USB bridge at /dev/ttyUSB0. *)
Definition usb0 : ListPortInfo :=
  {| device := "/dev/ttyUSB0";
     description := Some "CP2102 USB to UART Bridge Controller";
     manufacturer := Some "Silicon Labs" |}.

(** A Raspberry Pi whose node /dev/ttyS0 exists, with a USB bridge plugged
    in; the enumeration lists the bridge only. *)
Definition pi_with_usb : world :=
  {| clock := 0; trace := []; ser := None; SERIAL_PORT := None;
     running := false; faults := []; rx := []; comports := [usb0];
     GPIO_UART_ENABLE := false; ttyS0_exists := true;
     uart_in_boot_config := false |}.

(** A machine without the node /dev/ttyS0, with the same bridge. *)
Definition pc_with_usb : world :=
  {| clock := 0; trace := []; ser := None; SERIAL_PORT := None;
     running := false; faults := []; rx := []; comports := [usb0];
     GPIO_UART_ENABLE := false; ttyS0_exists := false;
     uart_in_boot_config := false |}.

(** An open connection whose next write raises. *)
Definition broken_link : world := with_faults [true] (connected "/dev/ttyUSB0").

Section Notions.

Context `{PyFloat}.

(** The line [send_to_robot] makes of a decoded object. *)
Definition serial_cmd_of (cmd_data : gmap string pyval) : string :=
  fstring_cmd (dict_get cmd_data "command" (VStr "STOP"))
              (dict_get cmd_data "value" (VInt 0))
              (dict_get cmd_data "unit" (VStr "none")).

(** The events of [send_to_robot] up to the write. *)
Definition before_write : list event :=
  [EvLed false true; EvSleep 100; EvLed true true].

(** [raw_data] with the newline [send_raw] adds when there is none. *)
Definition raw_line (raw_data : string) : string :=
  if negb (PyStr.endswith_char raw_data (PyStr.chr 10))
  then raw_data +:+ PyStr.LF else raw_data.

(** A line that starts as a SPEED command carries a value that passed the
    test [0 <= speed <= 100]. *)
Definition speed_within (data : string) : Prop :=
  PyStr.startswith data "SPEED," = true ->
  exists x, data = fstring_cmd (VStr "SPEED") (VFloat x) (VStr "percent") /\
            int_le_float 0 x = true /\ float_le_int x 100 = true.

(** What a branch of the dispatcher does: it returns, leaves the
    connection as it was, and writes at most one line, [speed_within]. *)
Definition branch_ok {A} (m : M A) (w : world) : Prop :=
  exists a w' evs,
    m w = Ret a w' /\ talks w w' evs /\ Forall speed_within (writes evs).

(** The command of the voice path with the three keys given. *)
Definition command_json (command : string) (value : pyval) (unit_ : string)
    : gmap string pyval :=
  <["command" := VStr command]> (<["value" := value]> (<["unit" := VStr unit_]> ∅)).

End Notions.

(** ** main_raspy.py: around the channel *)

(** What the recording and the transcription of one utterance give
    [listen_and_transcribe_i2s]: no recording, an exception of the
    transcription, or the segments joined by spaces. *)
Inductive hearing :=
| RecordFailed
| TranscribeFailed
| Transcript (joined : string).

(** One turn of the loop of [main]: what is heard and what [ollama.chat]
    answers ([None] when it raises), or the interrupt of the operator, which
    is taken to arrive while the controller records. *)
Inductive turn :=
| Turn (heard : hearing) (ai : option string)
| Interrupt.

(** An entry of PyAudio's device table. *)
Record audio_device := {
  dev_name : string;
  maxInputChannels : Z
}.

Module controller.
Section Program.

Context `{PyFloat}.

(** [json.loads], the library's. *)
Variable json_loads : string -> decoded.

(** [detect_pi_model] (lines 86-97); [model_file] is the text of
    /proc/device-tree/model, [None] when reading it raises. *)
Definition detect_pi_model (model_file : option string) : bool :=
  match model_file with
  | Some text =>
      let model := PyStr.strip text in
      PyStr.contains model "Pi 5" || PyStr.contains model "5"
  | None => false
  end.

(** The text up to the first closing brace, with it. *)
Fixpoint upto_close (s : string) : option string :=
  match s with
  | EmptyString => None
  | String c r =>
      if ascii_dec c "}"%char then Some (String c EmptyString)
      else String c <$> upto_close r
  end.

(** A match of the pattern [\{[^}]+\}] at the start of [s]: an opening
    brace, a character that is not a closing brace, and the text up to the
    first closing brace. *)
Definition match_here (s : string) : option string :=
  match s with
  | String a (String c r) =>
      if ascii_dec a "{"%char then
        if ascii_dec c "}"%char then None
        else (fun m => String a (String c m)) <$> upto_close r
      else None
  | _ => None
  end.

(** [re.search(r'\{[^}]+\}', s)]: the leftmost match. *)
Fixpoint re_search (s : string) : option string :=
  match match_here s with
  | Some m => Some m
  | None =>
      match s with
      | EmptyString => None
      | String _ r => re_search r
      end
  end.

(** [extract_robot_command] (lines 389-395) *)
Definition extract_robot_command (ai_response : string) : option string :=
  re_search ai_response.

(** [struct.unpack('<i', b)[0]]: the bytes [b], the least significant
    first, as a signed integer of 32 bits. *)
Definition unpack_i (b : list Byte.byte) : Z :=
  let u := fold_right (fun x acc => Z.of_N (Byte.to_N x) + 256 * acc) 0 b in
  if u <? 2 ^ 31 then u else u - 2 ^ 32.

(** The sample [record_i2s_audio] makes of the four bytes of a frame
    (lines 627-631): the shift by 16 bits and the clamp. *)
Definition sample_16 (frame : list Byte.byte) : Z :=
  let val := unpack_i frame in
  let val_16 := Z.shiftr val 16 in
  Z.max (-32768) (Z.min 32767 val_16).

Definition usb_keywords : list string :=
  ["usb"; "webcam"; "logitech"; "c920"; "c270"; "blue yeti"; "samson"].

(** The first loop of [find_usb_microphone] (lines 434-442). *)
Fixpoint first_usb (i : nat) (mics : list string) : option nat :=
  match mics with
  | [] => None
  | name :: r =>
      if any_in usb_keywords (PyStr.lower name) then Some i
      else first_usb (S i) r
  end.

(** [find_usb_microphone] (lines 428-455); [names] is what
    [list_microphone_names] returns, [None] when it raises. *)
Definition find_usb_microphone (names : option (list string)) : option nat :=
  match names with
  | None => None
  | Some mics =>
      match first_usb 0 mics with
      | Some i => Some i
      | None =>
          if (1 <? length mics)%nat then Some 1%nat
          else match mics with
               | [] => None
               | _ => Some 0%nat
               end
      end
  end.

(** [x is None] *)
Definition is_none {A} (x : option A) : bool :=
  match x with
  | None => true
  | Some _ => false
  end.

Definition i2s_keywords : list string :=
  ["i2s"; "snd_rpi"; "bcm2835"; "simple-card"; "googlevoicehat"].

(** The loop of [find_i2s_microphone] (lines 467-486): the three indices
    after the devices from [i] on. *)
Fixpoint scan_devices (i : nat) (devs : list audio_device)
    (i2s pulse default_ : option nat) : option nat * option nat * option nat :=
  match devs with
  | [] => (i2s, pulse, default_)
  | dev_info :: r =>
      let name := PyStr.lower (dev_name dev_info) in
      if 0 <? maxInputChannels dev_info then
        if any_in i2s_keywords name
        then scan_devices (S i) r (Some i) pulse default_
        else if PyStr.contains name "pulse" && is_none pulse
        then scan_devices (S i) r i2s (Some i) default_
        else if PyStr.contains name "default" && is_none default_
        then scan_devices (S i) r i2s pulse (Some i)
        else scan_devices (S i) r i2s pulse default_
      else scan_devices (S i) r i2s pulse default_
  end.

(** [find_i2s_microphone] (lines 457-504), on the device table. *)
Definition find_i2s_microphone (devs : list audio_device) : option nat :=
  match scan_devices 0 devs None None None with
  | (Some i, _, _) => Some i
  | (None, Some i, _) => Some i
  | (None, None, d) => d
  end.

(** What [chat_with_ai] returns when the call of the model raises. *)
Definition ai_apology : string := "Maaf, koneksi AI bermasalah. Silakan coba lagi.".

(** [chat_with_ai] (lines 401-426) *)
Definition chat_with_ai (ai : option string) : M string :=
  set_status_led true false ;;
  match ai with
  | Some content => set_status_led true true ;; ret content
  | None => set_status_led false false ;; ret ai_apology
  end.

(** [listen_and_transcribe_i2s] (lines 671-735) *)
Definition listen_and_transcribe_i2s (heard : hearing) : M (option string) :=
  set_status_led true false ;;
  match heard with
  | RecordFailed => set_status_led false false ;; ret None
  | TranscribeFailed =>
      set_status_led false true ;;
      set_status_led false false ;;
      ret None
  | Transcript joined =>
      set_status_led false true ;;
      let text_result := PyStr.strip joined in
      set_status_led true true ;;
      if nonempty text_result then ret (Some text_result) else ret None
  end.

Definition shutdown_keywords : list string :=
  ["matikan"; "shutdown"; "tutup sistem"; "keluar"].

(** The body of the loop of [main] for one turn (lines 857-924).  What is
    said through [speak] has no effect on the channel and is left out. *)
Definition main_turn (fuel : nat) (t : turn) : M flow :=
  match t with
  | Interrupt => set_status_led true true ;; set_status_led true false ;; ret Break
  | Turn heard ai =>
      set_status_led true true ;;
      heard_text <- listen_and_transcribe_i2s heard ;;
      match heard_text with
      | None => ret Continue
      | Some user_text =>
          if any_in shutdown_keywords (PyStr.lower user_text) then
            main_raspy.send_to_robot fuel main_raspy.STOP_json ;;
            ret Break
          else
            ai_reply <- chat_with_ai ai ;;
            match extract_robot_command ai_reply with
            | Some robot_cmd =>
                main_raspy.send_to_robot fuel (json_loads robot_cmd) ;;
                ret Continue
            | None => ret Continue
            end
      end
  end.

(** The loop of [main] (lines 856-924); when the turns are used up the
    operator interrupts. *)
Fixpoint main_loop (fuel : nat) (turns : list turn) : M unit :=
  match turns with
  | [] => main_turn fuel Interrupt ;; ret ()
  | t :: turns' =>
      f <- main_turn fuel t ;;
      match f with
      | Continue => main_loop fuel turns'
      | Break => ret ()
      end
  end.

(** The LED sequence of the start (lines 840-845). *)
Definition startup_leds : M unit :=
  let blink := set_status_led true false ;; sleep 200 ;;
               set_status_led false true ;; sleep 200 in
  blink ;; blink ;; blink ;; set_status_led false false.

(** [main] (lines 824-946); [gpio_ok] is what [init_gpio] returns. *)
Definition main (gpio_ok : bool) (fuel : nat) (turns : list turn) : M unit :=
  (if gpio_ok then startup_leds else ret ()) ;;
  main_raspy.init_serial fuel ;;
  try_except (main_loop fuel turns) (ret ()) ;;
  main_raspy.main_finally fuel.

End Program.
End controller.

(** ** text_to_voice_raspy.py: the text given to the synthesiser *)

Module text_to_voice_raspy.

Definition DQ : ascii := PyStr.chr 34.
Definition SQ : ascii := PyStr.chr 39.
Definition NL : ascii := PyStr.chr 10.

(** [s.replace(c, by)] for a single character [c]. *)
Fixpoint replace_char (c : ascii) (by_ : string) (s : string) : string :=
  match s with
  | EmptyString => EmptyString
  | String a r =>
      if ascii_dec a c then by_ +:+ replace_char c by_ r
      else String a (replace_char c by_ r)
  end.

(** [s.replace("  ", " ")]: from the left, without overlap. *)
Fixpoint replace_two_spaces (s : string) : string :=
  match s with
  | String a (String b r as t) =>
      if ascii_dec a " "%char then
        if ascii_dec b " "%char then String " "%char (replace_two_spaces r)
        else String a (replace_two_spaces t)
      else String a (replace_two_spaces t)
  | _ => s
  end.

(** [clean_text] of [text_to_voice] (lines 88-89). *)
Definition clean_text (text : string) : string :=
  PyStr.strip
    (replace_two_spaces
       (replace_char NL ". " (replace_char SQ EmptyString (replace_char DQ EmptyString text)))).

Definition PIPER_BINARY : string := "./piper/piper".
Definition VOICE_MODEL : string := "voice_id.onnx".
Definition OUTPUT_FILE : string := "/tmp/robot_voice.wav".

Definition quoted (s : string) : string :=
  String DQ EmptyString +:+ s +:+ String DQ EmptyString.

(** [piper_cmd] (line 114), the command given to the shell. *)
Definition piper_cmd (text : string) : string :=
  "echo " +:+ quoted (clean_text text) +:+ " | " +:+ quoted PIPER_BINARY +:+
  " --model " +:+ quoted VOICE_MODEL +:+ " --output_file " +:+ quoted OUTPUT_FILE.

End text_to_voice_raspy.

(** ** More notions *)

(** None of the next [n] fallible calls raises, as a test. *)
Definition calmb (n : nat) (l : list bool) : bool := forallb negb (take n l).

(** An endpoint is in use, or the discovery gives one. *)
Definition has_endpoint (w : world) : bool :=
  match endpoint w with
  | Some _ => true
  | None => false
  end.

(** What [init_serial] tries to open. *)
Definition ports_tried (w : world) : list string :=
  match endpoint w with
  | Some p => [p]
  | None => []
  end.

(** The character [c] occurs in [s]. *)
Fixpoint occurs (c : ascii) (s : string) : bool :=
  match s with
  | EmptyString => false
  | String a r => (if ascii_dec a c then true else false) || occurs c r
  end.

(** A byte of a white-space character: one of the ASCII range, or a byte
    of a character beyond it. *)
Definition ws_byte (a : ascii) : bool :=
  PyStr.isspace a || (128 <=? nat_of_ascii a)%nat.

(** The first [n] bytes of [s] are there and are bytes of white space. *)
Fixpoint all_ws (n : nat) (s : string) : bool :=
  match n, s with
  | O, _ => true
  | S n', String a r => ws_byte a && all_ws n' r
  | S _, EmptyString => false
  end.

(** The number of times [c] occurs in [s]. *)
Fixpoint count_char (c : ascii) (s : string) : nat :=
  match s with
  | EmptyString => O
  | String a r => ((if ascii_dec a c then 1 else 0) + count_char c r)%nat
  end.

(** Every event is a change of the LEDs. *)
Definition leds_only (evs : list event) : Prop :=
  Forall (fun e => match e with EvLed _ _ => True | _ => False end) evs.

(** The world after the events [evs], nothing else having changed. *)
Definition lit (evs : list event) (w : world) : world := with_trace (trace w ++ evs) w.

(** [w'] is [w] after a call of the voice controller with the events [evs]:
    the lines of the device are only taken, and on a closed connection the
    call changes the LEDs and nothing else. *)
Record runs (w w' : world) (evs : list event) : Prop := {
  runs_trace : trace w' = trace w ++ evs;
  runs_rx : (length (rx w') <= length (rx w))%nat;
  runs_closed : is_open w = false -> leds_only evs /\ is_open w' = false
}.

(** What [listen_and_transcribe_i2s] returns for what is heard. *)
Definition heard_text (heard : hearing) : option string :=
  match heard with
  | Transcript joined =>
      if nonempty (PyStr.strip joined) then Some (PyStr.strip joined) else None
  | _ => None
  end.

(** What [chat_with_ai] returns for the answer of the model. *)
Definition reply_of (ai : option string) : string := default controller.ai_apology ai.

(** The line of the STOP command. *)
Definition STOP_line : string := "STOP,0,none" +:+ PyStr.LF.

(** [m] is a brace group: an opening brace, a body that is not empty and
    has no closing brace, and a closing brace. *)
Definition brace_group (m : string) : Prop :=
  exists body, m = "{" +:+ body +:+ "}" /\ body <> EmptyString /\ occurs "}" body = false.

(** The name of a microphone has one of the USB keywords. *)
Definition usb_named (name : string) : bool :=
  any_in controller.usb_keywords (PyStr.lower name).

(** The tests of [find_i2s_microphone] on a device. *)
Definition input_capable (d : audio_device) : bool := 0 <? maxInputChannels d.
Definition i2s_input (d : audio_device) : bool :=
  input_capable d && any_in controller.i2s_keywords (PyStr.lower (dev_name d)).
Definition pulse_input (d : audio_device) : bool :=
  input_capable d && PyStr.contains (PyStr.lower (dev_name d)) "pulse".
Definition named_input (d : audio_device) : bool :=
  input_capable d &&
  (any_in controller.i2s_keywords (PyStr.lower (dev_name d))
   || PyStr.contains (PyStr.lower (dev_name d)) "pulse"
   || PyStr.contains (PyStr.lower (dev_name d)) "default").

(** An index kept by the loop of [find_i2s_microphone] is that of an input
    device with one of the names looked for. *)
Definition picked (devs : list audio_device) (x : option nat) : Prop :=
  forall i, x = Some i -> exists d, devs !! i = Some d /\ named_input d = true.

(** The line [data] ends with a newline. *)
Definition newline_ended (data : string) : Prop :=
  PyStr.endswith_char data (PyStr.chr 10) = true.

(** What one input of the operator does: the call returns, leaves the
    connection as it was, and writes nothing or one line, ended by a
    newline. *)
Definition one_line {A} (m : M A) (w : world) : Prop :=
  exists a w' evs,
    m w = Ret a w' /\ talks w w' evs /\
    (writes evs = [] \/ exists data, writes evs = [data] /\ newline_ended data).

(** A machine with no serial device at all. *)
Definition unplugged : world :=
  {| clock := 0; trace := []; ser := None; SERIAL_PORT := None;
     running := false; faults := []; rx := []; comports := [];
     GPIO_UART_ENABLE := false; ttyS0_exists := false;
     uart_in_boot_config := false |}.

(** A device that can be opened and whose input cannot be discarded. *)
Definition half_open : world := with_faults [false; true] booting.

(** An open connection whose next write raises, and the reopening too. *)
Definition dead_link : world := with_faults [true; true] (connected "/dev/ttyUSB0").

(** The HAT microphone as PyAudio lists it. *)
Definition voicehat : audio_device :=
  {| dev_name := "snd_rpi_googlevoicehat_soundcar: Google voiceHAT SoundCard HiFi";
     maxInputChannels := 2 |}.

Section MoreNotions.

Context `{PyFloat}.

(** [cmd] is a decoded object. *)
Definition is_object (cmd : decoded) : bool :=
  match cmd with
  | JObject _ => true
  | _ => false
  end.

(** [json.loads] on the texts of the examples: the empty object, and
    [JSONDecodeError] for a text that is not JSON. *)
Definition json_table (s : string) : decoded :=
  if String.eqb s "{ }" then JObject ∅ else JSONDecodeError.

End MoreNotions.

(** ** What the reading loops do, line by line *)

(** The first poll at or after the time [a], for a loop that polls at [t]
    and then every [period] ms. *)
Definition first_look (period t a : Z) : Z :=
  if a <=? t then t else t + period * ((a - t + period - 1) / period).

(** The sleeps of the polls from the time [t] to the time [u]. *)
Definition polls (period t u : Z) : list event :=
  repeat (EvSleep period) (Z.to_nat ((u - t) / period)).

(** The events of [response_loop] for a line it shows. *)
Definition reply_events (text : string) : list event :=
  [EvPrint (DeviceLine text); EvLed false false; EvSleep 50; EvLed true true].

(** The events of the loop that reads the replies, and the lines it leaves
    unread, by recursion on the lines of the device.  [q] is
    [timeout_start], [c] is [response_count] and [t] is the time of the next
    poll.  The last poll is at [q + 2950] while nothing was shown and at
    [q + 1000] afterwards.  The next line is looked at at the first poll at
    or after its arrival: when that is past the last poll the loop sleeps to
    the end and the line stays unread; when the line is blank it is dropped;
    otherwise it is shown, which takes 50 ms, and the quiet time starts
    again. *)
Fixpoint collect (q c t : Z) (l : list (Z * string)) : list event * list (Z * string) :=
  let last := if c =? 0 then q + 2950 else q + 1000 in
  match l with
  | x :: r =>
      let u := first_look 50 t x.1 in
      if u <=? last then
        if nonempty (PyStr.strip x.2) then
          let res := collect u (c + 1) (u + 50) r in
          (polls 50 t u ++ reply_events (PyStr.strip x.2) ++ res.1, res.2)
        else
          let res := collect q c u r in
          (polls 50 t u ++ res.1, res.2)
      else (polls 50 t (last + 50), l)
  | [] => (polls 50 t (last + 50), l)
  end.

(** The same for the loop that reads the start-up lines: it polls every
    100 ms, its last poll is at [q + 2900], and a line shown restarts the
    3 s at once. *)
Fixpoint settle (q t : Z) (l : list (Z * string)) : list event * list (Z * string) :=
  let last := q + 2900 in
  match l with
  | x :: r =>
      let u := first_look 100 t x.1 in
      if u <=? last then
        if nonempty (PyStr.strip x.2) then
          let res := settle u u r in
          (polls 100 t u ++ EvPrint (DeviceLine (PyStr.strip x.2)) :: res.1, res.2)
        else
          let res := settle q u r in
          (polls 100 t u ++ res.1, res.2)
      else (polls 100 t (last + 100), l)
  | [] => (polls 100 t (last + 100), l)
  end.

(** The world after a loop that only reads: the events [evs] were added,
    the clock moved by the time slept, and the lines [rest] are left. *)
Definition after_reading (evs : list event) (rest : list (Z * string)) (w : world) : world :=
  with_clock (clock w + slept evs) (with_trace (trace w ++ evs) (with_rx rest w)).

(** A device whose one line arrives 1500 ms after the loop starts. *)
Definition slow_reply : world := with_rx [(1500, "OK")] (connected "/dev/ttyUSB0").

(** A device that is starting and sends nothing. *)
Definition silent_boot : world := with_ser None (connected "/dev/ttyUSB0").

(** What a branch of the dispatcher does on an open connection: it returns
    [f], leaves the connection as it was, and attempts the writes [l]. *)
Definition branch_writes {A} (m : M A) (w : world) (f : A) (l : list string) : Prop :=
  exists w' evs, m w = Ret f w' /\ talks w w' evs /\ writes evs = l.

(** [s.isascii()] *)
Fixpoint isascii (s : string) : bool :=
  match s with
  | EmptyString => true
  | String c r => (nat_of_ascii c <? 128)%nat && isascii r
  end.

(** The lines typed are of the ASCII range, on which [PyStr.lower] is
    [str.lower]. *)
Definition typed_ascii (keys : list keyboard) : Prop :=
  Forall (fun key => match key with
                     | Line text => isascii text = true
                     | _ => True
                     end) keys.

Section SessionNotions.

Context `{PyFloat}.

(** The words that leave the session of the monitor. *)
Definition leaves (user_input : string) : bool :=
  String.eqb user_input "quit" || String.eqb user_input "exit" || String.eqb user_input "q".

(** The line of a motion command: the name, what [str] shows for the float
    read from the second word, and the unit. *)
Definition motion_line (user_input name unit_ : string) : option string :=
  match serial_monitor.float_argument user_input with
  | Some x => Some (name +:+ "," +:+ float_repr x +:+ "," +:+ unit_ +:+ PyStr.LF)
  | None => None
  end.

(** The line the monitor writes for the input [user_input], stripped and
    in lower case already, when it writes one. *)
Definition command_line (user_input : string) : option string :=
  if negb (nonempty user_input) then None
  else if leaves user_input then None
  else if String.eqb user_input "help" then None
  else if String.eqb user_input "clear" then None
  else if String.eqb user_input "status" then Some ("STATUS,0,none" +:+ PyStr.LF)
  else if String.eqb user_input "stop" then Some ("STOP,0,none" +:+ PyStr.LF)
  else if PyStr.startswith user_input "forward " then
    motion_line user_input "FORWARD" "meter"
  else if PyStr.startswith user_input "backward " then
    motion_line user_input "BACKWARD" "meter"
  else if PyStr.startswith user_input "left " then
    motion_line user_input "LEFT" "degree"
  else if PyStr.startswith user_input "right " then
    motion_line user_input "RIGHT" "degree"
  else if PyStr.startswith user_input "speed " then
    match serial_monitor.float_argument user_input with
    | Some speed =>
        if int_le_float 0 speed && float_le_int speed 100
        then Some ("SPEED," +:+ float_repr speed +:+ ",percent" +:+ PyStr.LF)
        else None
    | None => None
    end
  else if PyStr.startswith user_input "raw " then
    Some (raw_line (PyStr.drop 4 user_input))
  else None.

(** The inputs the session handles before it is left: the lines typed,
    stripped and in lower case, up to the first of [quit], [exit] and [q],
    an interrupt or the end of the input. *)
Fixpoint before_exit (keys : list keyboard) : list string :=
  match keys with
  | Line text :: keys' =>
      let user_input := PyStr.lower (PyStr.strip text) in
      if leaves user_input then [] else user_input :: before_exit keys'
  | _ => []
  end.



End SessionNotions.

(** * Properties *)

(** [lia] is to handle the divisions by a constant of [iterations_left]. *)
Ltac Zify.zify_post_hook ::= Z.to_euclidean_division_equations.

(** ** The loops that read the device *)

Lemma quiet_after_app q evs1 evs2 :
  quiet_after q (evs1 ++ evs2) = quiet_after (quiet_after q evs1) evs2.
Proof.
  revert q; induction evs1 as [|e r IH]; intros q; [reflexivity|].
  destruct e as [| | | |[]]; simpl; apply IH.
Qed.

Lemma slept_app evs1 evs2 : slept (evs1 ++ evs2) = slept evs1 + slept evs2.
Proof.
  induction evs1 as [|e r IH]; [reflexivity|].
  destruct e; simpl; lia.
Qed.

Lemma shown_app evs1 evs2 : shown (evs1 ++ evs2) = shown evs1 ++ shown evs2.
Proof.
  induction evs1 as [|e r IH]; [reflexivity|].
  destruct e as [| | | |[]]; simpl; rewrite ?IH; reflexivity.
Qed.

Lemma writes_app evs1 evs2 : writes (evs1 ++ evs2) = writes evs1 ++ writes evs2.
Proof.
  induction evs1 as [|e r IH]; [reflexivity|].
  destruct e as [| |[] ?| |]; simpl; rewrite ?IH; reflexivity.
Qed.

Lemma opens_app evs1 evs2 : opens (evs1 ++ evs2) = opens evs1 ++ opens evs2.
Proof.
  induction evs1 as [|e r IH]; [reflexivity|].
  destruct e as [| |[] ?| |]; simpl; rewrite ?IH; reflexivity.
Qed.

Lemma closes_app evs1 evs2 : closes (evs1 ++ evs2) = (closes evs1 + closes evs2)%nat.
Proof.
  induction evs1 as [|e r IH]; [reflexivity|].
  destruct e; simpl; rewrite ?IH; reflexivity.
Qed.

(** A loop that only reads neither writes, opens nor closes. *)
Lemma reading_passive evs :
  Forall reading evs -> writes evs = [] /\ opens evs = [] /\ closes evs = O.
Proof.
  induction 1 as [|e r He _ IH]; [done|].
  destruct e; simpl in *; done.
Qed.

Lemma reads_nil w : reads w w 0 [].
Proof. split; rewrite ?drop_0, ?app_nil_r; simpl; try done; lia. Qed.

Lemma reads_tick ms w w' k evs :
  reads (tick ms w) w' k evs -> reads w w' k (EvSleep ms :: evs).
Proof.
  intros [H1 H2 H3 H4 H5 H6 H7 H8]; simpl in *.
  split; simpl; try done.
  - by rewrite H2, <- app_assoc.
  - lia.
  - by constructor.
Qed.

Lemma reads_blank w w' k evs x r :
  rx w = x :: r -> nonempty (PyStr.strip x.2) = false ->
  reads (with_rx r w) w' k evs -> reads w w' (S k) evs.
Proof.
  intros Erx Hne [H1 H2 H3 H4 H5 H6 H7 H8]; simpl in *.
  split; rewrite ?Erx; simpl; try done.
  unfold nonblank_lines in *; simpl. by rewrite Hne.
Qed.

Lemma reads_response w w' k evs x r :
  rx w = x :: r -> nonempty (PyStr.strip x.2) = true ->
  reads (shown_line (PyStr.strip x.2) r w) w' k evs ->
  reads w w' (S k)
    ([EvPrint (DeviceLine (PyStr.strip x.2)); EvLed false false; EvSleep 50;
      EvLed true true] ++ evs).
Proof.
  intros Erx Hne [H1 H2 H3 H4 H5 H6 H7 H8]; simpl in *.
  split; rewrite ?Erx; simpl; try done.
  - by rewrite H2, <- !app_assoc.
  - unfold nonblank_lines in *; simpl. by rewrite Hne, H3.
  - lia.
  - by repeat constructor.
Qed.

Lemma response_loop_S fuel c t0 w :
  main_raspy.response_loop (S fuel) c t0 w =
  if clock w - t0 <? 3000 then
    match rx w with
    | x :: r =>
        if arrived (clock w) x then
          if nonempty (PyStr.strip x.2) then
            main_raspy.response_loop fuel (c + 1) (clock w)
              (shown_line (PyStr.strip x.2) r w)
          else main_raspy.response_loop fuel c t0 (with_rx r w)
        else poll fuel c t0 w
    | [] => poll fuel c t0 w
    end
  else Ret c w.
Proof.
  cbn [main_raspy.response_loop]. unfold bind at 1. unfold time at 1.
  destruct (clock w - t0 <? 3000); [|reflexivity].
  unfold bind at 1. unfold ser_in_waiting.
  destruct (rx w) as [|x r] eqn:Erx.
  - unfold poll, bind, sleep, time, tick; simpl.
    destruct ((0 <? c) && _); reflexivity.
  - destruct (arrived (clock w) x).
    2:{ unfold poll, bind, sleep, time, tick; simpl.
        destruct ((0 <? c) && _); reflexivity. }
    unfold bind at 1. unfold ser_readline_strip. rewrite Erx.
    destruct (nonempty (PyStr.strip x.2)); reflexivity.
Qed.

(** The loop returns: every iteration takes a line or moves the clock
    towards the end of the window. *)
Lemma response_loop_returns fuel : forall c t0 w,
  0 <= clock w - t0 ->
  (iterations_left t0 w < fuel)%nat ->
  exists n w', main_raspy.response_loop fuel c t0 w = Ret n w'.
Proof.
  induction fuel as [|fuel IH]; intros c t0 w He Hf; [lia|].
  rewrite response_loop_S.
  destruct (clock w - t0 <? 3000) eqn:Hlt; [|eauto].
  apply Z.ltb_lt in Hlt.
  assert (Hpoll : exists n w', poll fuel c t0 w = Ret n w').
  { unfold poll. destruct (_ && _); [eauto|].
    apply IH; unfold iterations_left in *; simpl; lia. }
  destruct (rx w) as [|x r] eqn:Erx; [exact Hpoll|].
  destruct (arrived (clock w) x); [|exact Hpoll].
  destruct (nonempty _).
  - apply IH; unfold iterations_left in *; simpl; rewrite ?Erx in *; simpl in *; lia.
  - apply IH; unfold iterations_left in *; simpl; rewrite ?Erx in *; simpl in *; lia.
Qed.

(** What the loop does when it returns.  The time since [timeout_start] is a
    multiple of the 50 ms of a poll, within the window, and within the quiet
    second once a line was counted. *)
Lemma response_loop_spec fuel : forall c t0 w n w',
  0 <= c ->
  (exists j, clock w - t0 = 50 * j /\ 0 <= j <= 60 /\ (0 < c -> 1 <= j <= 20)) ->
  main_raspy.response_loop fuel c t0 w = Ret n w' ->
  exists k evs,
    reads w w' k evs /\
    n = c + Z.of_nat (length (shown evs)) /\
    (n = 0 -> clock w' - t0 = 3000) /\
    (0 < n -> quiet_after (clock w - t0) evs = 1050 /\
              next_not_arrived (clock w' - 50) w').
Proof.
  induction fuel as [|fuel IH]; intros c t0 w n w' Hc (j & Hj & Hj60 & Hj20) Hrun;
    [discriminate|].
  rewrite response_loop_S in Hrun.
  destruct (clock w - t0 <? 3000) eqn:Hlt.
  2:{ apply Z.ltb_ge in Hlt. inversion Hrun; subst n w'.
      exists O, []. split; [apply reads_nil|]. simpl. lia. }
  apply Z.ltb_lt in Hlt.
  assert (Hpoll : next_not_arrived (clock w) w -> poll fuel c t0 w = Ret n w' ->
    exists k evs,
      reads w w' k evs /\
      n = c + Z.of_nat (length (shown evs)) /\
      (n = 0 -> clock w' - t0 = 3000) /\
      (0 < n -> quiet_after (clock w - t0) evs = 1050 /\
                next_not_arrived (clock w' - 50) w')).
  { intros Hna Hp. unfold poll in Hp.
    destruct ((0 <? c) && (1000 <? clock w + 50 - t0)) eqn:Hbrk.
    - apply andb_prop in Hbrk as [Hc0 Hq]. apply Z.ltb_lt in Hc0, Hq.
      inversion Hp; subst n w'. exists O, [EvSleep 50].
      split; [apply reads_tick, reads_nil|]. simpl.
      repeat split; try lia.
      unfold next_not_arrived in *. simpl.
      replace (clock w + 50 - 50) with (clock w) by lia. exact Hna.
    - apply andb_false_iff in Hbrk.
      assert (Hinv : exists j', clock (tick 50 w) - t0 = 50 * j' /\ 0 <= j' <= 60 /\
                                (0 < c -> 1 <= j' <= 20)).
      { exists (j + 1). simpl. repeat split; try lia.
        all: destruct Hbrk as [Hb|Hb]; [apply Z.ltb_ge in Hb|apply Z.ltb_ge in Hb]; lia. }
      destruct (IH c t0 (tick 50 w) n w' Hc Hinv Hp) as (k & evs & Hr & Hn & Hz & Hq).
      exists k, (EvSleep 50 :: evs).
      split; [by apply reads_tick|]. simpl in *.
      replace (clock w - t0 + 50) with (clock w + 50 - t0) by lia.
      done. }
  destruct (rx w) as [|x r] eqn:Erx.
  { apply Hpoll; [unfold next_not_arrived; rewrite Erx|]; done. }
  destruct (arrived (clock w) x) eqn:Harr.
  2:{ apply Hpoll; [unfold next_not_arrived; rewrite Erx|]; done. }
  clear Hpoll.
  destruct (nonempty (PyStr.strip x.2)) eqn:Hne.
  - assert (Hinv : exists j', clock (shown_line (PyStr.strip x.2) r w) - clock w = 50 * j' /\
                              0 <= j' <= 60 /\ (0 < c + 1 -> 1 <= j' <= 20)).
    { exists 1. simpl. lia. }
    destruct (IH (c + 1) (clock w) _ n w' ltac:(lia) Hinv Hrun)
      as (k & evs & Hr & Hn & Hz & Hq).
    eexists (S k), _.
    split; [by eapply reads_response|]. simpl in *.
    replace (clock w + 50 - clock w) with 50 in Hq by lia.
    repeat split; try lia; apply Hq; lia.
  - assert (Hinv : exists j', clock (with_rx r w) - t0 = 50 * j' /\
                              0 <= j' <= 60 /\ (0 < c -> 1 <= j' <= 20)).
    { exists j. simpl. lia. }
    destruct (IH c t0 _ n w' Hc Hinv Hrun) as (k & evs & Hr & Hn & Hz & Hq).
    exists (S k), evs.
    split; [by eapply reads_blank|]. done.
Qed.

(** The loop as [collect_responses] starts it: no line counted, the window
    starting now. *)
Lemma response_loop_total w fuel :
  (enough_fuel w <= fuel)%nat ->
  exists n w' k evs,
    main_raspy.response_loop fuel 0 (clock w) w = Ret n w' /\
    reads w w' k evs /\
    n = Z.of_nat (length (shown evs)) /\
    (shown evs = [] -> clock w' = clock w + 3000) /\
    (shown evs <> [] ->
       quiet_after 0 evs = 1050 /\ next_not_arrived (clock w' - 50) w').
Proof.
  intros Hf.
  destruct (response_loop_returns fuel 0 (clock w) w) as (n & w' & Hrun).
  { lia. }
  { unfold enough_fuel, iterations_left in *. lia. }
  destruct (response_loop_spec fuel 0 (clock w) w n w') as (k & evs & Hr & Hn & Hz & Hq);
    [lia| |done|].
  { exists 0. lia. }
  exists n, w', k, evs. rewrite Z.sub_diag in Hq.
  split; [done|]. split; [done|]. split; [lia|]. split.
  - intros Hs. rewrite Hs in Hn. simpl in Hn. lia.
  - intros Hs. apply Hq. destruct (shown evs); [done|]. simpl in Hn. lia.
Qed.

(** The loop, as a function of the lines of the device. *)

Lemma after_reading_nil w : after_reading [] (rx w) w = w.
Proof.
  destruct w. unfold after_reading, with_clock, with_trace, with_rx. simpl.
  rewrite app_nil_r, Z.add_0_r. reflexivity.
Qed.

Lemma after_reading_tick ms evs rest w :
  after_reading evs rest (tick ms w) = after_reading (EvSleep ms :: evs) rest w.
Proof.
  destruct w. unfold after_reading, tick, with_clock, with_trace, with_rx. simpl.
  rewrite <- app_assoc, Z.add_assoc. reflexivity.
Qed.

Lemma after_reading_rx evs rest r w :
  after_reading evs rest (with_rx r w) = after_reading evs rest w.
Proof. reflexivity. Qed.

Lemma after_reading_logged e evs rest w :
  slept [e] = 0 ->
  after_reading evs rest (logged e w) = after_reading (e :: evs) rest w.
Proof.
  intros He. destruct w. unfold after_reading, logged, with_clock, with_trace, with_rx.
  simpl. rewrite <- app_assoc.
  assert (Hs : slept (e :: evs) = slept evs) by (destruct e; simpl in *; lia).
  simpl in Hs. rewrite Hs. reflexivity.
Qed.

Lemma after_reading_shown text evs rest r w :
  after_reading evs rest (shown_line text r w)
  = after_reading (reply_events text ++ evs) rest w.
Proof.
  unfold shown_line, reply_events.
  rewrite after_reading_logged by reflexivity.
  rewrite after_reading_tick.
  rewrite !after_reading_logged by reflexivity.
  apply after_reading_rx.
Qed.

Lemma polls_none p t : polls p t t = [].
Proof. unfold polls. by rewrite Z.sub_diag, Zdiv_0_l. Qed.

Lemma polls_step t u : t + 50 <= u -> polls 50 t u = EvSleep 50 :: polls 50 (t + 50) u.
Proof.
  intros Hu. unfold polls.
  replace ((u - t) / 50) with (Z.succ ((u - (t + 50)) / 50)) by lia.
  rewrite Z2Nat.inj_succ by lia. reflexivity.
Qed.

Lemma shown_polls p t u : shown (polls p t u) = [].
Proof. unfold polls. induction (Z.to_nat _); [done|]. simpl. done. Qed.

Lemma collect_nil q c t :
  collect q c t [] = (polls 50 t ((if c =? 0 then q + 2950 else q + 1000) + 50), []).
Proof. reflexivity. Qed.

Lemma collect_cons q c t x r :
  collect q c t (x :: r) =
  let last := if c =? 0 then q + 2950 else q + 1000 in
  let u := first_look 50 t x.1 in
  if u <=? last then
    if nonempty (PyStr.strip x.2) then
      (polls 50 t u ++ reply_events (PyStr.strip x.2) ++ (collect u (c + 1) (u + 50) r).1,
       (collect u (c + 1) (u + 50) r).2)
    else (polls 50 t u ++ (collect q c u r).1, (collect q c u r).2)
  else (polls 50 t (last + 50), x :: r).
Proof. reflexivity. Qed.

(** A poll while the next line is not there. *)
Lemma collect_wait q c t l :
  t <= (if c =? 0 then q + 2950 else q + 1000) ->
  match l with x :: _ => arrived t x = false | [] => True end ->
  collect q c t l = (EvSleep 50 :: (collect q c (t + 50) l).1, (collect q c (t + 50) l).2).
Proof.
  intros Ht Hna. destruct l as [|x r].
  - rewrite !collect_nil. cbn [fst snd]. by rewrite polls_step by lia.
  - rewrite !collect_cons. cbv zeta.
    unfold arrived in Hna. apply Z.leb_gt in Hna.
    set (last := if c =? 0 then q + 2950 else q + 1000) in *.
    assert (Hu : first_look 50 t x.1 = first_look 50 (t + 50) x.1 /\
                 t + 50 <= first_look 50 t x.1).
    { unfold first_look.
      destruct (Z.leb_spec x.1 t); [lia|].
      destruct (Z.leb_spec x.1 (t + 50)); lia. }
    destruct Hu as [<- Hu].
    destruct (first_look 50 t x.1 <=? last) eqn:Hin.
    + rewrite (polls_step t) by lia.
      destruct (nonempty _); reflexivity.
    + cbn [fst snd]. by rewrite polls_step by lia.
Qed.

Lemma response_loop_collect fuel : forall c q w n w',
  0 <= c ->
  (exists j, clock w - q = 50 * j /\ 0 <= j <= 60 /\ (0 < c -> 1 <= j <= 20)) ->
  main_raspy.response_loop fuel c q w = Ret n w' ->
  w' = after_reading (collect q c (clock w) (rx w)).1 (collect q c (clock w) (rx w)).2 w /\
  n = c + Z.of_nat (length (shown (collect q c (clock w) (rx w)).1)).
Proof.
  induction fuel as [|fuel IH]; intros c q w n w' Hc (j & Hj & Hj60 & Hj20) Hrun;
    [discriminate|].
  rewrite response_loop_S in Hrun.
  set (last := if c =? 0 then q + 2950 else q + 1000).
  assert (Hlast : last = if c =? 0 then q + 2950 else q + 1000) by reflexivity.
  destruct (clock w - q <? 3000) eqn:Hlt.
  2:{ apply Z.ltb_ge in Hlt. inversion Hrun; subst n w'.
      assert (Hc0 : c = 0) by lia. subst c.
      assert (He : collect q 0 (clock w) (rx w) = ([], rx w)).
      { destruct (rx w) as [|x r] eqn:Erx.
        - rewrite collect_nil. simpl. unfold polls.
          replace ((q + 2950 + 50 - clock w) / 50) with 0 by lia. done.
        - rewrite collect_cons. cbv zeta. simpl (0 =? 0).  cbv iota.
          assert (clock w <= first_look 50 (clock w) x.1).
          { unfold first_look. destruct (Z.leb_spec x.1 (clock w)); lia. }
          destruct (Z.leb_spec (first_look 50 (clock w) x.1) (q + 2950)); [lia|].
          unfold polls. replace ((q + 2950 + 50 - clock w) / 50) with 0 by lia. done. }
      rewrite He. cbn [fst snd shown length]. rewrite after_reading_nil. split; [done|lia]. }
  apply Z.ltb_lt in Hlt.
  assert (Hin : clock w <= last).
  { subst last. destruct (Z.eqb_spec c 0); lia. }
  assert (Hpoll : match rx w with x :: _ => arrived (clock w) x = false | [] => True end ->
    poll fuel c q w = Ret n w' ->
    w' = after_reading (collect q c (clock w) (rx w)).1 (collect q c (clock w) (rx w)).2 w /\
    n = c + Z.of_nat (length (shown (collect q c (clock w) (rx w)).1))).
  { intros Hna Hp. unfold poll in Hp.
    rewrite (collect_wait q c (clock w) (rx w) Hin Hna). cbn [fst snd].
    destruct ((0 <? c) && (1000 <? clock w + 50 - q)) eqn:Hbrk.
    - apply andb_prop in Hbrk as [Hc0 Hq]. apply Z.ltb_lt in Hc0, Hq.
      inversion Hp; subst n w'.
      assert (He : collect q c (clock w + 50) (rx w) = ([], rx w)).
      { assert (Hcz : (c =? 0) = false) by (apply Z.eqb_neq; lia).
        destruct (rx w) as [|x r] eqn:Erx.
        - rewrite collect_nil, Hcz. unfold polls.
          replace ((q + 1000 + 50 - (clock w + 50)) / 50) with 0 by lia. done.
        - rewrite collect_cons, Hcz. cbv zeta.
          assert (clock w + 50 <= first_look 50 (clock w + 50) x.1).
          { unfold first_look. destruct (Z.leb_spec x.1 (clock w + 50)); lia. }
          destruct (Z.leb_spec (first_look 50 (clock w + 50) x.1) (q + 1000)); [lia|].
          unfold polls. replace ((q + 1000 + 50 - (clock w + 50)) / 50) with 0 by lia. done. }
      rewrite He. cbn [fst snd shown length].
      rewrite <- after_reading_tick.
      change (rx w) with (rx (tick 50 w)). rewrite after_reading_nil. split; [done|].
      simpl. lia.
    - apply andb_false_iff in Hbrk.
      assert (Hinv : exists j', clock (tick 50 w) - q = 50 * j' /\ 0 <= j' <= 60 /\
                                (0 < c -> 1 <= j' <= 20)).
      { exists (j + 1). simpl. repeat split; try lia.
        all: destruct Hbrk as [Hb|Hb]; [apply Z.ltb_ge in Hb|apply Z.ltb_ge in Hb]; lia. }
      destruct (IH c q (tick 50 w) n w' Hc Hinv Hp) as [Hw Hn].
      change (clock (tick 50 w)) with (clock w + 50) in *.
      change (rx (tick 50 w)) with (rx w) in *.
      rewrite after_reading_tick in Hw. split; [exact Hw|exact Hn]. }
  destruct (rx w) as [|x r] eqn:Erx; [by apply Hpoll|].
  destruct (arrived (clock w) x) eqn:Harr; [|by apply Hpoll].
  clear Hpoll. rewrite collect_cons. cbv zeta. fold last.
  assert (Hu : first_look 50 (clock w) x.1 = clock w).
  { unfold first_look. unfold arrived in Harr. by rewrite Harr. }
  rewrite Hu, polls_none.
  destruct (Z.leb_spec (clock w) last); [|lia].
  destruct (nonempty (PyStr.strip x.2)) eqn:Hne.
  - assert (Hinv : exists j', clock (shown_line (PyStr.strip x.2) r w) - clock w = 50 * j' /\
                              0 <= j' <= 60 /\ (0 < c + 1 -> 1 <= j' <= 20)).
    { exists 1. simpl. lia. }
    destruct (IH (c + 1) (clock w) _ n w' ltac:(lia) Hinv Hrun) as [Hw Hn].
    change (clock (shown_line (PyStr.strip x.2) r w)) with (clock w + 50) in *.
    change (rx (shown_line (PyStr.strip x.2) r w)) with r in *.
    rewrite after_reading_shown in Hw. cbn [fst snd app].
    split; [exact Hw|].
    rewrite Hn. simpl. lia.
  - assert (Hinv : exists j', clock (with_rx r w) - q = 50 * j' /\
                              0 <= j' <= 60 /\ (0 < c -> 1 <= j' <= 20)).
    { exists j. simpl. lia. }
    destruct (IH c q _ n w' Hc Hinv Hrun) as [Hw Hn].
    change (clock (with_rx r w)) with (clock w) in *.
    change (rx (with_rx r w)) with r in *.
    rewrite after_reading_rx in Hw. cbn [fst snd app]. done.
Qed.

Lemma response_loop_exact w fuel :
  (enough_fuel w <= fuel)%nat ->
  exists n w' k evs,
    main_raspy.response_loop fuel 0 (clock w) w = Ret n w' /\
    reads w w' k evs /\
    n = Z.of_nat (length (shown evs)) /\
    evs = (collect (clock w) 0 (clock w) (rx w)).1 /\
    rx w' = (collect (clock w) 0 (clock w) (rx w)).2 /\
    (shown evs = [] -> clock w' = clock w + 3000) /\
    (shown evs <> [] ->
       quiet_after 0 evs = 1050 /\ next_not_arrived (clock w' - 50) w').
Proof.
  intros Hf.
  destruct (response_loop_total w fuel Hf) as (n & w' & k & evs & Hrun & Hr & Hn & Hz & Hq).
  destruct (response_loop_collect fuel 0 (clock w) w n w') as [Hw _]; [lia| |done|].
  { exists 0. lia. }
  exists n, w', k, evs.
  assert (He : evs = (collect (clock w) 0 (clock w) (rx w)).1).
  { pose proof (reads_trace _ _ _ _ Hr) as Ht. rewrite Hw in Ht at 1.
    simpl in Ht. by apply app_inv_head in Ht. }
  repeat (split; [done|]). split; [|done].
  rewrite Hw at 1. reflexivity.
Qed.

Lemma slept_repeat p n : slept (repeat (EvSleep p) n) = p * Z.of_nat n.
Proof. induction n as [|n IH]; [simpl; lia|]. cbn [repeat slept]. lia. Qed.

Lemma shown_repeat p n : shown (repeat (EvSleep p) n) = [].
Proof. by induction n. Qed.

(** The first poll at or after an arrival is on the grid of the polls. *)
Lemma slept_polls_first_look p t a :
  0 < p -> slept (polls p t (first_look p t a)) = first_look p t a - t.
Proof.
  intros Hp. unfold polls. rewrite slept_repeat. unfold first_look.
  destruct (Z.leb_spec a t).
  - rewrite Z.sub_diag, Zdiv_0_l. simpl. lia.
  - replace (t + p * ((a - t + p - 1) / p) - t) with (((a - t + p - 1) / p) * p) by lia.
    rewrite Z.div_mul by lia.
    assert (0 <= (a - t + p - 1) / p) by (apply Z.div_pos; lia).
    lia.
Qed.

Lemma slept_polls_window p t n :
  0 < p -> 0 <= n -> slept (polls p t (t + p * n)) = p * n.
Proof.
  intros Hp Hn. unfold polls. rewrite slept_repeat.
  replace (t + p * n - t) with (n * p) by lia. rewrite Z.div_mul by lia. lia.
Qed.

Lemma first_look_bounds p t a n :
  0 < p -> 0 <= n ->
  t <= first_look p t a /\ (a <= t + p * n -> first_look p t a <= t + p * n).
Proof.
  intros Hp Hn. unfold first_look. destruct (Z.leb_spec a t); [nia|].
  assert (0 <= (a - t + p - 1) / p) by (apply Z.div_pos; lia).
  split; [nia|]. intros Ha.
  assert ((a - t + p - 1) / p < n + 1); [|nia].
  apply Z.div_lt_upper_bound; lia.
Qed.

(** The loop on a device that sends one line. *)
Lemma collect_one_line t a text :
  nonempty (PyStr.strip text) = true ->
  a <= t + 2950 ->
  shown (collect t 0 t [(a, text)]).1 = [PyStr.strip text] /\
  slept (collect t 0 t [(a, text)]).1 = first_look 50 t a - t + 1050 /\
  (collect t 0 t [(a, text)]).2 = [].
Proof.
  intros Hne Ha. rewrite collect_cons. cbv zeta. cbn [fst snd]. rewrite Hne.
  change (0 =? 0) with true. cbv iota.
  destruct (first_look_bounds 50 t a 59 ltac:(lia) ltac:(lia)) as [Hlo Hhi].
  destruct (Z.leb_spec (first_look 50 t a) (t + 2950)); [|lia].
  rewrite collect_nil. change (0 + 1 =? 0) with false. cbv iota. cbn [fst snd].
  rewrite !shown_app, !slept_app, !shown_polls, slept_polls_first_look by lia.
  set (u := first_look 50 t a).
  replace (u + 1000 + 50) with (u + 50 + 50 * 20) by lia.
  rewrite slept_polls_window by lia. simpl. split; [done|]. split; [lia|done].
Qed.

(** C1.  The loop that reads the replies to a command returns for every
    device; it shows the non-empty lines it read, stripped, in the order of
    their arrival, each one restarting the quiet time.  When it showed a line
    it stops once the quiet time exceeds one second, that is 1050 ms after
    the last line was read, no further line having arrived at the poll before;
    when it showed none it stops 3000 ms after it started.  Its events and
    the lines it leaves unread are those of [collect]: it polls every 50 ms
    and takes a line at the first poll at or after its arrival.  So the one
    line of a device, when it is not blank and arrives by the last poll of
    the window, at 2950 ms, is shown, and the loop ends 1050 ms after the
    poll that found it.  A single line arriving at 200 ms ends the loop at
    1250 ms, one arriving at 1500 ms at 2550 ms, and a silent device at
    3000 ms with nothing shown. *)
Theorem collect_quiet_window (w : world) (fuel : nat) :
  (enough_fuel w <= fuel)%nat ->
  (exists n w' k evs,
     main_raspy.response_loop fuel 0 (clock w) w = Ret n w' /\
     reads w w' k evs /\
     n = Z.of_nat (length (shown evs)) /\
     (shown evs = [] -> clock w' = clock w + 3000) /\
     (shown evs <> [] ->
        quiet_after 0 evs = 1050 /\ next_not_arrived (clock w' - 50) w') /\
     evs = (collect (clock w) 0 (clock w) (rx w)).1 /\
     rx w' = (collect (clock w) 0 (clock w) (rx w)).2 /\
     (forall a text,
        rx w = [(a, text)] -> nonempty (PyStr.strip text) = true -> a <= clock w + 2950 ->
        shown evs = [PyStr.strip text] /\ rx w' = [] /\
        clock w' = first_look 50 (clock w) a + 1050)) /\
  (exists w', main_raspy.response_loop 100 0 0 one_reply = Ret 1 w' /\
              shown (trace w') = ["OK"] /\ clock w' = 1250) /\
  (exists w', main_raspy.response_loop 100 0 0 (connected "/dev/ttyUSB0") = Ret 0 w' /\
              shown (trace w') = [] /\ clock w' = 3000) /\
  (exists w', main_raspy.response_loop 100 0 0 slow_reply = Ret 1 w' /\
              shown (trace w') = ["OK"] /\ rx w' = [] /\ clock w' = 2550).
Proof.
  intros Hf. split.
  - destruct (response_loop_exact w fuel Hf)
      as (n & w' & k & evs & Hrun & Hr & Hn & He & Hrx & Hz & Hq).
    exists n, w', k, evs. do 7 (split; [done|]).
    intros a text Hl Hne Ha.
    destruct (collect_one_line (clock w) a text Hne Ha) as (Hs & Hsl & Hrest).
    rewrite Hl in He, Hrx. rewrite <- He in Hs, Hsl. rewrite Hrest in Hrx.
    split; [done|]. split; [done|].
    rewrite (reads_clock _ _ _ _ Hr), Hsl. lia.
  - repeat split; eexists; (split; [vm_compute; reflexivity|]); repeat split; reflexivity.
Qed.

Lemma collect_quiet_window_witness :
  exists n w',
    main_raspy.response_loop 200 0 (clock slow_reply) slow_reply = Ret n w' /\
    n = 1 /\ shown (trace w') = ["OK"] /\ rx w' = [] /\ clock w' = 2550.
Proof.
  destruct (collect_quiet_window slow_reply 200)
    as [(n & w' & k & evs & Hrun & Hr & Hn & _ & _ & _ & _ & Hone) _].
  { unfold enough_fuel. simpl. lia. }
  destruct (Hone 1500 "OK" eq_refl eq_refl) as (Hs & Hrx & Hc); [simpl; lia|].
  exists n, w'. split; [exact Hrun|].
  rewrite Hs in Hn. split; [exact Hn|].
  split; [by rewrite (reads_trace _ _ _ _ Hr)|]. split; [exact Hrx|exact Hc].
Defined.

(** ** The loop that reads the start-up lines *)

Lemma reads_startup w w' k evs x r :
  rx w = x :: r -> nonempty (PyStr.strip x.2) = true ->
  reads (logged (EvPrint (DeviceLine (PyStr.strip x.2))) (with_rx r w)) w' k evs ->
  reads w w' (S k) (EvPrint (DeviceLine (PyStr.strip x.2)) :: evs).
Proof.
  intros Erx Hne [H1 H2 H3 H4 H5 H6 H7 H8]; simpl in *.
  split; rewrite ?Erx; simpl; try done.
  - by rewrite H2, <- !app_assoc.
  - unfold nonblank_lines in *; simpl. by rewrite Hne, H3.
  - by constructor.
Qed.

Lemma startup_loop_S fuel msgs t0 w :
  main_raspy.startup_loop (S fuel) msgs t0 w =
  if clock w - t0 <? 3000 then
    match rx w with
    | x :: r =>
        if arrived (clock w) x then
          if nonempty (PyStr.strip x.2) then
            main_raspy.startup_loop fuel (msgs ++ [PyStr.strip x.2]) (clock w)
              (logged (EvPrint (DeviceLine (PyStr.strip x.2))) (with_rx r w))
          else main_raspy.startup_loop fuel msgs t0 (with_rx r w)
        else main_raspy.startup_loop fuel msgs t0 (tick 100 w)
    | [] => main_raspy.startup_loop fuel msgs t0 (tick 100 w)
    end
  else Ret msgs w.
Proof.
  cbn [main_raspy.startup_loop]. unfold bind at 1. unfold time at 1.
  destruct (clock w - t0 <? 3000); [|reflexivity].
  unfold bind at 1. unfold ser_in_waiting.
  destruct (rx w) as [|x r] eqn:Erx; [reflexivity|].
  destruct (arrived (clock w) x); [|reflexivity].
  unfold bind at 1. unfold ser_readline_strip. rewrite Erx.
  destruct (nonempty (PyStr.strip x.2)); reflexivity.
Qed.

Lemma startup_loop_returns fuel : forall msgs t0 w,
  0 <= clock w - t0 ->
  (iterations_left t0 w < fuel)%nat ->
  exists msgs' w', main_raspy.startup_loop fuel msgs t0 w = Ret msgs' w'.
Proof.
  induction fuel as [|fuel IH]; intros msgs t0 w He Hf; [lia|].
  rewrite startup_loop_S.
  destruct (clock w - t0 <? 3000) eqn:Hlt; [|eauto].
  apply Z.ltb_lt in Hlt.
  assert (Hpoll : exists msgs' w',
            main_raspy.startup_loop fuel msgs t0 (tick 100 w) = Ret msgs' w').
  { apply IH; unfold iterations_left in *; simpl; lia. }
  destruct (rx w) as [|x r] eqn:Erx; [exact Hpoll|].
  destruct (arrived (clock w) x); [|exact Hpoll].
  destruct (nonempty _).
  - apply IH; unfold iterations_left in *; simpl; rewrite ?Erx in *; simpl in *; lia.
  - apply IH; unfold iterations_left in *; simpl; rewrite ?Erx in *; simpl in *; lia.
Qed.

(** When the start-up loop returns, 3000 ms have passed since the last line
    it showed, or since [timeout_start] when it showed none: a line restarts
    the whole wait. *)
Lemma startup_loop_spec fuel : forall msgs t0 w msgs' w',
  (exists j, clock w - t0 = 100 * j /\ 0 <= j <= 30) ->
  main_raspy.startup_loop fuel msgs t0 w = Ret msgs' w' ->
  exists k evs,
    reads w w' k evs /\
    msgs' = msgs ++ shown evs /\
    quiet_after (clock w - t0) evs = 3000.
Proof.
  induction fuel as [|fuel IH]; intros msgs t0 w msgs' w' (j & Hj & Hj30) Hrun;
    [discriminate|].
  rewrite startup_loop_S in Hrun.
  destruct (clock w - t0 <? 3000) eqn:Hlt.
  2:{ apply Z.ltb_ge in Hlt. inversion Hrun; subst msgs' w'.
      exists O, []. split; [apply reads_nil|]. simpl. rewrite app_nil_r. split; [done|lia]. }
  apply Z.ltb_lt in Hlt.
  assert (Hpoll : main_raspy.startup_loop fuel msgs t0 (tick 100 w) = Ret msgs' w' ->
    exists k evs,
      reads w w' k evs /\ msgs' = msgs ++ shown evs /\
      quiet_after (clock w - t0) evs = 3000).
  { intros Hp.
    destruct (IH msgs t0 (tick 100 w) msgs' w') as (k & evs & Hr & Hm & Hq); [|done|].
    { exists (j + 1). simpl. lia. }
    exists k, (EvSleep 100 :: evs).
    split; [by apply reads_tick|]. simpl in *.
    replace (clock w - t0 + 100) with (clock w + 100 - t0) by lia. done. }
  destruct (rx w) as [|x r] eqn:Erx; [by apply Hpoll|].
  destruct (arrived (clock w) x) eqn:Harr; [|by apply Hpoll].
  clear Hpoll.
  destruct (nonempty (PyStr.strip x.2)) eqn:Hne.
  - eapply IH in Hrun as (k & evs & Hr & Hm & Hq); [|exists 0; simpl; lia].
    eexists (S k), _.
    split; [by eapply reads_startup|]. simpl in *.
    rewrite Z.sub_diag in Hq. by rewrite Hm, <- app_assoc.
  - eapply IH in Hrun as (k & evs & Hr & Hm & Hq); [|exists j; simpl; lia].
    exists (S k), evs.
    split; [by eapply reads_blank|]. done.
Qed.

Lemma startup_loop_total w fuel :
  (enough_fuel w <= fuel)%nat ->
  exists msgs w' k evs,
    main_raspy.startup_loop fuel [] (clock w) w = Ret msgs w' /\
    reads w w' k evs /\
    msgs = shown evs /\
    quiet_after 0 evs = 3000.
Proof.
  intros Hf.
  destruct (startup_loop_returns fuel [] (clock w) w) as (msgs & w' & Hrun).
  { lia. }
  { unfold enough_fuel, iterations_left in *. lia. }
  destruct (startup_loop_spec fuel [] (clock w) w msgs w') as (k & evs & Hr & Hm & Hq);
    [exists 0; lia|done|].
  exists msgs, w', k, evs. rewrite Z.sub_diag in Hq. done.
Qed.

Lemma polls_step_100 t u :
  t + 100 <= u -> polls 100 t u = EvSleep 100 :: polls 100 (t + 100) u.
Proof.
  intros Hu. unfold polls.
  replace ((u - t) / 100) with (Z.succ ((u - (t + 100)) / 100)) by lia.
  rewrite Z2Nat.inj_succ by lia. reflexivity.
Qed.

Lemma settle_nil q t : settle q t [] = (polls 100 t (q + 2900 + 100), []).
Proof. reflexivity. Qed.

Lemma settle_cons q t x r :
  settle q t (x :: r) =
  let last := q + 2900 in
  let u := first_look 100 t x.1 in
  if u <=? last then
    if nonempty (PyStr.strip x.2) then
      (polls 100 t u ++ EvPrint (DeviceLine (PyStr.strip x.2)) :: (settle u u r).1,
       (settle u u r).2)
    else (polls 100 t u ++ (settle q u r).1, (settle q u r).2)
  else (polls 100 t (last + 100), x :: r).
Proof. reflexivity. Qed.

(** A poll while the next line is not there. *)
Lemma settle_wait q t l :
  t <= q + 2900 ->
  match l with x :: _ => arrived t x = false | [] => True end ->
  settle q t l = (EvSleep 100 :: (settle q (t + 100) l).1, (settle q (t + 100) l).2).
Proof.
  intros Ht Hna. destruct l as [|x r].
  - rewrite !settle_nil. cbn [fst snd]. by rewrite polls_step_100 by lia.
  - rewrite !settle_cons. cbv zeta.
    unfold arrived in Hna. apply Z.leb_gt in Hna.
    assert (Hu : first_look 100 t x.1 = first_look 100 (t + 100) x.1 /\
                 t + 100 <= first_look 100 t x.1).
    { unfold first_look.
      destruct (Z.leb_spec x.1 t); [lia|].
      destruct (Z.leb_spec x.1 (t + 100)); lia. }
    destruct Hu as [<- Hu].
    destruct (first_look 100 t x.1 <=? q + 2900) eqn:Hin.
    + rewrite (polls_step_100 t) by lia.
      destruct (nonempty _); reflexivity.
    + cbn [fst snd]. by rewrite polls_step_100 by lia.
Qed.

Lemma startup_loop_settle fuel : forall msgs q w msgs' w',
  (exists j, clock w - q = 100 * j /\ 0 <= j <= 30) ->
  main_raspy.startup_loop fuel msgs q w = Ret msgs' w' ->
  w' = after_reading (settle q (clock w) (rx w)).1 (settle q (clock w) (rx w)).2 w.
Proof.
  induction fuel as [|fuel IH]; intros msgs q w msgs' w' (j & Hj & Hj30) Hrun;
    [discriminate|].
  rewrite startup_loop_S in Hrun.
  destruct (clock w - q <? 3000) eqn:Hlt.
  2:{ apply Z.ltb_ge in Hlt. inversion Hrun; subst msgs' w'.
      assert (He : settle q (clock w) (rx w) = ([], rx w)).
      { destruct (rx w) as [|x r] eqn:Erx.
        - rewrite settle_nil. unfold polls.
          replace ((q + 2900 + 100 - clock w) / 100) with 0 by lia. done.
        - rewrite settle_cons. cbv zeta.
          assert (clock w <= first_look 100 (clock w) x.1).
          { unfold first_look. destruct (Z.leb_spec x.1 (clock w)); lia. }
          destruct (Z.leb_spec (first_look 100 (clock w) x.1) (q + 2900)); [lia|].
          unfold polls. replace ((q + 2900 + 100 - clock w) / 100) with 0 by lia. done. }
      rewrite He. cbn [fst snd]. by rewrite after_reading_nil. }
  apply Z.ltb_lt in Hlt.
  assert (Hin : clock w <= q + 2900) by lia.
  assert (Hpoll : match rx w with x :: _ => arrived (clock w) x = false | [] => True end ->
    main_raspy.startup_loop fuel msgs q (tick 100 w) = Ret msgs' w' ->
    w' = after_reading (settle q (clock w) (rx w)).1 (settle q (clock w) (rx w)).2 w).
  { intros Hna Hp.
    rewrite (settle_wait q (clock w) (rx w) Hin Hna). cbn [fst snd].
    assert (Hinv : exists j', clock (tick 100 w) - q = 100 * j' /\ 0 <= j' <= 30).
    { exists (j + 1). simpl. lia. }
    pose proof (IH msgs q (tick 100 w) msgs' w' Hinv Hp) as Hw.
    change (clock (tick 100 w)) with (clock w + 100) in *.
    change (rx (tick 100 w)) with (rx w) in *.
    by rewrite after_reading_tick in Hw. }
  destruct (rx w) as [|x r] eqn:Erx; [by apply Hpoll|].
  destruct (arrived (clock w) x) eqn:Harr; [|by apply Hpoll].
  clear Hpoll. rewrite settle_cons. cbv zeta.
  assert (Hu : first_look 100 (clock w) x.1 = clock w).
  { unfold first_look. unfold arrived in Harr. by rewrite Harr. }
  rewrite Hu, polls_none.
  destruct (Z.leb_spec (clock w) (q + 2900)); [|lia].
  destruct (nonempty (PyStr.strip x.2)) eqn:Hne.
  - assert (Hinv : exists j',
      clock (logged (EvPrint (DeviceLine (PyStr.strip x.2))) (with_rx r w)) - clock w
        = 100 * j' /\ 0 <= j' <= 30).
    { exists 0. simpl. lia. }
    pose proof (IH _ (clock w) _ msgs' w' Hinv Hrun) as Hw.
    change (clock (logged (EvPrint (DeviceLine (PyStr.strip x.2))) (with_rx r w)))
      with (clock w) in *.
    change (rx (logged (EvPrint (DeviceLine (PyStr.strip x.2))) (with_rx r w))) with r in *.
    rewrite after_reading_logged in Hw by reflexivity.
    rewrite after_reading_rx in Hw. cbn [fst snd app]. exact Hw.
  - assert (Hinv : exists j', clock (with_rx r w) - q = 100 * j' /\ 0 <= j' <= 30).
    { exists j. simpl. lia. }
    pose proof (IH msgs q _ msgs' w' Hinv Hrun) as Hw.
    change (clock (with_rx r w)) with (clock w) in *.
    change (rx (with_rx r w)) with r in *.
    rewrite after_reading_rx in Hw. cbn [fst snd app]. done.
Qed.

Lemma startup_loop_exact w fuel :
  (enough_fuel w <= fuel)%nat ->
  exists msgs w' k evs,
    main_raspy.startup_loop fuel [] (clock w) w = Ret msgs w' /\
    reads w w' k evs /\
    msgs = shown evs /\
    quiet_after 0 evs = 3000 /\
    evs = (settle (clock w) (clock w) (rx w)).1 /\
    rx w' = (settle (clock w) (clock w) (rx w)).2.
Proof.
  intros Hf.
  destruct (startup_loop_total w fuel Hf) as (msgs & w' & k & evs & Hrun & Hr & Hm & Hq).
  pose proof (startup_loop_settle fuel [] (clock w) w msgs w') as Hw.
  specialize (Hw ltac:(exists 0; lia) Hrun).
  exists msgs, w', k, evs.
  assert (He : evs = (settle (clock w) (clock w) (rx w)).1).
  { pose proof (reads_trace _ _ _ _ Hr) as Ht. rewrite Hw in Ht at 1.
    simpl in Ht. by apply app_inv_head in Ht. }
  repeat (split; [done|]).
  rewrite Hw at 1. reflexivity.
Qed.

(** The start-up loop on a device that sends one line, and on one that
    sends none. *)
Lemma settle_one_line t a text :
  nonempty (PyStr.strip text) = true ->
  a <= t + 2900 ->
  shown (settle t t [(a, text)]).1 = [PyStr.strip text] /\
  slept (settle t t [(a, text)]).1 = first_look 100 t a - t + 3000 /\
  (settle t t [(a, text)]).2 = [].
Proof.
  intros Hne Ha. rewrite settle_cons. cbv zeta. cbn [fst snd]. rewrite Hne.
  destruct (first_look_bounds 100 t a 29 ltac:(lia) ltac:(lia)) as [Hlo Hhi].
  destruct (Z.leb_spec (first_look 100 t a) (t + 2900)); [|lia].
  rewrite settle_nil. cbn [fst snd].
  rewrite shown_app, slept_app, shown_polls, slept_polls_first_look by lia.
  set (u := first_look 100 t a).
  replace (u + 2900 + 100) with (u + 100 * 30) by lia.
  cbn [shown slept]. rewrite shown_polls, slept_polls_window by lia.
  split; [done|]. split; [lia|done].
Qed.

Lemma settle_silent t :
  shown (settle t t []).1 = [] /\ slept (settle t t []).1 = 3000.
Proof.
  rewrite settle_nil. cbn [fst snd].
  replace (t + 2900 + 100) with (t + 100 * 30) by lia.
  rewrite shown_polls, slept_polls_window by lia. done.
Qed.

(** ** Running the calls one at a time *)

Section Steps.
Context {A B : Type}.

Lemma bind_Ret (m : M A) (f : A -> M B) w a w1 :
  m w = Ret a w1 -> bind m f w = f a w1.
Proof. unfold bind. by intros ->. Qed.

Lemma bind_Exc (m : M A) (f : A -> M B) w w1 :
  m w = Exc w1 -> bind m f w = Exc w1.
Proof. unfold bind. by intros ->. Qed.

Lemma try_Ret (m h : M A) w a w1 :
  m w = Ret a w1 -> try_except m h w = Ret a w1.
Proof. unfold try_except. by intros ->. Qed.

Lemma try_Exc (m h : M A) w w1 :
  m w = Exc w1 -> try_except m h w = h w1.
Proof. unfold try_except. by intros ->. Qed.
End Steps.

Lemma sleep_eq ms w : sleep ms w = Ret () (tick ms w).
Proof. reflexivity. Qed.

Lemma set_status_led_eq a b w : set_status_led a b w = Ret () (logged (EvLed a b) w).
Proof. reflexivity. Qed.

Lemma print_eq n w : print n w = Ret () (logged (EvPrint n) w).
Proof. reflexivity. Qed.

Lemma time_eq w : time w = Ret (clock w) w.
Proof. reflexivity. Qed.

Lemma ret_eq {A} (a : A) w : ret a w = Ret a w.
Proof. reflexivity. Qed.

Lemma fallible_eq op w :
  fallible op w = if next_fault w then Exc (failed op w) else Ret () (passed op w).
Proof. destruct w as [? ? ? ? ? [|[] ?] ? ? ? ? ?]; reflexivity. Qed.

Lemma serial_Serial_eq port w :
  serial_Serial port w =
  if next_fault w then Exc (failed (Open port) w)
  else Ret () (with_ser (Some true) (passed (Open port) w)).
Proof.
  unfold serial_Serial, bind. rewrite fallible_eq. by destruct (next_fault w).
Qed.

Lemma on_open_port_eq op w :
  is_open w = true ->
  on_open_port op w = if next_fault w then Exc (failed op w) else Ret () (passed op w).
Proof. unfold on_open_port. intros ->. apply fallible_eq. Qed.

Lemma ser_write_eq data w :
  is_open w = true ->
  ser_write data w =
  if next_fault w then Exc (failed (Write data) w) else Ret () (passed (Write data) w).
Proof. apply on_open_port_eq. Qed.

Lemma ser_flush_eq w :
  is_open w = true ->
  ser_flush w = if next_fault w then Exc (failed Flush w) else Ret () (passed Flush w).
Proof. apply on_open_port_eq. Qed.

Lemma ser_reset_output_buffer_eq w :
  is_open w = true ->
  ser_reset_output_buffer w =
  if next_fault w then Exc (failed ResetOutput w) else Ret () (passed ResetOutput w).
Proof. apply on_open_port_eq. Qed.

Lemma ser_reset_input_buffer_eq w :
  is_open w = true ->
  ser_reset_input_buffer w =
  if next_fault w then Exc (failed ResetInput w)
  else Ret () (with_rx (drop_arrived (clock w) (rx w)) (passed ResetInput w)).
Proof.
  intros Ho. unfold ser_reset_input_buffer, bind. rewrite on_open_port_eq by done.
  by destruct (next_fault w).
Qed.

Lemma ser_close_eq w :
  is_open w = true ->
  ser_close w = Ret () (with_ser (Some false) (logged EvClose w)).
Proof. unfold ser_close. by intros ->. Qed.

Lemma calm_S n b l : calm (S n) (b :: l) -> b = false /\ calm n l.
Proof. unfold calm. simpl. intros H. by inversion H. Qed.

Lemma drop_arrived_length t l : (length (drop_arrived t l) <= length l)%nat.
Proof.
  induction l as [|x r IH]; simpl; [lia|].
  destruct (arrived t x); simpl; lia.
Qed.

(** Brings a world built from the steps above to a record of its fields. *)
Ltac flat :=
  cbn [tick logged passed failed shown_line with_clock with_trace with_ser with_port
       with_running with_faults with_rx clock trace ser SERIAL_PORT running faults rx
       comports GPIO_UART_ENABLE ttyS0_exists uart_in_boot_config is_open next_fault
       tail].

Ltac prim :=
  first [ rewrite sleep_eq | rewrite set_status_led_eq | rewrite print_eq
        | rewrite time_eq | rewrite ret_eq
        | rewrite serial_Serial_eq
        | rewrite ser_reset_input_buffer_eq by reflexivity
        | rewrite ser_reset_output_buffer_eq by reflexivity
        | rewrite ser_write_eq by reflexivity
        | rewrite ser_flush_eq by reflexivity
        | rewrite ser_close_eq by reflexivity ].

(** One call that returns, and one that raises, at the head of a sequence. *)
Ltac step := erewrite bind_Ret by (prim; flat; reflexivity); cbv beta.
Ltac step_exc := erewrite bind_Exc by (prim; flat; reflexivity).

(** Splits a script of faults of which the first calls do not raise. *)
Ltac calm_cases H :=
  repeat match type of H with
         | calm (S _) ?fl =>
             is_var fl; destruct fl as [|? fl]; [|apply calm_S in H as [-> H]]
         end.

(** ** The handshake *)

(** The [try] block of [init_serial] when none of its four fallible calls
    raises: whatever the device sends, it returns [True]. *)
Lemma handshake_calm (w : world) (port : string) (fuel : nat) :
  calm 4 (faults w) ->
  (enough_fuel w <= fuel)%nat ->
  exists w' evs,
    main_raspy.handshake port fuel w = Ret true w' /\
    trace w' = trace w ++
      [EvIO (Open port) true; EvSleep 3000; EvIO ResetInput true;
       EvIO ResetOutput true; EvIO (Write main_raspy.STATUS_probe) true; EvSleep 500]
      ++ evs ++ [EvLed true true] /\
    Forall reading evs /\
    quiet_after 0 evs = 3000 /\
    ser w' = Some true /\
    SERIAL_PORT w' = SERIAL_PORT w.
Proof.
  intros Hc Hf. unfold main_raspy.handshake.
  destruct w as [clk tr s p rn fl rx0 ports en ex cfg]; simpl in *.
  calm_cases Hc.
  all: do 7 step.
  all: match goal with
       | |- context [bind _ _ ?W] =>
           destruct (startup_loop_total W fuel)
             as (msgs & w1 & k & evs & Hloop & Hr & Hm & Hq)
       end;
       [ unfold enough_fuel in *; simpl in *;
         pose proof (drop_arrived_length (clk + 3000) rx0); lia | ].
  all: erewrite bind_Ret; [|exact Hloop].
  all: step.
  all: destruct Hr as [H1 H2 H3 H4 H5 H6 H7 H8]; simpl in *.
  all: eexists _, evs; split; [reflexivity|]; simpl.
  all: rewrite H2, <- !app_assoc; simpl; done.
Qed.

(** The same with the events of the start-up loop, which are those of
    [settle] on the lines that arrive after the discard of the input. *)
Lemma handshake_exact (w : world) (port : string) (fuel : nat) :
  calm 4 (faults w) ->
  (enough_fuel w <= fuel)%nat ->
  exists w' evs,
    main_raspy.handshake port fuel w = Ret true w' /\
    trace w' = trace w ++
      [EvIO (Open port) true; EvSleep 3000; EvIO ResetInput true;
       EvIO ResetOutput true; EvIO (Write main_raspy.STATUS_probe) true; EvSleep 500]
      ++ evs ++ [EvLed true true] /\
    Forall reading evs /\
    quiet_after 0 evs = 3000 /\
    evs = (settle (clock w + 3500) (clock w + 3500)
             (drop_arrived (clock w + 3000) (rx w))).1 /\
    rx w' = (settle (clock w + 3500) (clock w + 3500)
               (drop_arrived (clock w + 3000) (rx w))).2 /\
    clock w' = clock w + 3500 + slept evs /\
    ser w' = Some true /\
    SERIAL_PORT w' = SERIAL_PORT w.
Proof.
  intros Hc Hf. unfold main_raspy.handshake.
  replace (clock w + 3500) with (clock w + 3000 + 500) by lia.
  destruct w as [clk tr s p rn fl rx0 ports en ex cfg]; simpl in *.
  calm_cases Hc.
  all: do 7 step.
  all: match goal with
       | |- context [bind _ _ ?W] =>
           destruct (startup_loop_exact W fuel)
             as (msgs & w1 & k & evs & Hloop & Hr & Hm & Hq & He & Hrx)
       end;
       [ unfold enough_fuel in *; simpl in *;
         pose proof (drop_arrived_length (clk + 3000) rx0); lia | ].
  all: erewrite bind_Ret; [|exact Hloop].
  all: step.
  all: destruct Hr as [H1 H2 H3 H4 H5 H6 H7 H8]; simpl in *.
  all: eexists _, evs; split; [reflexivity|]; simpl.
  all: rewrite H2, <- !app_assoc; simpl; done.
Qed.

Lemma resolve_port_eq w :
  main_raspy.resolve_port w = Ret () (with_port (endpoint w) w).
Proof. destruct w as [? ? ? [p|] ? ? ? ? ? ? ?]; reflexivity. Qed.

Lemma init_serial_calm (w : world) (port : string) (fuel : nat) :
  endpoint w = Some port ->
  calm 4 (faults w) ->
  (enough_fuel w <= fuel)%nat ->
  exists w' evs,
    main_raspy.init_serial fuel w = Ret true w' /\
    trace w' = trace w ++
      [EvLed true false; EvIO (Open port) true; EvSleep 3000; EvIO ResetInput true;
       EvIO ResetOutput true; EvIO (Write main_raspy.STATUS_probe) true; EvSleep 500]
      ++ evs ++ [EvLed true true] /\
    Forall reading evs /\
    quiet_after 0 evs = 3000 /\
    is_open w' = true /\
    SERIAL_PORT w' = Some port.
Proof.
  intros Hp Hc Hf. unfold main_raspy.init_serial.
  erewrite bind_Ret by apply set_status_led_eq.
  erewrite bind_Ret by apply resolve_port_eq.
  change (endpoint (logged (EvLed true false) w)) with (endpoint w). rewrite Hp.
  cbn [SERIAL_PORT with_port].
  destruct (handshake_calm (with_port (Some port) (logged (EvLed true false) w)) port fuel)
    as (w' & evs & Hrun & Ht & Hr & Hq & Hs & Hport); [done|done|].
  erewrite try_Ret by exact Hrun.
  exists w', evs. split; [done|]. simpl in *.
  rewrite Ht, <- !app_assoc. unfold is_open. by rewrite Hs.
Qed.

Lemma init_serial_exact (w : world) (port : string) (fuel : nat) :
  endpoint w = Some port ->
  calm 4 (faults w) ->
  (enough_fuel w <= fuel)%nat ->
  exists w' evs,
    main_raspy.init_serial fuel w = Ret true w' /\
    trace w' = trace w ++
      [EvLed true false; EvIO (Open port) true; EvSleep 3000; EvIO ResetInput true;
       EvIO ResetOutput true; EvIO (Write main_raspy.STATUS_probe) true; EvSleep 500]
      ++ evs ++ [EvLed true true] /\
    Forall reading evs /\
    quiet_after 0 evs = 3000 /\
    evs = (settle (clock w + 3500) (clock w + 3500)
             (drop_arrived (clock w + 3000) (rx w))).1 /\
    rx w' = (settle (clock w + 3500) (clock w + 3500)
               (drop_arrived (clock w + 3000) (rx w))).2 /\
    clock w' = clock w + 3500 + slept evs /\
    is_open w' = true /\
    SERIAL_PORT w' = Some port.
Proof.
  intros Hp Hc Hf. unfold main_raspy.init_serial.
  erewrite bind_Ret by apply set_status_led_eq.
  erewrite bind_Ret by apply resolve_port_eq.
  change (endpoint (logged (EvLed true false) w)) with (endpoint w). rewrite Hp.
  cbn [SERIAL_PORT with_port].
  destruct (handshake_exact (with_port (Some port) (logged (EvLed true false) w)) port fuel)
    as (w' & evs & Hrun & Ht & Hr & Hq & He & Hrx & Hcl & Hs & Hport); [done|done|].
  erewrite try_Ret by exact Hrun.
  exists w', evs. split; [done|]. simpl in *.
  rewrite Ht, <- !app_assoc. unfold is_open. by rewrite Hs.
Qed.

(** The [try] block of [init_serial] whatever raises: it returns [True] or
    raises, after one attempt to open [port], no close, and no write but
    the probe. *)
Lemma handshake_any (w : world) (port : string) (fuel : nat) :
  (enough_fuel w <= fuel)%nat ->
  exists (ok : bool) w' evs,
    main_raspy.handshake port fuel w = (if ok then Ret true w' else Exc w') /\
    trace w' = trace w ++ evs /\
    opens evs = [port] /\
    closes evs = O /\
    (writes evs = [] \/ writes evs = [main_raspy.STATUS_probe]) /\
    SERIAL_PORT w' = SERIAL_PORT w.
Proof.
  intros Hf. unfold main_raspy.handshake.
  destruct w as [clk tr s p rn fl rx0 ports en ex cfg]; simpl in *.
  destruct fl as [|[] [|[] [|[] [|[] fl]]]].
  all: repeat step.
  all: try (step_exc; exists false; eexists _, _; split; [reflexivity|]; flat;
            rewrite <- ?app_assoc; simpl; split; [reflexivity|]; simpl;
            by repeat split; try (by left); try (by right)).
  all: match goal with
       | |- context [bind _ _ ?W] =>
           destruct (startup_loop_total W fuel)
             as (msgs & w1 & k & evs & Hloop & Hr & Hm & Hq)
       end;
       [ unfold enough_fuel in *; simpl in *;
         pose proof (drop_arrived_length (clk + 3000) rx0); lia | ].
  all: erewrite bind_Ret; [|exact Hloop].
  all: step.
  all: destruct Hr as [H1 H2 H3 H4 H5 H6 H7 H8]; simpl in *.
  all: destruct (reading_passive evs H5) as (Hw & Ho & Hcl).
  all: exists true; eexists _, _; split; [reflexivity|]; simpl.
  all: rewrite H2, <- !app_assoc; simpl; split; [reflexivity|]; simpl.
  all: rewrite opens_app, closes_app, writes_app, Hw, Ho, Hcl; simpl.
  all: by repeat split; try (by right).
Qed.

(** [init_serial] with an endpoint in use returns whatever raises. *)
Lemma init_serial_any (w : world) (port : string) (fuel : nat) :
  SERIAL_PORT w = Some port ->
  (enough_fuel w <= fuel)%nat ->
  exists (ok : bool) w' evs,
    main_raspy.init_serial fuel w = Ret ok w' /\
    trace w' = trace w ++ evs /\
    opens evs = [port] /\
    closes evs = O /\
    (writes evs = [] \/ writes evs = [main_raspy.STATUS_probe]) /\
    SERIAL_PORT w' = Some port.
Proof.
  intros Hp Hf. unfold main_raspy.init_serial.
  erewrite bind_Ret by apply set_status_led_eq.
  erewrite bind_Ret by apply resolve_port_eq.
  change (endpoint (logged (EvLed true false) w)) with (endpoint w).
  assert (He : endpoint w = Some port) by (unfold endpoint; by rewrite Hp).
  rewrite He. cbn [SERIAL_PORT with_port].
  destruct (handshake_any (with_port (Some port) (logged (EvLed true false) w)) port fuel)
    as (ok & w' & evs & Hrun & Ht & Ho & Hc & Hw & Hport); [done|].
  simpl in Ht, Hport.
  destruct ok.
  - erewrite try_Ret by exact Hrun.
    exists true, w', (EvLed true false :: evs).
    rewrite Ht, <- app_assoc. done.
  - erewrite try_Exc by exact Hrun.
    erewrite bind_Ret by apply set_status_led_eq.
    exists false, (logged (EvLed false false) w'), (EvLed true false :: evs ++ [EvLed false false]).
    split; [reflexivity|]. simpl.
    rewrite Ht, <- !app_assoc, opens_app, closes_app, writes_app, Ho, Hc. simpl.
    rewrite ?app_nil_r, ?Nat.add_0_r.
    repeat split; done.
Qed.

(** C3, as the code has it.  When the open and the three calls after it do
    not raise, [init_serial] does, in this order: the 3 s sleep, the discard
    of the input and of the output, the write of the STATUS probe, a 500 ms
    sleep, and the reading of the start-up lines; it then returns [True] with
    the connection open, whatever the device sent.  The reading ends when
    3000 ms have passed since the last line shown, or since its start when
    there was none: there is no quiet second in it, every line restarts the
    3 s.  Its events and the lines it leaves unread are those of [settle] on
    the lines that arrive after the discard: it polls every 100 ms from
    3500 ms after the call, and takes a line at the first poll at or after
    its arrival.  With no such line the call lasts 6500 ms; with one, not
    blank and arriving by the last poll, 6400 ms after the call, the line is
    shown and the call ends 3000 ms after the poll that found it.  For the
    line of [booting], which arrives 4 s after the call, that is at
    7000 ms. *)
Theorem init_serial_handshake (w : world) (port : string) (fuel : nat) :
  endpoint w = Some port ->
  calm 4 (faults w) ->
  (enough_fuel w <= fuel)%nat ->
  (exists w' evs,
     main_raspy.init_serial fuel w = Ret true w' /\
     trace w' = trace w ++
       [EvLed true false; EvIO (Open port) true; EvSleep 3000; EvIO ResetInput true;
        EvIO ResetOutput true; EvIO (Write main_raspy.STATUS_probe) true; EvSleep 500]
       ++ evs ++ [EvLed true true] /\
     Forall reading evs /\
     quiet_after 0 evs = 3000 /\
     is_open w' = true /\
     SERIAL_PORT w' = Some port /\
     evs = (settle (clock w + 3500) (clock w + 3500)
              (drop_arrived (clock w + 3000) (rx w))).1 /\
     rx w' = (settle (clock w + 3500) (clock w + 3500)
                (drop_arrived (clock w + 3000) (rx w))).2 /\
     clock w' = clock w + 3500 + slept evs /\
     (drop_arrived (clock w + 3000) (rx w) = [] ->
        shown evs = [] /\ clock w' = clock w + 6500) /\
     (forall a text,
        drop_arrived (clock w + 3000) (rx w) = [(a, text)] ->
        nonempty (PyStr.strip text) = true -> a <= clock w + 6400 ->
        shown evs = [PyStr.strip text] /\ rx w' = [] /\
        clock w' = first_look 100 (clock w + 3500) a + 3000)) /\
  (exists w', main_raspy.init_serial 200 booting = Ret true w' /\
              shown (trace w') = ["ESP32 ready"] /\ clock w' = 7000) /\
  (exists w', main_raspy.init_serial 200 silent_boot = Ret true w' /\
              shown (trace w') = [] /\ clock w' = 6500).
Proof.
  intros Hp Hc Hf. split.
  - destruct (init_serial_exact w port fuel Hp Hc Hf)
      as (w' & evs & Hrun & Ht & Hr & Hq & He & Hrx & Hcl & Ho & Hport).
    exists w', evs. do 9 (split; [done|]). split.
    + intros Hl. rewrite Hl in He.
      destruct (settle_silent (clock w + 3500)) as [Hs Hsl].
      rewrite <- He in Hs, Hsl. split; [done|]. rewrite Hcl, Hsl. lia.
    + intros a text Hl Hne Ha. rewrite Hl in He, Hrx.
      destruct (settle_one_line (clock w + 3500) a text Hne ltac:(lia)) as (Hs & Hsl & Hrest).
      rewrite <- He in Hs, Hsl. rewrite Hrest in Hrx.
      split; [done|]. split; [done|]. rewrite Hcl, Hsl. lia.
  - split; eexists; (split; [vm_compute; reflexivity|]); split; reflexivity.
Qed.

Lemma init_serial_handshake_witness :
  exists w',
    main_raspy.init_serial 200 booting = Ret true w' /\
    trace w' =
      [EvLed true false; EvIO (Open "/dev/ttyUSB0") true; EvSleep 3000;
       EvIO ResetInput true; EvIO ResetOutput true;
       EvIO (Write main_raspy.STATUS_probe) true; EvSleep 500]
      ++ repeat (EvSleep 100) 5 ++ [EvPrint (DeviceLine "ESP32 ready")]
      ++ repeat (EvSleep 100) 30 ++ [EvLed true true] /\
    rx w' = [] /\
    clock w' = 7000 /\
    is_open w' = true.
Proof.
  destruct (init_serial_handshake booting "/dev/ttyUSB0" 200) as [Hgen _].
  - reflexivity.
  - unfold calm. simpl. constructor.
  - unfold enough_fuel. simpl. lia.
  - destruct Hgen as (w' & evs & Hrun & Ht & _ & _ & Ho & _ & He & Hrx & Hcl & _).
    exists w'. split; [exact Hrun|].
    split; [rewrite Ht, He; reflexivity|].
    split; [exact Hrx|]. split; [rewrite Hcl, He; reflexivity|exact Ho].
Defined.

(** C3, as stated, fails: the reading of the start-up lines is not bounded by
    3 s.  With a line arriving 1 s after the loop began, the loop lasts 4 s. *)
Lemma startup_collection_exceeds_window :
  ~ (forall (w : world) (fuel : nat) msgs w',
       main_raspy.startup_loop fuel [] (clock w) w = Ret msgs w' ->
       clock w' - clock w <= 3000).
Proof.
  intros H.
  destruct (main_raspy.startup_loop 100 [] (clock late_line) late_line) as [msgs w'| |] eqn:E;
    try (vm_compute in E; discriminate).
  specialize (H late_line 100%nat msgs w' E).
  vm_compute in E. inversion E; subst. vm_compute in H. by apply H.
Qed.

(** ** Sending a command *)

Lemma collect_responses_total (w : world) (fuel : nat) :
  (enough_fuel w <= fuel)%nat ->
  exists n w' evs,
    main_raspy.collect_responses fuel w = Ret n w' /\
    trace w' = trace w ++ EvSleep 300 :: evs /\
    Forall reading evs /\
    ser w' = ser w /\ faults w' = faults w /\ SERIAL_PORT w' = SERIAL_PORT w.
Proof.
  intros Hf. unfold main_raspy.collect_responses.
  erewrite bind_Ret by apply sleep_eq.
  erewrite bind_Ret by apply time_eq.
  destruct (response_loop_total (tick 300 w) fuel) as (n & w' & k & evs & Hrun & Hr & _);
    [done|].
  exists n, w', evs. split; [exact Hrun|].
  destruct Hr as [H1 H2 H3 H4 H5 H6 H7 H8]. simpl in *.
  by rewrite H2, <- app_assoc.
Qed.

(** The reconnection after a failure: one close, a sleep of 1 s, and one
    [init_serial], which tries the endpoint in use once and writes nothing
    but its probe. *)
Lemma reconnect_cycle (w : world) (port : string) (fuel : nat) :
  is_open w = true ->
  SERIAL_PORT w = Some port ->
  (enough_fuel w <= fuel)%nat ->
  exists w' post,
    main_raspy.reconnect fuel w = Ret false w' /\
    trace w' = trace w ++ [EvLed false false; EvClose; EvSleep 1000] ++ post /\
    opens post = [port] /\
    closes post = O /\
    (writes post = [] \/ writes post = [main_raspy.STATUS_probe]).
Proof.
  intros Ho Hp Hf. unfold main_raspy.reconnect.
  destruct w as [clk tr [[]|] p rn fl rx0 ports en ex cfg]; try discriminate.
  simpl in Hp. subst p.
  step.
  match goal with
  | |- context [main_raspy.init_serial fuel] =>
      match goal with
      | |- context [bind (try_except (bind _ ?k) _) _ ?W] =>
          destruct (init_serial_any
                      (tick 1000 (with_ser (Some false) (logged EvClose W))) port fuel)
            as (ok & w' & post & Hrun & Ht & Hopen & Hcl & Hw & _); [done|done|]
      end
  end.
  erewrite bind_Ret.
  2:{ apply try_Ret.
      erewrite bind_Ret by (cbv beta; flat; rewrite ser_close_eq by reflexivity; reflexivity).
      step.
      erewrite bind_Ret by exact Hrun.
      apply ret_eq. }
  cbv beta. rewrite ret_eq.
  exists w', post. split; [reflexivity|].
  simpl in Ht. rewrite Ht, <- !app_assoc. done.
Qed.

Section Sending.

Context `{PyFloat}.

Lemma transmit_calm (w : world) (cmd_data : gmap string pyval) (fuel : nat) :
  is_open w = true ->
  calm 2 (faults w) ->
  (enough_fuel w <= fuel)%nat ->
  exists w' evs,
    main_raspy.transmit fuel cmd_data w = Ret true w' /\
    trace w' = trace w ++ before_write ++
      [EvIO (Write (serial_cmd_of cmd_data)) true; EvIO Flush true;
       EvPrint (Sent (PyStr.strip (serial_cmd_of cmd_data))); EvSleep 300] ++ evs /\
    Forall reading evs /\
    is_open w' = true /\
    SERIAL_PORT w' = SERIAL_PORT w.
Proof.
  intros Ho Hc Hf. unfold main_raspy.transmit. cbv zeta.
  fold (serial_cmd_of cmd_data). set (line := serial_cmd_of cmd_data).
  destruct w as [clk tr [[]|] p rn fl rx0 ports en ex cfg]; try discriminate.
  simpl in Hc. calm_cases Hc.
  all: do 6 step.
  all: match goal with
       | |- context [bind _ _ ?W] =>
           destruct (collect_responses_total W fuel)
             as (n & w' & evs & Hrun & Ht & Hr & Hs & _ & Hp); [done|]
       end.
  all: erewrite bind_Ret by exact Hrun.
  all: rewrite ret_eq.
  all: exists w', evs; split; [reflexivity|]; simpl in *.
  all: rewrite Ht, <- !app_assoc; unfold is_open; rewrite Hs; done.
Qed.

(** The write raises: the [try] block raises with the write as its last
    event. *)
Lemma transmit_write_fails (w : world) (cmd_data : gmap string pyval) (fuel : nat) fs :
  is_open w = true ->
  faults w = true :: fs ->
  exists w1,
    main_raspy.transmit fuel cmd_data w = Exc w1 /\
    trace w1 = trace w ++ before_write ++ [EvIO (Write (serial_cmd_of cmd_data)) false] /\
    is_open w1 = true /\ SERIAL_PORT w1 = SERIAL_PORT w /\ rx w1 = rx w.
Proof.
  intros Ho Hfl. unfold main_raspy.transmit. cbv zeta.
  fold (serial_cmd_of cmd_data). set (line := serial_cmd_of cmd_data).
  destruct w as [clk tr [[]|] p rn fl rx0 ports en ex cfg]; try discriminate.
  simpl in Hfl. subst fl.
  do 3 step. step_exc.
  eexists. split; [reflexivity|]. simpl. by rewrite <- !app_assoc.
Qed.

(** The write returns and the flush raises. *)
Lemma transmit_flush_fails (w : world) (cmd_data : gmap string pyval) (fuel : nat) fs :
  is_open w = true ->
  faults w = false :: true :: fs ->
  exists w1,
    main_raspy.transmit fuel cmd_data w = Exc w1 /\
    trace w1 = trace w ++ before_write ++
      [EvIO (Write (serial_cmd_of cmd_data)) true; EvIO Flush false] /\
    is_open w1 = true /\ SERIAL_PORT w1 = SERIAL_PORT w /\ rx w1 = rx w.
Proof.
  intros Ho Hfl. unfold main_raspy.transmit. cbv zeta.
  fold (serial_cmd_of cmd_data). set (line := serial_cmd_of cmd_data).
  destruct w as [clk tr [[]|] p rn fl rx0 ports en ex cfg]; try discriminate.
  simpl in Hfl. subst fl.
  do 4 step. step_exc.
  eexists. split; [reflexivity|]. simpl. by rewrite <- !app_assoc.
Qed.

Lemma send_to_robot_object (w : world) (cmd_data : gmap string pyval) (fuel : nat) :
  is_open w = true ->
  main_raspy.send_to_robot fuel (JObject cmd_data) w =
  try_except (main_raspy.transmit fuel cmd_data) (main_raspy.reconnect fuel) w.
Proof. unfold main_raspy.send_to_robot. by intros ->. Qed.

(** C2.  When the write of a command raises, or its flush does,
    [send_to_robot] returns [False] after one recovery: the connection is
    closed once, a sleep of 1 s follows, and [init_serial] tries once to
    open the endpoint that was in use.  Nothing is written after the
    failure but the probe of the handshake: the command is not sent again. *)
Theorem write_failure_one_recovery (w : world) (cmd_data : gmap string pyval)
    (port : string) (fuel : nat) (fs : list bool) :
  is_open w = true ->
  SERIAL_PORT w = Some port ->
  faults w = true :: fs \/ faults w = false :: true :: fs ->
  (enough_fuel w <= fuel)%nat ->
  exists w' attempt post,
    main_raspy.send_to_robot fuel (JObject cmd_data) w = Ret false w' /\
    trace w' = trace w ++ before_write ++ attempt ++
               [EvLed false false; EvClose; EvSleep 1000] ++ post /\
    (attempt = [EvIO (Write (serial_cmd_of cmd_data)) false] \/
     attempt = [EvIO (Write (serial_cmd_of cmd_data)) true; EvIO Flush false]) /\
    opens post = [port] /\
    closes post = O /\
    (writes post = [] \/ writes post = [main_raspy.STATUS_probe]).
Proof.
  intros Ho Hp Hfl Hf. rewrite send_to_robot_object by done.
  destruct Hfl as [Hfl|Hfl].
  - destruct (transmit_write_fails w cmd_data fuel fs Ho Hfl)
      as (w1 & Hrun & Ht & Ho1 & Hp1 & Hrx).
    erewrite try_Exc by exact Hrun.
    destruct (reconnect_cycle w1 port fuel) as (w' & post & Hrec & Ht' & ?);
      [done|congruence|unfold enough_fuel in *; by rewrite Hrx|].
    exists w', [EvIO (Write (serial_cmd_of cmd_data)) false], post.
    split; [done|]. rewrite Ht', Ht, <- !app_assoc.
    split; [done|]. split; [by left|done].
  - destruct (transmit_flush_fails w cmd_data fuel fs Ho Hfl)
      as (w1 & Hrun & Ht & Ho1 & Hp1 & Hrx).
    erewrite try_Exc by exact Hrun.
    destruct (reconnect_cycle w1 port fuel) as (w' & post & Hrec & Ht' & ?);
      [done|congruence|unfold enough_fuel in *; by rewrite Hrx|].
    exists w', [EvIO (Write (serial_cmd_of cmd_data)) true; EvIO Flush false], post.
    split; [done|]. rewrite Ht', Ht, <- !app_assoc.
    split; [done|]. split; [by right|done].
Qed.

End Sending.

(** ** The monitor *)

Lemma talks_nil w : talks w w [].
Proof. split; by rewrite ?app_nil_r. Qed.

Lemma talks_trans w w1 w2 evs1 evs2 :
  talks w w1 evs1 -> talks w1 w2 evs2 -> talks w w2 (evs1 ++ evs2).
Proof.
  intros [H1 H2 H3 H4] [H5 H6 H7 H8]. split.
  - by rewrite H5, H1, app_assoc.
  - congruence.
  - congruence.
  - rewrite closes_app. lia.
Qed.

Section Monitor.

Context `{PyFloat}.

(** [send_command] on an open connection when neither call raises. *)
Lemma send_command_calm c v u w :
  is_open w = true ->
  calm 2 (faults w) ->
  exists w',
    serial_monitor.send_command c v u w = Ret true w' /\
    talks w w' [EvIO (Write (fstring_cmd c v u)) true; EvIO Flush true;
                EvPrint (Sent (PyStr.strip (fstring_cmd c v u)))].
Proof.
  intros Ho Hc. unfold serial_monitor.send_command. rewrite Ho. cbv zeta. simpl negb. cbv iota.
  destruct w as [clk tr [[]|] p rn fl rx0 ports en ex cfg]; try discriminate.
  simpl in Hc. calm_cases Hc.
  all: erewrite try_Ret by (repeat step; apply ret_eq).
  all: eexists; split; [reflexivity|].
  all: split; simpl; rewrite <- ?app_assoc; done.
Qed.

(** [send_command] always returns; it writes its line or nothing. *)
Lemma send_command_effect c v u w :
  exists ok w' evs,
    serial_monitor.send_command c v u w = Ret ok w' /\
    talks w w' evs /\
    (writes evs = [] \/ writes evs = [fstring_cmd c v u]).
Proof.
  unfold serial_monitor.send_command. cbv zeta.
  destruct w as [clk tr [[]|] p rn fl rx0 ports en ex cfg];
    cbn [is_open ser negb].
  2,3: step; rewrite ret_eq; eexists _, _, _; split; [reflexivity|];
       split; [split; simpl; done|by left].
  destruct fl as [|[] [|[] fl]].
  all: first [ erewrite try_Ret by (repeat step; apply ret_eq)
             | erewrite try_Exc by (repeat step; step_exc; reflexivity); step; rewrite ret_eq ].
  all: eexists _, _, _; split; [reflexivity|].
  all: split; [split; simpl; rewrite <- ?app_assoc; simpl; done|simpl; by right].
Qed.

(** [send_raw] always returns; it writes its line or nothing. *)
Lemma send_raw_effect raw_data w :
  exists ok w' evs,
    serial_monitor.send_raw raw_data w = Ret ok w' /\
    talks w w' evs /\
    (writes evs = [] \/ writes evs = [raw_line raw_data]).
Proof.
  unfold serial_monitor.send_raw. cbv zeta. fold (raw_line raw_data).
  destruct w as [clk tr [[]|] p rn fl rx0 ports en ex cfg];
    cbn [is_open ser negb].
  2,3: step; rewrite ret_eq; eexists _, _, _; split; [reflexivity|];
       split; [split; simpl; done|by left].
  destruct fl as [|[] [|[] fl]].
  all: first [ erewrite try_Ret by (repeat step; apply ret_eq)
             | erewrite try_Exc by (repeat step; step_exc; reflexivity); step; rewrite ret_eq ].
  all: eexists _, _, _; split; [reflexivity|].
  all: split; [split; simpl; rewrite <- ?app_assoc; simpl; done|simpl; by right].
Qed.

End Monitor.

Lemma lower_char_not_S c : PyStr.lower_char c <> "S"%char.
Proof. destruct c as [[] [] [] [] [] [] [] []]; vm_compute; discriminate. Qed.

Lemma prefix_cons a s1 b s2 :
  String.prefix (String a s1) (String b s2) =
  if ascii_dec a b then String.prefix s1 s2 else false.
Proof. reflexivity. Qed.

Lemma append_cons a s t : String a s +:+ t = String a (s +:+ t).
Proof. reflexivity. Qed.

(** No capital [S] is left in a text in lower case. *)
Lemma lower_no_S_bounded n : forall s,
  (String.length s <= n)%nat -> occurs "S" (PyStr.lower s) = false.
Proof.
  induction n as [|n IH]; intros s Hn.
  - destruct s; [reflexivity|simpl in Hn; lia].
  - destruct s as [|a r]; [reflexivity|].
    assert (Hr : occurs "S" (PyStr.lower r) = false) by (apply IH; simpl in Hn; lia).
    assert (Ha : occurs "S" (String (PyStr.lower_char a) (PyStr.lower r)) = false).
    { cbn [occurs]. rewrite Hr.
      destruct (ascii_dec _ _) as [E|]; [by destruct (lower_char_not_S a)|done]. }
    destruct r as [|b r']; [exact Ha|].
    cbn [PyStr.lower].
    destruct (PyStr.byte_is a 196 && PyStr.byte_is b 176).
    { cbn [occurs]. rewrite (IH r') by (simpl in Hn; lia). reflexivity. }
    destruct r' as [|c r'']; [exact Ha|].
    destruct (PyStr.byte_is a 226 && PyStr.byte_is b 132 && PyStr.byte_is c 170);
      [|exact Ha].
    cbn [occurs]. rewrite (IH r'') by (simpl in Hn; lia). reflexivity.
Qed.

Lemma lower_no_S s : occurs "S" (PyStr.lower s) = false.
Proof. by apply (lower_no_S_bounded (String.length s)). Qed.

Lemma drop_no_S n : forall s, occurs "S" s = false -> occurs "S" (PyStr.drop n s) = false.
Proof.
  induction n as [|n IH]; intros s Hs; [done|].
  destruct s as [|a r]; [done|]. cbn [PyStr.drop]. apply IH.
  cbn [occurs] in Hs. by apply orb_false_elim in Hs as [_ ?].
Qed.

(** A raw line with no capital [S] starts no line named in capitals with
    an [S]. *)
Lemma raw_line_head u :
  occurs "S" u = false ->
  forall p, String.prefix (String "S" p) (raw_line u) = false.
Proof.
  intros Hs p. unfold raw_line. destruct u as [|a r]; [reflexivity|].
  cbn [occurs] in Hs. apply orb_false_elim in Hs as [Ha _].
  destruct (negb _); rewrite ?append_cons, prefix_cons;
    destruct (ascii_dec "S" a) as [<-|]; try done;
    by destruct (ascii_dec "S" "S").
Qed.

Section Dispatcher.

Context `{PyFloat}.

Lemma raw_line_not_speed n t :
  PyStr.startswith (raw_line (PyStr.drop n (PyStr.lower t))) "SPEED," = false.
Proof. apply raw_line_head, drop_no_S, lower_no_S. Qed.

Lemma send_raw_ok n t w :
  branch_ok (serial_monitor.send_raw (PyStr.drop n (PyStr.lower t))) w.
Proof.
  destruct (send_raw_effect (PyStr.drop n (PyStr.lower t)) w)
    as (ok & w' & evs & Hrun & Ht & Hw).
  exists ok, w', evs. split; [done|]. split; [done|].
  destruct Hw as [->| ->]; repeat constructor.
  intros Hs. by rewrite raw_line_not_speed in Hs.
Qed.

(** A command whose name does not start a SPEED line. *)
Lemma send_command_ok name v u w :
  PyStr.startswith (fstring_cmd (VStr name) v u) "SPEED," = false ->
  branch_ok (serial_monitor.send_command (VStr name) v u) w.
Proof.
  intros Hn.
  destruct (send_command_effect (VStr name) v u w) as (ok & w' & evs & Hrun & Ht & Hw).
  exists ok, w', evs. split; [done|]. split; [done|].
  destruct Hw as [->| ->]; repeat constructor.
  intros Hs. by rewrite Hn in Hs.
Qed.

Lemma send_speed_ok speed w :
  int_le_float 0 speed && float_le_int speed 100 = true ->
  branch_ok (serial_monitor.send_command (VStr "SPEED") (VFloat speed) (VStr "percent")) w.
Proof.
  intros Hrange. apply andb_prop in Hrange as [H0 H100].
  destruct (send_command_effect (VStr "SPEED") (VFloat speed) (VStr "percent") w)
    as (ok & w' & evs & Hrun & Ht & Hw).
  exists ok, w', evs. split; [done|]. split; [done|].
  destruct Hw as [->| ->]; repeat constructor.
  intros _. by exists speed.
Qed.

Lemma print_ok n w : branch_ok (print n) w.
Proof.
  exists (), (logged (EvPrint n) w), [EvPrint n].
  split; [done|]. split; [by split|constructor].
Qed.

Lemma ret_ok {A} (a : A) w : branch_ok (ret a) w.
Proof. exists a, w, []. split; [done|]. split; [apply talks_nil|constructor]. Qed.

(** A branch followed by a [ret]. *)
Lemma then_ret_ok {A B} (m : M A) (b : B) w :
  branch_ok m w -> branch_ok (bind m (fun _ => ret b)) w.
Proof.
  intros (a & w' & evs & Hrun & Ht & Hw).
  exists b, w', evs. by erewrite bind_Ret by exact Hrun.
Qed.

(** A branch inside a [try] whose handler is not reached. *)
Lemma try_ok {A} (m h : M A) w : branch_ok m w -> branch_ok (try_except m h) w.
Proof.
  intros (a & w' & evs & Hrun & Ht & Hw).
  exists a, w', evs. by erewrite try_Ret by exact Hrun.
Qed.

Lemma motion_ok user_input name unit_ verb w :
  (forall x, PyStr.startswith (fstring_cmd (VStr name) (VFloat x) (VStr unit_)) "SPEED,"
             = false) ->
  branch_ok (serial_monitor.motion user_input name unit_ verb) w.
Proof.
  intros Hn. unfold serial_monitor.motion.
  destruct (serial_monitor.float_argument user_input) as [x|]; [|apply print_ok].
  apply try_ok, then_ret_ok, send_command_ok, Hn.
Qed.

Lemma speed_command_ok user_input w :
  branch_ok (serial_monitor.speed_command user_input) w.
Proof.
  unfold serial_monitor.speed_command.
  destruct (serial_monitor.float_argument user_input) as [speed|]; [|apply print_ok].
  apply try_ok.
  destruct (int_le_float 0 speed && float_le_int speed 100) eqn:Hrange.
  - by apply then_ret_ok, send_speed_ok.
  - apply print_ok.
Qed.

(** Every branch of the dispatcher, on an input in lower case. *)
Lemma dispatch_ok t w : branch_ok (serial_monitor.dispatch (PyStr.lower t)) w.
Proof.
  unfold serial_monitor.dispatch.
  repeat match goal with
         | |- branch_ok (if ?c then _ else _) _ => destruct c
         end.
  all: try apply ret_ok.
  all: apply then_ret_ok.
  all: try apply print_ok.
  all: try (apply send_command_ok; reflexivity).
  all: try (apply motion_ok; reflexivity).
  - apply speed_command_ok.
  - cbv zeta. apply send_raw_ok.
Qed.

End Dispatcher.

Lemma startswith_speed u :
  PyStr.startswith u "speed " = true -> exists r, u = "speed " +:+ r.
Proof.
  unfold PyStr.startswith. intros Hp.
  do 6 (destruct u as [|? u]; [discriminate|];
        rewrite prefix_cons in Hp; destruct (ascii_dec _ _) as [<-|]; [|discriminate]).
  by exists u.
Qed.

Section Operator.

Context `{PyFloat}.

Lemma dispatch_speed r w :
  serial_monitor.dispatch ("speed " +:+ r) w =
  bind (serial_monitor.speed_command ("speed " +:+ r)) (fun _ => ret Continue) w.
Proof.
  unfold serial_monitor.dispatch.
  replace (PyStr.startswith ("speed " +:+ r) "speed ") with true
    by (by destruct r).
  reflexivity.
Qed.

(** C8.  An interactive [speed] command whose argument fails the test
    [0 <= speed <= 100] is rejected: the range error is shown to the
    operator, and that is the only effect; no call is made on the serial
    link. *)
Theorem speed_out_of_range_rejected (text : string) (w : world) (speed : float) :
  PyStr.startswith (PyStr.lower (PyStr.strip text)) "speed " = true ->
  serial_monitor.float_argument (PyStr.lower (PyStr.strip text)) = Some speed ->
  int_le_float 0 speed && float_le_int speed 100 = false ->
  exists w',
    serial_monitor.handle_input text w = Ret Continue w' /\
    trace w' = trace w ++ [EvPrint SpeedRange] /\
    faults w' = faults w /\
    ser w' = ser w.
Proof.
  intros Hs Harg Hrange. unfold serial_monitor.handle_input.
  destruct (startswith_speed _ Hs) as [r Hr]. rewrite Hr in *.
  rewrite dispatch_speed. unfold serial_monitor.speed_command.
  rewrite Harg, Hrange.
  erewrite bind_Ret by (apply try_Ret, print_eq).
  by exists (logged (EvPrint SpeedRange) w).
Qed.

(** C7, as the code has it.  Whatever the operator types, the dispatcher
    returns, and a line it writes that starts as a SPEED command carries a
    value that passed the test [0 <= speed <= 100].  On the voice path there
    is no test: a SPEED command is written with whatever value it carries. *)
Theorem speed_checked_by_dispatcher_only (text : string) (w : world) :
  (exists f w' evs,
     serial_monitor.handle_input text w = Ret f w' /\
     trace w' = trace w ++ evs /\
     Forall speed_within (writes evs)) /\
  (forall (value : pyval) (fuel : nat),
     is_open w = true -> calm 2 (faults w) -> (enough_fuel w <= fuel)%nat ->
     exists w' evs,
       main_raspy.send_to_robot fuel (JObject (command_json "SPEED" value "percent")) w
         = Ret true w' /\
       trace w' = trace w ++ before_write ++
         [EvIO (Write ("SPEED," +:+ py_str value +:+ ",percent" +:+ PyStr.LF)) true;
          EvIO Flush true;
          EvPrint (Sent (PyStr.strip ("SPEED," +:+ py_str value +:+ ",percent" +:+ PyStr.LF)));
          EvSleep 300] ++ evs).
Proof.
  split.
  - destruct (dispatch_ok (PyStr.strip text) w) as (f & w' & evs & Hrun & Ht & Hw).
    exists f, w', evs. split; [exact Hrun|]. split; [apply Ht|exact Hw].
  - intros value fuel Ho Hc Hf.
    rewrite send_to_robot_object by done.
    destruct (transmit_calm w (command_json "SPEED" value "percent") fuel Ho Hc Hf)
      as (w' & evs & Hrun & Ht & _).
    erewrite try_Ret by exact Hrun.
    exists w', evs. split; [reflexivity|]. exact Ht.
Qed.

Lemma send_raw_calm raw_data w :
  is_open w = true ->
  calm 2 (faults w) ->
  exists w',
    serial_monitor.send_raw raw_data w = Ret true w' /\
    talks w w' [EvIO (Write (raw_line raw_data)) true; EvIO Flush true;
                EvPrint (RawSent (PyStr.strip (raw_line raw_data)))].
Proof.
  intros Ho Hc. unfold serial_monitor.send_raw. rewrite Ho. cbv zeta.
  fold (raw_line raw_data). simpl negb. cbv iota.
  destruct w as [clk tr [[]|] p rn fl rx0 ports en ex cfg]; try discriminate.
  simpl in Hc. calm_cases Hc.
  all: erewrite try_Ret by (repeat step; apply ret_eq).
  all: eexists; split; [reflexivity|].
  all: split; simpl; rewrite <- ?app_assoc; done.
Qed.

(** C4, on the operator path.  [float("5")] is the float [5.0], which
    [str] shows as ["5.0"]: the line written for the input ["forward 5"] is
    ["FORWARD,5.0,meter\n"].  On the voice path the integer 5 of the JSON
    command gives ["FORWARD,5,meter\n"]. *)
Theorem forward_5_wire_text (w : world) (x : float) :
  float_of_str "5" = Some x ->
  float_repr x = "5.0" ->
  is_open w = true ->
  calm 2 (faults w) ->
  (exists w',
     serial_monitor.handle_input "forward 5" w = Ret Continue w' /\
     trace w' = trace w ++
       [EvIO (Write ("FORWARD,5.0,meter" +:+ PyStr.LF)) true; EvIO Flush true;
        EvPrint (Sent "FORWARD,5.0,meter")]) /\
  serial_cmd_of (command_json "FORWARD" (VInt 5) "meter") = "FORWARD,5,meter" +:+ PyStr.LF.
Proof.
  intros Hx Hr Ho Hc. split; [|by vm_compute].
  change (serial_monitor.handle_input "forward 5" w)
    with (bind (serial_monitor.motion "forward 5" "FORWARD" "meter" "forward")
               (fun _ => ret Continue) w).
  unfold serial_monitor.motion.
  change (serial_monitor.float_argument "forward 5") with (float_of_str "5").
  rewrite Hx.
  destruct (send_command_calm (VStr "FORWARD") (VFloat x) (VStr "meter") w Ho Hc)
    as (w' & Hrun & Ht).
  erewrite bind_Ret
    by (apply try_Ret; erewrite bind_Ret by exact Hrun; apply ret_eq).
  exists w'. split; [reflexivity|].
  destruct Ht as [Ht _ _ _]. rewrite Ht.
  unfold fstring_cmd. simpl py_str. by rewrite Hr.
Qed.

(** C5.  The whole input is put in lower case before the payload is cut
    out of it: the line written for ["raw STATUS,0,none"] is
    ["status,0,none\n"]. *)
Theorem raw_payload_lowercased (w : world) :
  is_open w = true ->
  calm 2 (faults w) ->
  exists w',
    serial_monitor.handle_input "raw STATUS,0,none" w = Ret Continue w' /\
    trace w' = trace w ++
      [EvIO (Write ("status,0,none" +:+ PyStr.LF)) true; EvIO Flush true;
       EvPrint (RawSent "status,0,none")].
Proof.
  intros Ho Hc.
  change (serial_monitor.handle_input "raw STATUS,0,none" w)
    with (bind (serial_monitor.send_raw "status,0,none") (fun _ => ret Continue) w).
  destruct (send_raw_calm "status,0,none" w Ho Hc) as (w' & Hrun & Ht).
  erewrite bind_Ret by exact Hrun.
  exists w'. split; [reflexivity|]. by destruct Ht as [-> _ _ _].
Qed.

End Operator.

Section Shutdown.

Context `{PyFloat}.

Lemma dict_get_default (d : gmap string pyval) key dflt :
  dict_get d key dflt = default dflt (d !! key).
Proof. unfold dict_get. by destruct (d !! key). Qed.

(** The loop of the monitor returns for every keyboard; it leaves the
    connection as it was. *)
Lemma input_loop_talks keys : forall w,
  exists w' evs, serial_monitor.input_loop keys w = Ret () w' /\ talks w w' evs.
Proof.
  induction keys as [|key keys IH]; intros w.
  - exists w, []. split; [simpl; by destruct (running w)|apply talks_nil].
  - cbn [serial_monitor.input_loop].
    destruct (running w); [|exists w, []; split; [done|apply talks_nil]].
    destruct key as [text| |]; try (exists w, []; split; [done|apply talks_nil]).
    destruct (dispatch_ok (PyStr.strip text) w) as (f & w1 & evs1 & Hrun & Ht & _).
    fold (serial_monitor.handle_input text) in Hrun.
    erewrite bind_Ret by exact Hrun.
    destruct f.
    + destruct (IH w1) as (w' & evs & Hloop & Ht').
      exists w', (evs1 ++ evs). split; [exact Hloop|by eapply talks_trans].
    + exists w1, evs1. by split.
Qed.

(** The [finally] block of the voice controller on an open connection
    whose write and flush do not raise: the STOP command is written, and
    the connection is closed 500 ms after the replies were read. *)
Lemma main_finally_stop (w : world) (fuel : nat) :
  is_open w = true ->
  calm 2 (faults w) ->
  (enough_fuel w <= fuel)%nat ->
  exists w' evs,
    main_raspy.main_finally fuel w = Ret () w' /\
    trace w' = trace w ++ [EvLed false false] ++ before_write ++
      [EvIO (Write ("STOP,0,none" +:+ PyStr.LF)) true; EvIO Flush true;
       EvPrint (Sent "STOP,0,none"); EvSleep 300] ++ evs ++ [EvSleep 500; EvClose] /\
    Forall reading evs /\
    is_open w' = false.
Proof.
  intros Ho Hc Hf. unfold main_raspy.main_finally.
  erewrite bind_Ret by apply set_status_led_eq.
  change (is_open (logged (EvLed false false) w)) with (is_open w). rewrite Ho.
  destruct (transmit_calm (logged (EvLed false false) w)
              (command_json "STOP" (VInt 0) "none") fuel)
    as (w1 & evs & Hrun & Ht & Hr & Ho1 & _); [done|done|done|].
  erewrite try_Ret.
  2:{ erewrite bind_Ret.
      2:{ unfold main_raspy.STOP_json. rewrite send_to_robot_object by done.
          apply try_Ret. exact Hrun. }
      erewrite bind_Ret by apply sleep_eq.
      apply ser_close_eq. exact Ho1. }
  eexists _, evs. split; [reflexivity|]. simpl in *.
  rewrite Ht, <- !app_assoc. simpl. done.
Qed.

End Shutdown.

(** ** The lines of a session of the monitor *)

Section Session.

Context `{PyFloat}.

(** [send_command] on an open connection attempts the write of its line,
    whatever raises. *)
Lemma send_command_attempt c v u w :
  is_open w = true ->
  exists ok w' evs,
    serial_monitor.send_command c v u w = Ret ok w' /\
    talks w w' evs /\
    writes evs = [fstring_cmd c v u].
Proof.
  intros Ho.
  unfold serial_monitor.send_command. cbv zeta.
  destruct w as [clk tr [[]|] p rn fl rx0 ports en ex cfg]; try discriminate.
  cbn [is_open ser negb].
  destruct fl as [|[] [|[] fl]].
  all: first [ erewrite try_Ret by (repeat step; apply ret_eq)
             | erewrite try_Exc by (repeat step; step_exc; reflexivity); step; rewrite ret_eq ].
  all: eexists _, _, _; split; [reflexivity|].
  all: split; [split; simpl; rewrite <- ?app_assoc; simpl; done|simpl; done].
Qed.

Lemma send_raw_attempt raw_data w :
  is_open w = true ->
  exists ok w' evs,
    serial_monitor.send_raw raw_data w = Ret ok w' /\
    talks w w' evs /\
    writes evs = [raw_line raw_data].
Proof.
  intros Ho.
  unfold serial_monitor.send_raw. cbv zeta. fold (raw_line raw_data).
  destruct w as [clk tr [[]|] p rn fl rx0 ports en ex cfg]; try discriminate.
  cbn [is_open ser negb].
  destruct fl as [|[] [|[] fl]].
  all: first [ erewrite try_Ret by (repeat step; apply ret_eq)
             | erewrite try_Exc by (repeat step; step_exc; reflexivity); step; rewrite ret_eq ].
  all: eexists _, _, _; split; [reflexivity|].
  all: split; [split; simpl; rewrite <- ?app_assoc; simpl; done|simpl; done].
Qed.

Lemma print_writes n w : branch_writes (print n) w () [].
Proof.
  exists (logged (EvPrint n) w), [EvPrint n].
  split; [done|]. split; [by split|done].
Qed.

Lemma ret_writes {A} (a : A) w : branch_writes (ret a) w a [].
Proof. exists w, []. split; [done|]. split; [apply talks_nil|done]. Qed.

Lemma then_ret_writes {A B} (m : M A) (a : A) (b : B) w l :
  branch_writes m w a l -> branch_writes (bind m (fun _ => ret b)) w b l.
Proof.
  intros (w' & evs & Hrun & Ht & Hw).
  exists w', evs. by erewrite bind_Ret by exact Hrun.
Qed.

Lemma try_writes {A} (m h : M A) (a : A) w l :
  branch_writes m w a l -> branch_writes (try_except m h) w a l.
Proof.
  intros (w' & evs & Hrun & Ht & Hw).
  exists w', evs. by erewrite try_Ret by exact Hrun.
Qed.

Lemma send_command_writes {B} c v u (b : B) w :
  is_open w = true ->
  branch_writes (bind (serial_monitor.send_command c v u) (fun _ => ret b)) w b
    [fstring_cmd c v u].
Proof.
  intros Ho. destruct (send_command_attempt c v u w Ho) as (ok & w' & evs & Hrun & Ht & Hw).
  exists w', evs. by erewrite bind_Ret by exact Hrun.
Qed.

Lemma motion_writes user_input name unit_ verb w :
  is_open w = true ->
  branch_writes (serial_monitor.motion user_input name unit_ verb) w ()
    (option_list (motion_line user_input name unit_)).
Proof.
  intros Ho. unfold serial_monitor.motion, motion_line.
  destruct (serial_monitor.float_argument user_input) as [x|]; [|apply print_writes].
  apply try_writes. by apply send_command_writes.
Qed.

Lemma dispatch_writes user_input w :
  is_open w = true ->
  branch_writes (serial_monitor.dispatch user_input) w
    (if nonempty user_input && leaves user_input then Break else Continue)
    (option_list (command_line user_input)).
Proof.
  intros Ho. unfold serial_monitor.dispatch, command_line.
  fold (leaves user_input).
  destruct (nonempty user_input); cbn [negb andb]; [|apply ret_writes].
  destruct (leaves user_input); [apply ret_writes|].
  repeat match goal with
         | |- branch_writes (if ?c then _ else _) _ _ _ => destruct c
         end.
  all: try (apply then_ret_writes with (a := ()); apply print_writes).
  - by apply send_command_writes.
  - by apply send_command_writes.
  - apply then_ret_writes with (a := ()). by apply motion_writes.
  - apply then_ret_writes with (a := ()). by apply motion_writes.
  - apply then_ret_writes with (a := ()). by apply motion_writes.
  - apply then_ret_writes with (a := ()). by apply motion_writes.
  - apply then_ret_writes with (a := ()).
    unfold serial_monitor.speed_command.
    destruct (serial_monitor.float_argument user_input) as [speed|]; [|apply print_writes].
    apply try_writes.
    destruct (int_le_float 0 speed && float_le_int speed 100); [|apply print_writes].
    by apply send_command_writes.
  - cbv zeta.
    destruct (send_raw_attempt (PyStr.drop 4 user_input) w Ho)
      as (ok & w' & evs & Hrun & Ht & Hw).
    exists w', evs. by erewrite bind_Ret by exact Hrun.
Qed.

Lemma leaves_nonempty u : leaves u = true -> nonempty u = true.
Proof. by destruct u. Qed.

Lemma command_line_leaves u : leaves u = true -> command_line u = None.
Proof.
  intros Hl. unfold command_line. rewrite Hl. by destruct (negb _).
Qed.

(** The loop of the monitor on an open connection: the lines it writes are
    those of the inputs before the exit, in order. *)
Lemma input_loop_lines keys : forall w,
  running w = true ->
  is_open w = true ->
  exists w' evs,
    serial_monitor.input_loop keys w = Ret () w' /\
    talks w w' evs /\
    writes evs = omap command_line (before_exit keys).
Proof.
  induction keys as [|key keys IH]; intros w Hr Ho.
  - exists w, []. split; [simpl; by rewrite Hr|]. split; [apply talks_nil|done].
  - cbn [serial_monitor.input_loop]. rewrite Hr.
    destruct key as [text| |];
      try (exists w, []; split; [done|]; split; [apply talks_nil|done]).
    unfold serial_monitor.handle_input. cbn [before_exit]. cbv zeta.
    set (u := PyStr.lower (PyStr.strip text)).
    destruct (dispatch_writes u w Ho) as (w1 & evs1 & Hrun & Ht & Hw).
    erewrite bind_Ret by exact Hrun.
    destruct (leaves u) eqn:Hl.
    + rewrite (leaves_nonempty u Hl). cbn [andb].
      exists w1, evs1. split; [done|]. split; [done|].
      by rewrite Hw, (command_line_leaves u Hl).
    + rewrite andb_false_r.
      destruct Ht as [Ht1 Hs1 Hr1 Hc1].
      destruct (IH w1) as (w' & evs & Hloop & Ht' & Hw');
        [congruence|unfold is_open in *; by rewrite Hs1|].
      exists w', (evs1 ++ evs). split; [exact Hloop|].
      split; [eapply talks_trans; [by split|done]|].
      rewrite writes_app, Hw, Hw'. cbn [omap list_omap].
      by destruct (command_line u).
Qed.

Lemma raw_line_not_stop n t :
  PyStr.startswith (raw_line (PyStr.drop n (PyStr.lower t))) "STOP," = false.
Proof. apply raw_line_head, drop_no_S, lower_no_S. Qed.

(** Only the input [stop] gives the STOP line. *)
Lemma command_line_stop t :
  command_line (PyStr.lower t) = Some STOP_line -> PyStr.lower t = "stop".
Proof.
  unfold command_line, motion_line.
  destruct (negb _); [done|].
  destruct (leaves _); [done|].
  destruct (String.eqb _ "help"); [done|].
  destruct (String.eqb _ "clear"); [done|].
  destruct (String.eqb _ "status"); [done|].
  destruct (String.eqb_spec (PyStr.lower t) "stop") as [E|_]; [done|].
  repeat match goal with
         | |- (if ?c then _ else _) = _ -> _ => destruct c
         end.
  all: try destruct (serial_monitor.float_argument _) as [x|]; try done.
  all: try destruct (int_le_float 0 x && float_le_int x 100); try done.
  intros E.
  assert (E' : raw_line (PyStr.drop 4 (PyStr.lower t)) = STOP_line) by congruence.
  pose proof (raw_line_not_stop 4 t) as Hn. by rewrite E' in Hn.
Qed.

Lemma stop_only_when_typed keys :
  In STOP_line (omap command_line (before_exit keys)) <-> In "stop" (before_exit keys).
Proof.
  induction keys as [|key keys IH]; [done|].
  destruct key as [text| |]; [|done|done].
  cbn [before_exit]. cbv zeta.
  destruct (leaves _) eqn:Hl; [done|].
  cbn [omap list_omap].
  destruct (command_line (PyStr.lower (PyStr.strip text))) as [data|] eqn:Hc.
  - split.
    + intros [E|Hin]; [left; apply command_line_stop; by rewrite Hc, E|right; by apply IH].
    + intros [E|Hin]; [left|right; by apply IH].
      rewrite E in Hc. by injection Hc as <-.
  - split.
    + intros Hin. right. by apply IH.
    + intros [E|Hin]; [|by apply IH]. by rewrite E in Hc.
Qed.

End Session.

Section Exit.

Context `{PyFloat}.

Lemma quit_breaks w : serial_monitor.handle_input "quit" w = Ret Break w.
Proof. reflexivity. Qed.

(** C6, as the code has it.  A session of the monitor on an open
    connection ends, for every keyboard, with the close of the connection
    and the notice of it, and nothing else: what comes before are the
    events of the input loop, none at all when the session is left at
    once by [quit], an interrupt or the end of the input.  The input loop
    closes nothing, and the STOP line is among its writes exactly when the
    operator typed [stop] before leaving; for lines of the ASCII range its
    writes are, in order, the lines of the commands typed before leaving,
    one for [status], [stop], a motion or a speed whose argument is accepted
    and [raw], none for another input.  The STOP command before the close is
    what the [finally] block of the voice controller does. *)
Theorem monitor_exit_closes_only (keys : list keyboard) (w : world) :
  is_open w = true ->
  (exists w1 w' evs,
     serial_monitor.input_loop keys (logged (EvPrint Help) (with_running true w))
       = Ret () w1 /\
     trace w1 = trace w ++ EvPrint Help :: evs /\
     serial_monitor.interactive_mode keys w = Ret () w' /\
     trace w' = trace w1 ++ [EvClose; EvPrint Disconnected] /\
     is_open w' = false /\
     (forall rest, keys = Line "quit" :: rest \/ keys = KeyboardInterrupt :: rest \/
                   keys = EOFError :: rest -> evs = []) /\
     closes evs = O /\
     (In ("STOP,0,none" +:+ PyStr.LF) (writes evs) <-> In "stop" (before_exit keys)) /\
     (typed_ascii keys -> writes evs = omap command_line (before_exit keys))) /\
  (forall fuel, calm 2 (faults w) -> (enough_fuel w <= fuel)%nat ->
     exists w' evs,
       main_raspy.main_finally fuel w = Ret () w' /\
       trace w' = trace w ++ [EvLed false false] ++ before_write ++
         [EvIO (Write ("STOP,0,none" +:+ PyStr.LF)) true; EvIO Flush true;
          EvPrint (Sent "STOP,0,none"); EvSleep 300] ++ evs ++ [EvSleep 500; EvClose] /\
       Forall reading evs /\
       is_open w' = false).
Proof.
  intros Ho. split; [|intros fuel Hc Hf; by apply main_finally_stop].
  set (W := logged (EvPrint Help) (with_running true w)).
  destruct (input_loop_lines keys W) as (w1 & evs & Hloop & [Ht Hs Hr Hc] & Hw);
    [done|done|].
  assert (Ho1 : is_open w1 = true) by (unfold is_open in *; by rewrite Hs).
  exists w1, (logged (EvPrint Disconnected)
                (with_ser (Some false) (logged EvClose (with_running false w1)))), evs.
  split; [exact Hloop|]. split; [by rewrite Ht; simpl; rewrite <- app_assoc|].
  split; [|split; [simpl; by rewrite <- app_assoc|split; [reflexivity|]]].
  - unfold serial_monitor.interactive_mode, serial_monitor.start_monitoring.
    unfold bind at 1. rewrite Ho. cbn [negb].
    erewrite bind_Ret by apply print_eq.
    erewrite bind_Ret by (apply try_Ret; exact Hloop).
    unfold serial_monitor.disconnect, bind.
    change (is_open (with_running false w1)) with (is_open w1). rewrite Ho1.
    by rewrite ser_close_eq, print_eq.
  - split; [|split; [exact Hc|split; [|intros _; exact Hw]]].
    + intros rest Hk.
      assert (Hw1 : w1 = W).
      { destruct Hk as [->|[->| ->]]; cbn [serial_monitor.input_loop] in Hloop;
          change (running W) with true in Hloop; cbv iota in Hloop;
          rewrite ?quit_breaks in Hloop; unfold bind in Hloop;
          rewrite ?quit_breaks in Hloop; by inversion Hloop. }
      rewrite Hw1 in Ht. apply (f_equal (drop (length (trace W)))) in Ht.
      rewrite drop_all, drop_app_length in Ht. done.
    + rewrite Hw. apply stop_only_when_typed.
Qed.

End Exit.

(** ** Discovery *)

Lemma first_named_In name ports :
  In name (devices ports) -> first_named name ports = Some name.
Proof.
  induction ports as [|port r IH]; simpl; [done|].
  intros [E|Hin].
  - by rewrite E, String.eqb_refl.
  - destruct (String.eqb_spec (device port) name) as [->|]; [done|by apply IH].
Qed.

Lemma first_named_not_In name ports :
  ~ In name (devices ports) -> first_named name ports = None.
Proof.
  induction ports as [|port r IH]; simpl; [done|].
  intros Hn. destruct (String.eqb_spec (device port) name) as [E|]; [tauto|].
  apply IH. tauto.
Qed.

Lemma In_devices_dec name ports : {In name (devices ports)} + {~ In name (devices ports)}.
Proof. apply in_dec, string_dec. Qed.

(** The scan returns the first name that is enumerated, when there is one. *)
Lemma priority_scan_highest names ports p :
  In p names -> In p (devices ports) ->
  exists d, priority_scan names ports = Some d /\ highest_priority names ports d.
Proof.
  induction names as [|n r IH]; simpl; [done|].
  intros Hp Hd.
  destruct (In_devices_dec n ports) as [Hn|Hn].
  - rewrite (first_named_In _ _ Hn). exists n. split; [done|].
    exists [], r. by repeat split.
  - rewrite (first_named_not_In _ _ Hn).
    destruct Hp as [->|Hp]; [done|].
    destruct (IH Hp Hd) as (d & Hs & before & after & Hnames & Hin & Hbefore).
    exists d. split; [done|].
    exists (n :: before), after. rewrite Hnames. repeat split; [done|].
    intros q [<-|Hq]; [done|by apply Hbefore].
Qed.

(** The scan depends on the set of the enumerated paths only. *)
Lemma priority_scan_same_devices names ports ports' :
  (forall q, In q (devices ports) <-> In q (devices ports')) ->
  priority_scan names ports = priority_scan names ports'.
Proof.
  intros Hsame. induction names as [|n r IH]; simpl; [done|].
  destruct (In_devices_dec n ports) as [Hn|Hn].
  - by rewrite (first_named_In _ _ Hn), (first_named_In n ports') by by apply Hsame.
  - rewrite (first_named_not_In _ _ Hn), (first_named_not_In n ports'); [done|].
    by rewrite <- Hsame.
Qed.

Lemma Permutation_devices ports ports' :
  Permutation ports ports' -> forall q, In q (devices ports) <-> In q (devices ports').
Proof.
  intros Hp q. unfold devices.
  split; apply Permutation_in; [|symmetry]; by apply Permutation_map.
Qed.

(** C9, as the code has it.  When the GPIO rule does not apply and a path of
    the priority list is enumerated, both discoveries return the first path
    of the priority list that is enumerated, whatever the order of the
    enumeration; with nothing enumerated they return [None].  When the GPIO
    rule applies they return /dev/ttyS0 without looking at the enumeration. *)
Theorem discovery_priority (w : world) :
  (no_gpio_rule_rpi w ->
     (forall p, In p main_raspy.priority_ports -> In p (devices (comports w)) ->
        exists d, main_raspy.find_esp32_port_rpi w = Some d /\
                  highest_priority main_raspy.priority_ports (comports w) d /\
                  forall ports', Permutation (comports w) ports' ->
                    main_raspy.find_esp32_port_rpi (with_comports ports' w) = Some d) /\
     (comports w = [] -> main_raspy.find_esp32_port_rpi w = None)) /\
  (no_gpio_rule_monitor w ->
     (forall p, In p serial_monitor.priority_ports -> In p (devices (comports w)) ->
        exists d, serial_monitor.find_esp32_port w = Some d /\
                  highest_priority serial_monitor.priority_ports (comports w) d /\
                  forall ports', Permutation (comports w) ports' ->
                    serial_monitor.find_esp32_port (with_comports ports' w) = Some d) /\
     (comports w = [] -> serial_monitor.find_esp32_port w = None)) /\
  (GPIO_UART_ENABLE w && main_raspy.check_gpio_uart_available w = true ->
     main_raspy.find_esp32_port_rpi w = Some "/dev/ttyS0") /\
  (ttyS0_exists w = true -> serial_monitor.find_esp32_port w = Some "/dev/ttyS0").
Proof.
  split; [|split; [|split]].
  - intros Hg. unfold no_gpio_rule_rpi in Hg. split.
    + intros p Hp Hd.
      destruct (priority_scan_highest _ _ p Hp Hd) as (d & Hs & Hh).
      exists d. unfold main_raspy.find_esp32_port_rpi. rewrite Hg, Hs.
      split; [done|]. split; [done|].
      intros ports' Hperm.
      change (GPIO_UART_ENABLE (with_comports ports' w)
              && main_raspy.check_gpio_uart_available (with_comports ports' w))
        with (GPIO_UART_ENABLE w && main_raspy.check_gpio_uart_available w).
      change (comports (with_comports ports' w)) with ports'.
      by rewrite Hg, <- (priority_scan_same_devices _ _ _ (Permutation_devices _ _ Hperm)), Hs.
    + intros He. unfold main_raspy.find_esp32_port_rpi. rewrite Hg, He. reflexivity.
  - intros [Hex Hno]. split.
    + intros p Hp Hd.
      assert (Hp' : In p (tail serial_monitor.priority_ports)).
      { destruct Hp as [<-|Hp]; [done|exact Hp]. }
      destruct (priority_scan_highest _ _ p Hp' Hd) as (d & Hs & before & after & Hn & Hin & Hb).
      exists d. unfold serial_monitor.find_esp32_port. rewrite Hex, Hs.
      split; [done|]. split.
      * exists ("/dev/ttyS0" :: before), after.
        split; [change serial_monitor.priority_ports
                  with ("/dev/ttyS0" :: tail serial_monitor.priority_ports); by rewrite Hn|].
        split; [done|]. intros q [<-|Hq]; [done|by apply Hb].
      * intros ports' Hperm.
        change (ttyS0_exists (with_comports ports' w)) with (ttyS0_exists w).
        change (comports (with_comports ports' w)) with ports'.
        by rewrite Hex, <- (priority_scan_same_devices _ _ _ (Permutation_devices _ _ Hperm)), Hs.
    + intros He. unfold serial_monitor.find_esp32_port. rewrite Hex, He. reflexivity.
  - intros Hg. unfold main_raspy.find_esp32_port_rpi. by rewrite Hg.
  - intros Hex. unfold serial_monitor.find_esp32_port. by rewrite Hex.
Qed.

(** ** The channel on concrete inputs *)

(** C9, as stated, fails for the monitor: with the node /dev/ttyS0 present
    and only /dev/ttyUSB0 enumerated, the discovery returns /dev/ttyS0, which
    is not an enumerated path. *)
Lemma gpio_node_preempts_enumeration :
  ~ (forall (w : world) (p : string),
       In p serial_monitor.priority_ports -> In p (devices (comports w)) ->
       exists d, serial_monitor.find_esp32_port w = Some d /\
                 highest_priority serial_monitor.priority_ports (comports w) d).
Proof.
  intros Hc.
  destruct (Hc pi_with_usb "/dev/ttyUSB0") as (d & Hd & _ & _ & _ & Hin & _);
    [simpl; tauto|simpl; tauto|].
  vm_compute in Hd. inversion Hd; subst d.
  simpl in Hin. destruct Hin as [E|[]]. discriminate.
Qed.

Lemma discovery_priority_witness :
  exists d, serial_monitor.find_esp32_port pc_with_usb = Some d /\
            highest_priority serial_monitor.priority_ports (comports pc_with_usb) d /\
            forall ports', Permutation (comports pc_with_usb) ports' ->
              serial_monitor.find_esp32_port (with_comports ports' pc_with_usb) = Some d.
Proof.
  destruct (discovery_priority pc_with_usb) as (_ & Hm & _).
  destruct Hm as [Hp _].
  - split; [reflexivity|]. simpl. intros [E|[]]. discriminate.
  - apply (Hp "/dev/ttyUSB0"); simpl; tauto.
Defined.

Section Concrete.

#[local] Existing Instance Decimal.decimal_float.

(** C6, as stated, fails: the session left by [quit] writes nothing
    before the close. *)
Lemma quit_sends_no_stop :
  ~ (forall (keys : list keyboard) (w w' : world),
       is_open w = true ->
       serial_monitor.interactive_mode keys w = Ret () w' ->
       exists pre post,
         trace w' = trace w ++ pre ++
                    EvIO (Write ("STOP,0,none" +:+ PyStr.LF)) true :: post /\
         In EvClose post).
Proof.
  intros Hc.
  destruct (serial_monitor.interactive_mode [Line "quit"] (connected "/dev/ttyUSB0"))
    as [[] w'| |] eqn:E; try (vm_compute in E; discriminate).
  destruct (Hc [Line "quit"] (connected "/dev/ttyUSB0") w' eq_refl E)
    as (pre & post & Ht & _).
  vm_compute in E. inversion E; subst w'. simpl in Ht.
  assert (Hin : In (EvIO (Write ("STOP,0,none" +:+ PyStr.LF)) true)
                   [EvPrint Help; EvClose; EvPrint Disconnected]).
  { rewrite Ht. apply in_or_app. right. by left. }
  simpl in Hin. by destruct Hin as [?|[?|[?|[]]]].
Qed.

(** C7, as stated, fails on the voice path: the command
    [{"command": "SPEED", "value": 150, "unit": "percent"}] is written as it
    is. *)
Lemma voice_speed_unchecked :
  ~ (forall (cmd_data : gmap string pyval) (n : Z) (w w' : world) (fuel : nat),
       main_raspy.send_to_robot fuel (JObject cmd_data) w = Ret true w' ->
       In (EvIO (Write (serial_cmd_of cmd_data)) true) (trace w') ->
       dict_get cmd_data "command" (VStr "STOP") = VStr "SPEED" ->
       dict_get cmd_data "value" (VInt 0) = VInt n ->
       0 <= n <= 100).
Proof.
  intros Hc.
  destruct (main_raspy.send_to_robot 100 (JObject (command_json "SPEED" (VInt 150) "percent"))
              (connected "/dev/ttyUSB0")) as [[] w'| |] eqn:E;
    try (vm_compute in E; discriminate).
  specialize (Hc _ 150 _ w' _ E).
  vm_compute in E. inversion E; subst w'.
  assert (150 <= 100) as Habs; [|lia].
  apply Hc; [|reflexivity|reflexivity].
  vm_compute. tauto.
Qed.

End Concrete.

Section Witnesses.

#[local] Existing Instance Decimal.decimal_float.

Lemma calm_nil n : calm n [].
Proof. unfold calm. destruct n; constructor. Qed.

Lemma write_failure_one_recovery_witness :
  exists w' attempt post,
    main_raspy.send_to_robot 200 (JObject (command_json "FORWARD" (VInt 5) "meter"))
      broken_link = Ret false w' /\
    trace w' = trace broken_link ++ before_write ++ attempt ++
               [EvLed false false; EvClose; EvSleep 1000] ++ post /\
    (attempt = [EvIO (Write (serial_cmd_of (command_json "FORWARD" (VInt 5) "meter")))
                  false] \/
     attempt = [EvIO (Write (serial_cmd_of (command_json "FORWARD" (VInt 5) "meter")))
                  true; EvIO Flush false]) /\
    opens post = ["/dev/ttyUSB0"] /\
    closes post = O /\
    (writes post = [] \/ writes post = [main_raspy.STATUS_probe]).
Proof.
  apply (write_failure_one_recovery broken_link _ "/dev/ttyUSB0" 200 []).
  - reflexivity.
  - reflexivity.
  - left. reflexivity.
  - unfold enough_fuel. simpl. lia.
Defined.

Lemma forward_5_wire_text_witness :
  (exists w',
     serial_monitor.handle_input "forward 5" (connected "/dev/ttyUSB0") = Ret Continue w' /\
     trace w' = trace (connected "/dev/ttyUSB0") ++
       [EvIO (Write ("FORWARD,5.0,meter" +:+ PyStr.LF)) true; EvIO Flush true;
        EvPrint (Sent "FORWARD,5.0,meter")]) /\
  serial_cmd_of (command_json "FORWARD" (VInt 5) "meter") = "FORWARD,5,meter" +:+ PyStr.LF.
Proof.
  apply (@forward_5_wire_text Decimal.decimal_float (connected "/dev/ttyUSB0")
           (Decimal.mkdec 5 0)).
  - reflexivity.
  - reflexivity.
  - reflexivity.
  - apply calm_nil.
Defined.

Lemma raw_payload_lowercased_witness :
  exists w',
    serial_monitor.handle_input "raw STATUS,0,none" (connected "/dev/ttyUSB0")
      = Ret Continue w' /\
    trace w' = trace (connected "/dev/ttyUSB0") ++
      [EvIO (Write ("status,0,none" +:+ PyStr.LF)) true; EvIO Flush true;
       EvPrint (RawSent "status,0,none")].
Proof.
  apply (raw_payload_lowercased (connected "/dev/ttyUSB0")).
  - reflexivity.
  - apply calm_nil.
Defined.

Lemma speed_out_of_range_rejected_witness :
  exists w',
    serial_monitor.handle_input "speed 150" (connected "/dev/ttyUSB0") = Ret Continue w' /\
    trace w' = trace (connected "/dev/ttyUSB0") ++ [EvPrint SpeedRange] /\
    faults w' = faults (connected "/dev/ttyUSB0") /\
    ser w' = ser (connected "/dev/ttyUSB0").
Proof.
  apply (@speed_out_of_range_rejected Decimal.decimal_float "speed 150"
           (connected "/dev/ttyUSB0") (Decimal.mkdec 150 0)).
  - reflexivity.
  - reflexivity.
  - reflexivity.
Defined.

Lemma speed_checked_by_dispatcher_only_witness :
  exists w' evs,
    main_raspy.send_to_robot 200 (JObject (command_json "SPEED" (VInt 150) "percent"))
      (connected "/dev/ttyUSB0") = Ret true w' /\
    trace w' = trace (connected "/dev/ttyUSB0") ++ before_write ++
      [EvIO (Write ("SPEED," +:+ py_str (VInt 150) +:+ ",percent" +:+ PyStr.LF)) true;
       EvIO Flush true;
       EvPrint (Sent (PyStr.strip ("SPEED," +:+ py_str (VInt 150) +:+ ",percent"
                                   +:+ PyStr.LF)));
       EvSleep 300] ++ evs.
Proof.
  destruct (speed_checked_by_dispatcher_only "speed 150" (connected "/dev/ttyUSB0"))
    as [_ Hvoice].
  apply (Hvoice (VInt 150) 200%nat).
  - reflexivity.
  - apply calm_nil.
  - unfold enough_fuel. simpl. lia.
Defined.

Lemma monitor_exit_closes_only_witness :
  (exists w',
     serial_monitor.interactive_mode [Line "quit"] (connected "/dev/ttyUSB0") = Ret () w' /\
     trace w' = [EvPrint Help; EvClose; EvPrint Disconnected]) /\
  (exists w',
     serial_monitor.interactive_mode [Line "status"; Line "quit"] (connected "/dev/ttyUSB0")
       = Ret () w' /\
     writes (trace w') = ["STATUS,0,none" +:+ PyStr.LF] /\
     ~ In ("STOP,0,none" +:+ PyStr.LF) (writes (trace w'))).
Proof.
  split.
  - destruct (monitor_exit_closes_only [Line "quit"] (connected "/dev/ttyUSB0") eq_refl)
      as [(w1 & w' & evs & _ & Ht1 & Hrun & Ht & _ & Hq & _) _].
    exists w'. split; [exact Hrun|].
    rewrite Ht, Ht1, (Hq [] (or_introl eq_refl)). reflexivity.
  - destruct (monitor_exit_closes_only [Line "status"; Line "quit"]
                (connected "/dev/ttyUSB0") eq_refl)
      as [(w1 & w' & evs & _ & Ht1 & Hrun & Ht & _ & _ & _ & Hs & Hw) _].
    exists w'. split; [exact Hrun|].
    assert (Hwr : writes (trace w') = writes evs).
    { rewrite Ht, Ht1. simpl. rewrite writes_app. simpl. apply app_nil_r. }
    rewrite Hwr. split.
    + rewrite Hw; [reflexivity|]. by repeat constructor.
    + intros Hin. apply Hs in Hin. simpl in Hin. destruct Hin as [E|[]]. discriminate.
Defined.

End Witnesses.

(** ** The voice channel under every script of faults *)

(** The [try] block of [init_serial] whatever raises: it returns [True]
    exactly when none of its four fallible calls raises. *)

Lemma handshake_total (w : world) (port : string) (fuel : nat) :
  (enough_fuel w <= fuel)%nat ->
  exists w' evs,
    main_raspy.handshake port fuel w =
      (if calmb 4 (faults w) then Ret true w' else Exc w') /\
    trace w' = trace w ++ evs /\
    (length (rx w') <= length (rx w))%nat /\
    opens evs = [port] /\
    closes evs = O /\
    (writes evs = [] \/ writes evs = [main_raspy.STATUS_probe]) /\
    SERIAL_PORT w' = SERIAL_PORT w /\
    ser w' = (if next_fault w then ser w else Some true) /\
    (calmb 4 (faults w) = true ->
       writes evs = [main_raspy.STATUS_probe] /\ faults w' = drop 4 (faults w)).
Proof.
  intros Hf. unfold main_raspy.handshake.
  destruct w as [clk tr s p rn fl rx0 ports en ex cfg]; simpl in *.
  pose proof (drop_arrived_length (clk + 3000) rx0) as Hdrop.
  destruct fl as [|[] [|[] [|[] [|[] fl]]]].
  all: unfold calmb; cbn [take forallb negb andb].
  all: repeat step.
  all: try (step_exc; eexists _, _; split; [reflexivity|]; flat;
            rewrite <- ?app_assoc; simpl; split; [reflexivity|]; simpl;
            by repeat split; try (by left); try (by right); try lia).
  all: match goal with
       | |- context [bind _ _ ?W] =>
           destruct (startup_loop_total W fuel)
             as (msgs & w1 & k & evs & Hloop & Hr & Hm & Hq)
       end;
       [ unfold enough_fuel in *; simpl in *; lia | ].
  all: erewrite bind_Ret; [|exact Hloop].
  all: step.
  all: destruct Hr as [H1 H2 H3 H4 H5 H6 H7 H8]; simpl in *.
  all: destruct (reading_passive evs H5) as (Hw & Ho & Hcl).
  all: eexists _, _; split; [reflexivity|]; simpl.
  all: rewrite H2, <- !app_assoc; simpl; split; [reflexivity|]; simpl.
  all: rewrite opens_app, closes_app, writes_app, Hw, Ho, Hcl, H1, H7, length_drop; simpl.
  all: repeat split; try (by right); try done; try lia.
Qed.

Lemma calmb_next_fault n w : calmb (S n) (faults w) = true -> next_fault w = false.
Proof.
  unfold calmb, next_fault. destruct (faults w) as [|[] l]; simpl; done.
Qed.

(** [init_serial] returns whatever raises. *)
Lemma init_serial_total (w : world) (fuel : nat) :
  (enough_fuel w <= fuel)%nat ->
  exists w' evs,
    main_raspy.init_serial fuel w = Ret (has_endpoint w && calmb 4 (faults w)) w' /\
    trace w' = trace w ++ evs /\
    (length (rx w') <= length (rx w))%nat /\
    opens evs = ports_tried w /\
    closes evs = O /\
    (writes evs = [] \/ writes evs = [main_raspy.STATUS_probe]) /\
    SERIAL_PORT w' = endpoint w /\
    ser w' = (if has_endpoint w && negb (next_fault w) then Some true else ser w) /\
    (endpoint w = None -> evs = [EvLed true false; EvLed false false]) /\
    (has_endpoint w && calmb 4 (faults w) = true ->
       writes evs = [main_raspy.STATUS_probe] /\ faults w' = drop 4 (faults w)).
Proof.
  intros Hf. unfold main_raspy.init_serial, has_endpoint, ports_tried.
  erewrite bind_Ret by apply set_status_led_eq.
  erewrite bind_Ret by apply resolve_port_eq.
  change (endpoint (logged (EvLed true false) w)) with (endpoint w).
  cbn [SERIAL_PORT with_port].
  destruct (endpoint w) as [port|] eqn:He.
  - destruct (handshake_total (with_port (Some port) (logged (EvLed true false) w)) port fuel)
      as (w' & evs & Hrun & Ht & Hrx & Ho & Hc & Hw & Hport & Hser & Hcm); [done|].
    simpl in Ht, Hport, Hrx, Hser, Hrun, Hcm.
    change (next_fault (with_port (Some port) (logged (EvLed true false) w)))
      with (next_fault w) in Hser.
    destruct (calmb 4 (faults w)) eqn:Hcalm.
    + erewrite try_Ret by exact Hrun.
      rewrite (calmb_next_fault _ _ Hcalm) in *.
      exists w', (EvLed true false :: evs).
      rewrite Ht, <- app_assoc. simpl. repeat split; try done.
      all: by apply Hcm.
    + erewrite try_Exc by exact Hrun.
      erewrite bind_Ret by apply set_status_led_eq.
      exists (logged (EvLed false false) w'), (EvLed true false :: evs ++ [EvLed false false]).
      split; [reflexivity|]. simpl.
      rewrite Ht, <- !app_assoc, opens_app, closes_app, writes_app, Ho, Hc. simpl.
      rewrite ?app_nil_r, ?Nat.add_0_r.
      repeat split; try done. by destruct (next_fault w).
  - erewrite bind_Ret by apply set_status_led_eq. rewrite ret_eq.
    eexists _, _. split; [reflexivity|]. simpl. rewrite <- app_assoc. simpl.
    repeat split; try done. by left.
Qed.

Section Transmitting.
Context `{PyFloat}.

(** The [try] block of [send_to_robot] whatever raises. *)
Lemma transmit_total (w : world) (cmd_data : gmap string pyval) (fuel : nat) :
  is_open w = true ->
  (enough_fuel w <= fuel)%nat ->
  exists w' evs,
    main_raspy.transmit fuel cmd_data w =
      (if calmb 2 (faults w) then Ret true w' else Exc w') /\
    trace w' = trace w ++ evs /\
    (length (rx w') <= length (rx w))%nat /\
    opens evs = [] /\
    closes evs = O /\
    writes evs = [serial_cmd_of cmd_data] /\
    SERIAL_PORT w' = SERIAL_PORT w /\
    ser w' = ser w /\
    (calmb 2 (faults w) = true -> faults w' = drop 2 (faults w)).
Proof.
  intros Ho Hf. unfold main_raspy.transmit. cbv zeta.
  fold (serial_cmd_of cmd_data). set (line := serial_cmd_of cmd_data).
  destruct w as [clk tr [[]|] p rn fl rx0 ports en ex cfg]; try discriminate.
  destruct fl as [|[] [|[] fl]].
  all: unfold calmb; cbn [take forallb negb andb faults].
  all: repeat step.
  all: try (step_exc; eexists _, _; split; [reflexivity|]; flat;
            rewrite <- ?app_assoc; simpl; by repeat split).
  all: match goal with
       | |- context [bind _ _ ?W] =>
           destruct (response_loop_total (tick 300 W) fuel)
             as (n & w' & k & evs & Hrun & Hr & _); [done|]
       end.
  all: unfold main_raspy.collect_responses.
  all: erewrite bind_Ret;
       [|erewrite bind_Ret by apply sleep_eq; erewrite bind_Ret by apply time_eq;
         exact Hrun].
  all: rewrite ret_eq.
  all: destruct Hr as [H1 H2 H3 H4 H5 H6 H7 H8]; simpl in *.
  all: destruct (reading_passive evs H5) as (Hw & Hop & Hcl).
  all: eexists _, _; split; [reflexivity|]; simpl.
  all: rewrite H2, <- !app_assoc; simpl; split; [reflexivity|]; simpl.
  all: rewrite ?opens_app, ?closes_app, ?writes_app, ?Hw, ?Hop, ?Hcl, ?H1, ?H7, ?length_drop; simpl.
  all: repeat split; try done; lia.
Qed.

End Transmitting.

(** The handler of [send_to_robot] returns, in every world. *)
Lemma reconnect_total (w : world) (fuel : nat) :
  (enough_fuel w <= fuel)%nat ->
  exists w' evs,
    main_raspy.reconnect fuel w = Ret false w' /\
    trace w' = trace w ++ evs /\
    (length (rx w') <= length (rx w))%nat /\
    opens evs = ports_tried w /\
    closes evs = (if is_open w then 1 else 0)%nat /\
    (writes evs = [] \/ writes evs = [main_raspy.STATUS_probe]) /\
    SERIAL_PORT w' = endpoint w /\
    is_open w' = has_endpoint w && negb (next_fault w).
Proof.
  intros Hf. unfold main_raspy.reconnect.
  erewrite bind_Ret by apply set_status_led_eq.
  set (w0 := logged (EvLed false false) w).
  assert (Hclose : exists w1 evs1,
            (match ser w0 with Some _ => ser_close w0 | None => Ret () w0 end) = Ret () w1 /\
            trace w1 = trace w ++ EvLed false false :: evs1 /\
            closes evs1 = (if is_open w then 1 else 0)%nat /\
            opens evs1 = [] /\ writes evs1 = [] /\
            is_open w1 = false /\
            rx w1 = rx w /\ faults w1 = faults w /\ endpoint w1 = endpoint w).
  { destruct w as [clk tr [[]|] p rn fl rx0 ports en ex cfg]; subst w0; simpl.
    - rewrite ser_close_eq by done. eexists _, [EvClose]. split; [reflexivity|].
      simpl. rewrite <- app_assoc. done.
    - eexists _, []. split; [reflexivity|]. done.
    - eexists _, []. split; [reflexivity|]. done. }
  destruct Hclose as (w1 & evs1 & Hcl & Ht1 & Hc1 & Ho1 & Hw1 & Hopen1 & Hrx1 & Hfl1 & He1).
  destruct (init_serial_total (tick 1000 w1) fuel)
    as (w' & evs & Hrun & Ht & Hrx & Ho & Hc & Hw & Hport & Hser & _).
  { unfold enough_fuel in *. simpl. by rewrite Hrx1. }
  erewrite bind_Ret.
  2:{ apply try_Ret.
      erewrite bind_Ret by exact Hcl.
      erewrite bind_Ret by apply sleep_eq.
      erewrite bind_Ret by exact Hrun.
      apply ret_eq. }
  cbv beta. rewrite ret_eq.
  change (endpoint (tick 1000 w1)) with (endpoint w1) in *.
  change (has_endpoint (tick 1000 w1)) with (has_endpoint w1) in *.
  change (ports_tried (tick 1000 w1)) with (ports_tried w1) in *.
  change (next_fault (tick 1000 w1)) with (next_fault w1) in *.
  assert (Hhe : has_endpoint w1 = has_endpoint w) by (unfold has_endpoint; by rewrite He1).
  assert (Hpt : ports_tried w1 = ports_tried w) by (unfold ports_tried; by rewrite He1).
  assert (Hnf : next_fault w1 = next_fault w) by (unfold next_fault; by rewrite Hfl1).
  rewrite Hhe, Hnf in Hser. rewrite Hpt in Ho. rewrite He1 in Hport.
  exists w', (EvLed false false :: evs1 ++ EvSleep 1000 :: evs).
  split; [reflexivity|].
  simpl in Ht, Hrx. rewrite Ht, Ht1, <- !app_assoc. simpl.
  rewrite opens_app, closes_app, writes_app, Ho1, Hc1, Hw1. simpl.
  rewrite Ho, Hc, Nat.add_0_r.
  split; [done|]. split; [by rewrite <- Hrx1|]. do 4 (split; [done|]).
  unfold is_open at 1. rewrite Hser.
  destruct (has_endpoint w && negb (next_fault w)); [done|].
  simpl. exact Hopen1.
Qed.

Lemma ports_tried_length w : (length (ports_tried w) <= 1)%nat.
Proof. unfold ports_tried. destruct (endpoint w); simpl; lia. Qed.

Section Voice.
Context `{PyFloat}.

(** [send_to_robot] returns, for every command and every world. *)
Lemma send_to_robot_total (w : world) (cmd : decoded) (fuel : nat) :
  (enough_fuel w <= fuel)%nat ->
  exists w' evs,
    main_raspy.send_to_robot fuel cmd w =
      Ret (is_open w && is_object cmd && calmb 2 (faults w)) w' /\
    trace w' = trace w ++ evs /\
    (length (rx w') <= length (rx w))%nat /\
    (length (opens evs) <= 1)%nat /\
    (closes evs <= 1)%nat /\
    (is_open w = false -> evs = [EvLed false false] /\ ser w' = ser w) /\
    (is_open w && is_object cmd && calmb 2 (faults w) = true ->
       opens evs = [] /\ closes evs = O /\ is_open w' = true /\
       faults w' = drop 2 (faults w) /\
       forall d, cmd = JObject d -> writes evs = [serial_cmd_of d]).
Proof.
  intros Hf. unfold main_raspy.send_to_robot.
  destruct (is_open w) eqn:Ho; cbn [andb].
  2:{ erewrite bind_Ret by apply set_status_led_eq. rewrite ret_eq.
      eexists _, _. split; [reflexivity|]. simpl. repeat split; simpl; try done; lia. }
  destruct cmd as [|d| |]; cbn [is_object andb].
  - exists w, []. rewrite app_nil_r. simpl. repeat split; try done; lia.
  - destruct (transmit_total w d fuel Ho Hf)
      as (w1 & evs1 & Hrun & Ht & Hrx & Hop & Hcl & Hw & Hport & Hser & Hfl).
    destruct (calmb 2 (faults w)) eqn:Hcalm.
    + erewrite try_Ret by exact Hrun.
      exists w1, evs1. rewrite Hop, Hcl. simpl.
      repeat split; try done; try lia.
      * unfold is_open in *. by rewrite Hser.
      * by apply Hfl.
      * intros d' E. by inversion E; subst.
    + erewrite try_Exc by exact Hrun.
      destruct (reconnect_total w1 fuel)
        as (w' & evs & Hrec & Ht' & Hrx' & Hop' & Hcl' & _).
      { unfold enough_fuel in *. lia. }
      exists w', (evs1 ++ evs). split; [exact Hrec|].
      rewrite Ht', Ht, <- app_assoc, opens_app, closes_app, Hop, Hcl, Hop', Hcl'. simpl.
      pose proof (ports_tried_length w1).
      repeat split; try done; try lia.
      destruct (is_open w1); lia.
  - unfold try_except, raise.
    destruct (reconnect_total w fuel) as (w' & evs & Hrec & Ht' & Hrx' & Hop' & Hcl' & _);
      [done|].
    exists w', evs. split; [exact Hrec|].
    rewrite Hop', Hcl', Ho. pose proof (ports_tried_length w).
    repeat split; try done; lia.
  - unfold try_except, raise.
    destruct (reconnect_total w fuel) as (w' & evs & Hrec & Ht' & Hrx' & Hop' & Hcl' & _);
      [done|].
    exists w', evs. split; [exact Hrec|].
    rewrite Hop', Hcl', Ho. pose proof (ports_tried_length w).
    repeat split; try done; lia.
Qed.

End Voice.

(** ** The defaults of a command *)

Section Defaults.

Context `{PyFloat}.




End Defaults.

Section DefaultsConcrete.

#[local] Existing Instance Decimal.decimal_float.



End DefaultsConcrete.

(** ** The loop of the voice controller *)

Lemma lit_lit evs1 evs2 w : lit evs2 (lit evs1 w) = lit (evs1 ++ evs2) w.
Proof. unfold lit, with_trace. simpl. by rewrite app_assoc. Qed.

Lemma logged_lit e w : logged e w = lit [e] w.
Proof. reflexivity. Qed.

Lemma runs_lit w evs : leds_only evs -> runs w (lit evs w) evs.
Proof. intros Hl. split; simpl; done. Qed.

Lemma runs_trans w w1 w2 evs1 evs2 :
  runs w w1 evs1 -> runs w1 w2 evs2 -> runs w w2 (evs1 ++ evs2).
Proof.
  intros [H1 H2 H3] [H4 H5 H6]. split.
  - by rewrite H4, H1, app_assoc.
  - lia.
  - intros Hc. destruct (H3 Hc) as [Hl Hc1]. destruct (H6 Hc1) as [Hl2 Hc2].
    split; [by apply Forall_app|done].
Qed.

Lemma listen_eq heard w :
  exists evs,
    controller.listen_and_transcribe_i2s heard w = Ret (heard_text heard) (lit evs w) /\
    leds_only evs.
Proof.
  unfold controller.listen_and_transcribe_i2s.
  destruct heard as [| |joined]; cbn [heard_text].
  - exists [EvLed true false; EvLed false false].
    split; [|by repeat constructor].
    do 2 step. by rewrite ret_eq, !logged_lit, !lit_lit.
  - exists [EvLed true false; EvLed false true; EvLed false false].
    split; [|by repeat constructor].
    do 3 step. by rewrite ret_eq, !logged_lit, !lit_lit.
  - exists [EvLed true false; EvLed false true; EvLed true true].
    split; [|by repeat constructor].
    do 3 step. cbv zeta. rewrite !logged_lit, !lit_lit.
    by destruct (nonempty (PyStr.strip joined)).
Qed.

Lemma chat_eq ai w :
  exists evs,
    controller.chat_with_ai ai w = Ret (reply_of ai) (lit evs w) /\ leds_only evs.
Proof.
  unfold controller.chat_with_ai.
  destruct ai as [content|]; cbn [reply_of default].
  - exists [EvLed true false; EvLed true true].
    split; [|by repeat constructor].
    do 2 step. by rewrite ret_eq, !logged_lit, !lit_lit.
  - exists [EvLed true false; EvLed false false].
    split; [|by repeat constructor].
    do 2 step. by rewrite ret_eq, !logged_lit, !lit_lit.
Qed.

Section Loop.
Context `{PyFloat}.
Variable json_loads : string -> decoded.

Lemma send_to_robot_runs (w : world) (cmd : decoded) (fuel : nat) :
  (enough_fuel w <= fuel)%nat ->
  exists ok w' evs, main_raspy.send_to_robot fuel cmd w = Ret ok w' /\ runs w w' evs.
Proof.
  intros Hf.
  destruct (send_to_robot_total w cmd fuel Hf) as (w' & evs & Hrun & Ht & Hrx & _ & _ & Hc & _).
  eexists _, w', evs. split; [exact Hrun|].
  split; [done|done|].
  intros Ho. destruct (Hc Ho) as [-> Hs].
  split; [by repeat constructor|]. unfold is_open in *. by rewrite Hs.
Qed.

(** A turn of the loop returns; on a closed connection it only changes the
    LEDs. *)
Lemma main_turn_runs (w : world) (t : turn) (fuel : nat) :
  (enough_fuel w <= fuel)%nat ->
  exists f w' evs, controller.main_turn json_loads fuel t w = Ret f w' /\ runs w w' evs.
Proof.
  intros Hf. unfold controller.main_turn.
  destruct t as [heard ai|].
  2:{ do 2 step. rewrite ret_eq, !logged_lit, !lit_lit.
      eexists _, _, _. split; [reflexivity|]. apply runs_lit. by repeat constructor. }
  step. rewrite logged_lit.
  destruct (listen_eq heard (lit [EvLed true true] w)) as (evs1 & Hl & Hleds1).
  erewrite bind_Ret by exact Hl. rewrite lit_lit.
  assert (Hl1 : leds_only ([EvLed true true] ++ evs1)) by (by constructor).
  destruct (heard_text heard) as [user_text|].
  2:{ rewrite ret_eq. eexists _, _, _. split; [reflexivity|]. by apply runs_lit. }
  destruct (any_in controller.shutdown_keywords (PyStr.lower user_text)).
  - destruct (send_to_robot_runs (lit ([EvLed true true] ++ evs1) w) main_raspy.STOP_json fuel)
      as (ok & w' & evs & Hrun & Hr); [done|].
    erewrite bind_Ret by exact Hrun. rewrite ret_eq.
    eexists _, _, _. split; [reflexivity|].
    eapply runs_trans; [by apply runs_lit|exact Hr].
  - destruct (chat_eq ai (lit ([EvLed true true] ++ evs1) w)) as (evs2 & Hc & Hleds2).
    erewrite bind_Ret by exact Hc. rewrite lit_lit.
    assert (Hl2 : leds_only (([EvLed true true] ++ evs1) ++ evs2)) by (by apply Forall_app).
    destruct (controller.extract_robot_command (reply_of ai)) as [robot_cmd|].
    2:{ rewrite ret_eq. eexists _, _, _. split; [reflexivity|]. by apply runs_lit. }
    destruct (send_to_robot_runs (lit (([EvLed true true] ++ evs1) ++ evs2) w)
                (json_loads robot_cmd) fuel)
      as (ok & w' & evs & Hrun & Hr); [done|].
    erewrite bind_Ret by exact Hrun. rewrite ret_eq.
    eexists _, _, _. split; [reflexivity|].
    eapply runs_trans; [by apply runs_lit|exact Hr].
Qed.

(** The loop returns for every sequence of turns. *)
Lemma main_loop_runs (turns : list turn) (fuel : nat) : forall w,
  (enough_fuel w <= fuel)%nat ->
  exists w' evs, controller.main_loop json_loads fuel turns w = Ret () w' /\ runs w w' evs.
Proof.
  induction turns as [|t turns IH]; intros w Hf; cbn [controller.main_loop].
  - destruct (main_turn_runs w Interrupt fuel Hf) as (f & w' & evs & Hrun & Hr).
    erewrite bind_Ret by exact Hrun. rewrite ret_eq. by exists w', evs.
  - destruct (main_turn_runs w t fuel Hf) as (f & w1 & evs1 & Hrun & Hr).
    erewrite bind_Ret by exact Hrun.
    destruct f.
    + destruct (IH w1) as (w' & evs & Hloop & Hr').
      { destruct Hr as [_ Hrx _]. unfold enough_fuel in *. lia. }
      exists w', (evs1 ++ evs). split; [exact Hloop|by eapply runs_trans].
    + rewrite ret_eq. by exists w1, evs1.
Qed.


(** The LED sequence of the start touches nothing else. *)
Lemma startup_eq (gpio_ok : bool) (w : world) :
  exists w' evs,
    (if gpio_ok then controller.startup_leds else ret ()) w = Ret () w' /\
    trace w' = trace w ++ evs /\
    Forall reading evs /\
    rx w' = rx w /\ faults w' = faults w /\ ser w' = ser w /\
    endpoint w' = endpoint w.
Proof.
  destruct gpio_ok.
  - unfold controller.startup_leds. cbv zeta.
    destruct w as [clk tr s p rn fl rx0 ports en ex cfg].
    eexists _, _. split.
    { erewrite bind_Ret by (repeat step; prim; flat; reflexivity).
      erewrite bind_Ret by (repeat step; prim; flat; reflexivity).
      erewrite bind_Ret by (repeat step; prim; flat; reflexivity).
      prim. flat. reflexivity. }
    flat. rewrite <- !app_assoc. simpl. split; [reflexivity|].
    split; [by repeat constructor|]. done.
  - exists w, []. rewrite app_nil_r. by repeat split.
Qed.


End Loop.

Lemma calmb_split n m l : calmb (n + m) l = calmb n l && calmb m (drop n l).
Proof.
  unfold calmb. revert l. induction n as [|n IH]; intros l; [done|].
  destruct l as [|b l]; [by destruct m|].
  simpl. rewrite IH. by destruct b.
Qed.

Lemma calmb_calm n l : calmb n l = true -> calm n l.
Proof.
  unfold calmb, calm. intros Hc. apply Forall_forall. intros b Hb.
  rewrite forallb_forall in Hc. specialize (Hc b).
  destruct b; [|done]. apply list_elem_of_In, Hc in Hb. discriminate.
Qed.

Section VoiceTheorems.
Context `{PyFloat}.
Variable json_loads : string -> decoded.



(** X3.  When the constructor returns and a later call of the handshake
    raises, [init_serial] returns [False] and leaves the port open: nothing
    closes it.  A later [send_to_robot] then does transmit its command on
    the connection that was reported as failed. *)
Theorem failed_handshake_leaves_port_open (w : world) (fuel : nat) :
  has_endpoint w = true ->
  next_fault w = false ->
  calmb 4 (faults w) = false ->
  (enough_fuel w <= fuel)%nat ->
  exists w' evs,
    main_raspy.init_serial fuel w = Ret false w' /\
    trace w' = trace w ++ evs /\
    closes evs = O /\
    is_open w' = true /\
    forall d, exists w'' evs',
      main_raspy.send_to_robot fuel (JObject d) w' = Ret (calmb 2 (faults w')) w'' /\
      trace w'' = trace w' ++ evs' /\
      hd_error (writes evs') = Some (serial_cmd_of d).
Proof.
  intros He Hn Hc Hf.
  destruct (init_serial_total w fuel Hf)
    as (w' & evs & Hrun & Ht & Hrx & _ & Hcl & _ & _ & Hser & _).
  rewrite He, Hn in Hser. rewrite He, Hc in Hrun. simpl in Hser, Hrun.
  assert (Ho : is_open w' = true) by (unfold is_open; by rewrite Hser).
  exists w', evs. do 4 (split; [done|]).
  intros d. rewrite send_to_robot_object by done.
  destruct (transmit_total w' d fuel Ho) as (w1 & evs1 & Htr & Ht1 & Hrx1 & _ & _ & Hw & _).
  { unfold enough_fuel in *. lia. }
  destruct (calmb 2 (faults w')).
  - erewrite try_Ret by exact Htr. exists w1, evs1. by rewrite Hw.
  - erewrite try_Exc by exact Htr.
    destruct (reconnect_total w1 fuel) as (w2 & evs2 & Hrec & Ht2 & _).
    { unfold enough_fuel in *. lia. }
    exists w2, (evs1 ++ evs2). split; [exact Hrec|].
    rewrite Ht2, Ht1, <- app_assoc, writes_app, Hw. done.
Qed.

(** X4.  The two ways a JSON text can be unusable are handled differently.
    A text that does not decode leaves everything as it was, the connection
    included.  A text that decodes to a value that is not an object raises
    in the [try] block and so starts the recovery: the connection is closed
    and [init_serial] tries to open the endpoint again, although nothing
    was wrong with the link. *)
Theorem non_object_recovers (w : world) (fuel : nat) :
  is_open w = true ->
  (enough_fuel w <= fuel)%nat ->
  main_raspy.send_to_robot fuel JSONDecodeError w = Ret false w /\
  exists w' evs,
    main_raspy.send_to_robot fuel JNotObject w = Ret false w' /\
    trace w' = trace w ++ evs /\
    closes evs = 1%nat /\
    opens evs = ports_tried w /\
    (writes evs = [] \/ writes evs = [main_raspy.STATUS_probe]).
Proof.
  intros Ho Hf. unfold main_raspy.send_to_robot. rewrite Ho. split; [done|].
  unfold try_except, raise.
  destruct (reconnect_total w fuel Hf) as (w' & evs & Hrec & Ht & _ & Hop & Hcl & Hw & _).
  exists w', evs. rewrite Ho in Hcl. done.
Qed.

Lemma transmit_write_raises (w : world) (cmd_data : gmap string pyval) (fuel : nat) fs :
  is_open w = true ->
  faults w = true :: fs ->
  exists w1,
    main_raspy.transmit fuel cmd_data w = Exc w1 /\
    trace w1 = trace w ++ before_write ++ [EvIO (Write (serial_cmd_of cmd_data)) false] /\
    is_open w1 = true /\ faults w1 = fs /\ rx w1 = rx w /\ endpoint w1 = endpoint w.
Proof.
  intros Ho Hfl. unfold main_raspy.transmit. cbv zeta.
  fold (serial_cmd_of cmd_data). set (line := serial_cmd_of cmd_data).
  destruct w as [clk tr [[]|] p rn fl rx0 ports en ex cfg]; try discriminate.
  simpl in Hfl. subst fl.
  do 3 step. step_exc.
  eexists. split; [reflexivity|]. simpl. by rewrite <- !app_assoc.
Qed.

(** X5.  A recovery that fails is final.  When the write of a command
    raises and the reopening raises too, [send_to_robot] returns [False]
    with the connection closed, and every later call, whatever the command,
    only turns the LEDs off and returns [False]: nothing reopens the port. *)
Theorem failed_recovery_is_final (w : world) (d : gmap string pyval) (fuel : nat)
    (fs : list bool) :
  is_open w = true ->
  faults w = true :: true :: fs ->
  (enough_fuel w <= fuel)%nat ->
  exists w' evs,
    main_raspy.send_to_robot fuel (JObject d) w = Ret false w' /\
    trace w' = trace w ++ evs /\
    closes evs = 1%nat /\
    is_open w' = false /\
    forall cmd, main_raspy.send_to_robot fuel cmd w' = Ret false (logged (EvLed false false) w').
Proof.
  intros Ho Hfl Hf. rewrite send_to_robot_object by done.
  destruct (transmit_write_raises w d fuel _ Ho Hfl) as (w1 & Hrun & Ht & Ho1 & Hfl1 & Hrx & _).
  erewrite try_Exc by exact Hrun.
  destruct (reconnect_total w1 fuel) as (w' & evs & Hrec & Ht' & _ & _ & Hcl & _ & _ & Hopen).
  { unfold enough_fuel in *. by rewrite Hrx. }
  assert (Hnf : next_fault w1 = true) by (unfold next_fault; by rewrite Hfl1).
  rewrite Hnf, andb_false_r in Hopen. rewrite Ho1 in Hcl.
  eexists w', _. split; [exact Hrec|]. rewrite Ht', Ht, <- !app_assoc.
  split; [reflexivity|]. rewrite !closes_app, Hcl. split; [done|]. split; [done|].
  intros cmd. unfold main_raspy.send_to_robot. by rewrite Hopen.
Qed.


(** X7.  With the connection closed at the start of the loop, as after an
    [init_serial] that failed to open the port, the loop of [main] never
    touches the serial link, whatever is heard and answered: every event of
    it is a change of the LEDs, and the connection is still closed at the
    end. *)
Theorem closed_link_never_reopened (turns : list turn) (w : world) (fuel : nat) :
  is_open w = false ->
  (enough_fuel w <= fuel)%nat ->
  exists w' evs,
    controller.main_loop json_loads fuel turns w = Ret () w' /\
    trace w' = trace w ++ evs /\
    leds_only evs /\
    is_open w' = false.
Proof.
  intros Ho Hf.
  destruct (main_loop_runs json_loads turns fuel w Hf) as (w' & evs & Hrun & [Ht _ Hc]).
  exists w', evs. destruct (Hc Ho). done.
Qed.

(** X8.  A turn in which nothing is heard, or in which what is heard has
    no shutdown word and the reply of the language model carries no brace
    group, goes on to the next turn having changed only the LEDs: nothing
    is sent to the robot.  With [ai = None] this is the turn in which the
    call of the model raises. *)
Theorem turn_without_command (heard : hearing) (ai : option string) (w : world)
    (fuel : nat) :
  heard_text heard = None \/
  (exists user_text, heard_text heard = Some user_text /\
     any_in controller.shutdown_keywords (PyStr.lower user_text) = false /\
     controller.extract_robot_command (reply_of ai) = None) ->
  exists evs,
    controller.main_turn json_loads fuel (Turn heard ai) w = Ret Continue (lit evs w) /\
    leds_only evs.
Proof.
  intros Hcase. unfold controller.main_turn.
  step. rewrite logged_lit.
  destruct (listen_eq heard (lit [EvLed true true] w)) as (evs1 & Hl & Hleds1).
  erewrite bind_Ret by exact Hl. rewrite lit_lit.
  assert (Hl1 : leds_only ([EvLed true true] ++ evs1)) by (by constructor).
  destruct Hcase as [->|(user_text & -> & Hk & Hx)].
  - rewrite ret_eq. by eexists.
  - rewrite Hk.
    destruct (chat_eq ai (lit ([EvLed true true] ++ evs1) w)) as (evs2 & Hc & Hleds2).
    erewrite bind_Ret by exact Hc. rewrite lit_lit, Hx, ret_eq.
    eexists. split; [reflexivity|]. by apply Forall_app.
Qed.

End VoiceTheorems.

Lemma shutdown_word_nonempty s :
  any_in controller.shutdown_keywords (PyStr.lower s) = true -> nonempty s = true.
Proof. destruct s; [vm_compute; discriminate|done]. Qed.

Section ShutdownWord.
Context `{PyFloat}.
Variable json_loads : string -> decoded.

Lemma STOP_line_eq :
  serial_cmd_of (command_json "STOP" (VInt 0) "none") = STOP_line.
Proof. reflexivity. Qed.

(** The turn in which a shutdown word is heard, on an open connection whose
    write and flush do not raise. *)
Lemma shutdown_turn (joined : string) (ai : option string) (w : world) (fuel : nat) :
  any_in controller.shutdown_keywords (PyStr.lower (PyStr.strip joined)) = true ->
  is_open w = true ->
  calmb 2 (faults w) = true ->
  (enough_fuel w <= fuel)%nat ->
  exists w' evs,
    controller.main_turn json_loads fuel (Turn (Transcript joined) ai) w = Ret Break w' /\
    trace w' = trace w ++ evs /\
    writes evs = [STOP_line] /\ opens evs = [] /\ closes evs = O /\
    is_open w' = true /\
    faults w' = drop 2 (faults w) /\
    (length (rx w') <= length (rx w))%nat.
Proof.
  intros Hk Ho Hc Hf. unfold controller.main_turn.
  step. rewrite logged_lit.
  destruct (listen_eq (Transcript joined) (lit [EvLed true true] w)) as (evs1 & Hl & Hleds1).
  erewrite bind_Ret by exact Hl. rewrite lit_lit.
  cbn [heard_text]. rewrite (shutdown_word_nonempty _ Hk), Hk.
  set (w1 := lit ([EvLed true true] ++ evs1) w).
  destruct (send_to_robot_total w1 main_raspy.STOP_json fuel)
    as (w' & evs & Hrun & Ht & Hrx & _ & _ & _ & Hok); [done|].
  change (is_open w1) with (is_open w) in *. change (faults w1) with (faults w) in *.
  rewrite Ho, Hc in *. simpl in Hrun.
  destruct (Hok eq_refl) as (Hop & Hcl & Ho' & Hfl & Hw).
  erewrite bind_Ret by exact Hrun. rewrite ret_eq.
  exists w', (([EvLed true true] ++ evs1) ++ evs). split; [reflexivity|].
  rewrite Ht. subst w1. cbn [lit trace with_trace].
  split; [by rewrite <- !app_assoc|].
  assert (Hp : Forall reading ([EvLed true true] ++ evs1)).
  { apply Forall_app. split; [by repeat constructor|].
    eapply Forall_impl; [exact Hleds1|]. by intros []. }
  destruct (reading_passive _ Hp) as (Hw1 & Ho1 & Hc1).
  rewrite writes_app, opens_app, closes_app, Hw1, Ho1, Hc1, Hop, Hcl.
  rewrite (Hw _ eq_refl). done.
Qed.

(** X9.  When a shutdown word is heard in the first turn, on a link whose
    calls do not raise, the STOP command is written twice, once by the turn
    and once by the [finally] block, whatever the language model would
    answer and whatever turns would follow; [main] ends with the connection
    closed, once.  The only other write is the probe of the handshake. *)
Theorem shutdown_word_stops_twice (gpio_ok : bool) (joined : string) (ai : option string)
    (rest : list turn) (w : world) (port : string) (fuel : nat) :
  endpoint w = Some port ->
  calmb 8 (faults w) = true ->
  any_in controller.shutdown_keywords (PyStr.lower (PyStr.strip joined)) = true ->
  (enough_fuel w <= fuel)%nat ->
  exists w' evs,
    controller.main json_loads gpio_ok fuel (Turn (Transcript joined) ai :: rest) w
      = Ret () w' /\
    trace w' = trace w ++ evs /\
    writes evs = [main_raspy.STATUS_probe; STOP_line; STOP_line] /\
    opens evs = [port] /\
    closes evs = 1%nat /\
    is_open w' = false.
Proof.
  intros He Hc Hk Hf. unfold controller.main.
  change 8%nat with (4 + 4)%nat in Hc. rewrite calmb_split in Hc.
  apply andb_prop in Hc as [Hc4 Hc].
  change 4%nat with (2 + 2)%nat in Hc. rewrite calmb_split in Hc.
  apply andb_prop in Hc as [Hc2 Hc2'].
  destruct (startup_eq gpio_ok w) as (w0 & evs0 & Hs & Ht0 & Hr0 & Hrx0 & Hfl0 & _ & He0).
  erewrite bind_Ret by exact Hs.
  destruct (reading_passive _ Hr0) as (Hw0 & Ho0 & Hcl0).
  destruct (init_serial_total w0 fuel)
    as (w1 & evs1 & Hi & Ht1 & Hrx1 & Ho1 & Hcl1 & _ & _ & Hser1 & _ & Hcalm1).
  { unfold enough_fuel in *. by rewrite Hrx0. }
  assert (Hhe : has_endpoint w0 = true) by (unfold has_endpoint; by rewrite He0, He).
  rewrite Hhe, Hfl0, Hc4 in *.
  assert (Hnf : next_fault w0 = false).
  { apply (calmb_next_fault 3). by rewrite Hfl0. }
  rewrite Hnf in Hser1. simpl in Hser1.
  destruct (Hcalm1 eq_refl) as [Hw1 Hfl1].
  unfold ports_tried in Ho1. rewrite He0, He in Ho1.
  erewrite bind_Ret by exact Hi.
  assert (Hopen1 : is_open w1 = true) by (unfold is_open; by rewrite Hser1).
  assert (Hcalm2 : calmb 2 (faults w1) = true) by (by rewrite Hfl1).
  assert (Hf1 : (enough_fuel w1 <= fuel)%nat).
  { unfold enough_fuel in *. rewrite Hrx0 in Hrx1. lia. }
  destruct (shutdown_turn joined ai w1 fuel Hk Hopen1 Hcalm2 Hf1)
    as (w2 & evs2 & Hturn & Ht2 & Hw2 & Ho2 & Hcl2 & Hopen2 & Hfl2 & Hrx2).
  erewrite bind_Ret.
  2:{ apply try_Ret. cbn [controller.main_loop].
      erewrite bind_Ret by exact Hturn. apply ret_eq. }
  assert (Hcalm3 : calm 2 (faults w2)).
  { apply calmb_calm. rewrite Hfl2, Hfl1. exact Hc2'. }
  assert (Hf2 : (enough_fuel w2 <= fuel)%nat).
  { unfold enough_fuel in *. rewrite Hrx0 in Hrx1. lia. }
  destruct (main_finally_stop w2 fuel Hopen2 Hcalm3 Hf2)
    as (w3 & evs3 & Hfin & Ht3 & Hr3 & Hopen3).
  destruct (reading_passive _ Hr3) as (Hw3 & Ho3 & Hcl3).
  eexists w3, _. split; [exact Hfin|].
  rewrite Ht3, Ht2, Ht1, Ht0, <- !app_assoc.
  split; [reflexivity|].
  rewrite !writes_app, !opens_app, !closes_app.
  rewrite Hw0, Ho0, Hcl0, Hw1, Ho1, Hcl1, Hw2, Ho2, Hcl2, Hw3, Ho3, Hcl3.
  done.
Qed.

End ShutdownWord.

(** ** Characters of a string *)

Lemma occurs_cons c a r :
  occurs c (String a r) = (if ascii_dec a c then true else false) || occurs c r.
Proof. reflexivity. Qed.

Lemma append_nil_l (s : string) : EmptyString +:+ s = s.
Proof. reflexivity. Qed.

Lemma prefix_empty s : String.prefix EmptyString s = true.
Proof. by destruct s. Qed.

Lemma occurs_drop_in c n s : occurs c (PyStr.drop n s) = true -> occurs c s = true.
Proof.
  revert s. induction n as [|n IH]; intros s; [done|].
  destruct s as [|a r]; [done|]. cbn [PyStr.drop]. intros Ho.
  rewrite occurs_cons, (IH _ Ho). apply orb_true_r.
Qed.

(** A byte of a white-space character is not another character. *)
Lemma occurs_drop_ws c n s :
  all_ws n s = true -> ws_byte c = false -> occurs c (PyStr.drop n s) = occurs c s.
Proof.
  revert s. induction n as [|n IH]; intros s; [done|].
  destruct s as [|a r]; [done|]. cbn [all_ws PyStr.drop]. intros Hws Hc.
  apply andb_prop in Hws as [Ha Hr]. rewrite (IH _ Hr Hc), occurs_cons.
  destruct (ascii_dec a c) as [->|]; [congruence|done].
Qed.

Lemma byte_is_ws a n : PyStr.byte_is a n = true -> (128 <=? n)%nat = true -> ws_byte a = true.
Proof.
  unfold PyStr.byte_is, ws_byte. intros Ha Hn. apply Nat.eqb_eq in Ha.
  rewrite Ha, Hn. apply orb_true_r.
Qed.

(** The bytes [space_len] counts are those of a white-space character. *)
Lemma space_len_all_ws s : all_ws (PyStr.space_len s) s = true.
Proof.
  destruct s as [|a r]; [done|]. cbn [PyStr.space_len].
  destruct (PyStr.isspace a) eqn:Ha.
  { cbn [all_ws]. unfold ws_byte. by rewrite Ha. }
  destruct r as [|b r]; [done|].
  destruct (PyStr.byte_is a 194 && _) eqn:H2.
  { apply andb_prop in H2 as [H194 Hb]. cbn [all_ws].
    rewrite (byte_is_ws a 194), andb_true_r by done.
    apply orb_prop in Hb as [Hb|Hb]; by erewrite byte_is_ws by (exact Hb || done). }
  destruct r as [|c r]; [done|]. cbv zeta.
  repeat match goal with
         | |- context [if ?b then _ else _] => destruct b eqn:?
         end; try done.
  all: cbn [all_ws]; rewrite andb_true_r.
  all: repeat match goal with
              | H : _ && _ = true |- _ => apply andb_prop in H as [? ?]
              end.
  all: repeat (apply andb_true_intro; split).
  all: try (eapply byte_is_ws; [eassumption|done]).
  all: unfold ws_byte; apply orb_true_iff; right.
  all: repeat match goal with
              | H : _ || _ = true |- _ => apply orb_prop in H as [H|H]
              end.
  all: repeat match goal with
              | H : _ && _ = true |- _ => apply andb_prop in H as [? ?]
              end.
  all: try done.
  all: match goal with
       | H : PyStr.byte_is _ ?n = true |- _ =>
           unfold PyStr.byte_is in H; apply Nat.eqb_eq in H; by rewrite H
       end.
Qed.

Lemma string_drop_all s : PyStr.drop (String.length s) s = EmptyString.
Proof. induction s as [|a r IH]; [done|apply IH]. Qed.

(** One white-space character has no byte of another character. *)
Lemma is_space_occurs c s :
  PyStr.is_space s = true -> ws_byte c = false -> occurs c s = false.
Proof.
  unfold PyStr.is_space. intros Hsp Hc. pose proof (space_len_all_ws s) as Hws.
  destruct (PyStr.space_len s) as [|n]; [done|].
  apply Nat.eqb_eq in Hsp. rewrite Hsp in Hws.
  by rewrite <- (occurs_drop_ws c _ _ Hws Hc), string_drop_all.
Qed.

(** ** The command in the reply of the language model *)

Lemma upto_close_sound r m :
  controller.upto_close r = Some m ->
  exists b post, r = b +:+ String "}" post /\ m = b +:+ "}" /\ occurs "}" b = false.
Proof.
  revert m. induction r as [|c r IH]; intros m; simpl; [done|].
  destruct (ascii_dec c "}") as [->|Hc].
  - intros [= <-]. by exists EmptyString, r.
  - destruct (controller.upto_close r) as [m'|]; [|done].
    intros [= <-]. destruct (IH m' eq_refl) as (b & post & -> & -> & Hb).
    exists (String c b), post. rewrite occurs_cons, Hb.
    destruct (ascii_dec c "}"); done.
Qed.

Lemma upto_close_complete b post :
  occurs "}" b = false ->
  controller.upto_close (b +:+ String "}" post) = Some (b +:+ "}").
Proof.
  induction b as [|c b IH]; [done|].
  rewrite occurs_cons, !(append_cons c). cbn [controller.upto_close].
  destruct (ascii_dec c "}"); [done|]. simpl orb. intros Hb. by rewrite IH.
Qed.

Lemma append_brace b post : (b +:+ "}") +:+ post = b +:+ String "}" post.
Proof. induction b as [|c b IH]; [done|]. by rewrite !(append_cons c), IH. Qed.

Lemma match_here_sound s m :
  controller.match_here s = Some m ->
  brace_group m /\ exists post, s = m +:+ post.
Proof.
  unfold controller.match_here.
  destruct s as [|a [|c r]]; try done.
  destruct (ascii_dec a "{") as [->|]; [|done].
  destruct (ascii_dec c "}") as [|Hc]; [done|].
  destruct (controller.upto_close r) as [m'|] eqn:Hu; [|done].
  intros [= <-]. destruct (upto_close_sound r m' Hu) as (b & post & -> & -> & Hb).
  split.
  - exists (String c b). split; [done|]. split; [done|].
    rewrite occurs_cons, Hb. destruct (ascii_dec c "}"); done.
  - exists post. by rewrite !append_cons, append_brace.
Qed.

Lemma match_here_complete body post :
  body <> EmptyString -> occurs "}" body = false ->
  controller.match_here (("{" +:+ body +:+ "}") +:+ post) = Some ("{" +:+ body +:+ "}").
Proof.
  intros Hne Hb. destruct body as [|c b]; [done|].
  rewrite occurs_cons in Hb. apply orb_false_iff in Hb as [Hc Hb].
  change (("{" +:+ String c b +:+ "}") +:+ post)
    with (String "{" (String c ((b +:+ "}") +:+ post))).
  rewrite append_brace. cbn [controller.match_here].
  destruct (ascii_dec "{" "{"); [|done].
  destruct (ascii_dec c "}"); [done|].
  by rewrite upto_close_complete.
Qed.

Lemma re_search_cons a r :
  controller.re_search (String a r) =
  match controller.match_here (String a r) with
  | Some m => Some m
  | None => controller.re_search r
  end.
Proof. reflexivity. Qed.

Lemma re_search_sound s m :
  controller.re_search s = Some m ->
  exists pre post,
    s = pre +:+ m +:+ post /\ brace_group m /\
    forall pre' t, s = pre' +:+ t -> (String.length pre' < String.length pre)%nat ->
                   controller.match_here t = None.
Proof.
  revert m. induction s as [|a r IH]; intros m; [done|].
  rewrite re_search_cons.
  destruct (controller.match_here (String a r)) as [m'|] eqn:Hm.
  - intros [= <-]. destruct (match_here_sound _ _ Hm) as (Hg & post & Hs).
    exists EmptyString, post. split; [done|]. split; [done|].
    intros pre' t _ Hlt. simpl in Hlt. lia.
  - intros Hr. destruct (IH m Hr) as (pre & post & -> & Hg & Hleft).
    exists (String a pre), post. split; [done|]. split; [done|].
    intros pre' t Hs Hlt. destruct pre' as [|a' pre'].
    + rewrite append_nil_l in Hs. by subst t.
    + rewrite append_cons in Hs. injection Hs as -> Hs.
      apply (Hleft pre' t Hs). simpl in Hlt. lia.
Qed.

Lemma re_search_complete pre t m :
  controller.match_here t = Some m ->
  exists m', controller.re_search (pre +:+ t) = Some m'.
Proof.
  intros Hm. induction pre as [|a pre IH].
  - rewrite append_nil_l. destruct t as [|a r]; [done|].
    rewrite re_search_cons, Hm. by eexists.
  - rewrite append_cons, re_search_cons.
    destruct (controller.match_here (String a (pre +:+ t))); [by eexists|exact IH].
Qed.

(** X10.  What [extract_robot_command] returns is a brace group of the
    reply: an opening brace, a body that is not empty and has no closing
    brace, and the first closing brace after it; and it is the leftmost one.
    So [{}] is never returned, and of a nested object only the part up to
    the first closing brace is. *)
Theorem extract_robot_command_sound (ai_response m : string) :
  controller.extract_robot_command ai_response = Some m ->
  exists pre post,
    ai_response = pre +:+ m +:+ post /\
    brace_group m /\
    forall pre' m' post',
      ai_response = pre' +:+ m' +:+ post' -> brace_group m' ->
      (String.length pre <= String.length pre')%nat.
Proof.
  intros Hx. destruct (re_search_sound _ _ Hx) as (pre & post & Hs & Hg & Hleft).
  exists pre, post. split; [done|]. split; [done|].
  intros pre' m' post' Hs' (body & -> & Hne & Hb).
  destruct (Nat.le_gt_cases (String.length pre) (String.length pre')) as [|Hlt]; [done|].
  specialize (Hleft pre' _ Hs' Hlt).
  by rewrite match_here_complete in Hleft.
Qed.

(** X11.  [extract_robot_command] returns [None] only when the reply has
    no brace group at all. *)
Theorem extract_robot_command_complete (ai_response : string) :
  controller.extract_robot_command ai_response = None ->
  forall pre m post, ai_response = pre +:+ m +:+ post -> ~ brace_group m.
Proof.
  intros Hn pre m post -> (body & -> & Hne & Hb).
  destruct (re_search_complete pre _ _ (match_here_complete body post Hne Hb))
    as (m' & Hm').
  unfold controller.extract_robot_command in Hn. congruence.
Qed.

(** ** The model of the board *)

Lemma contains_char c s :
  PyStr.contains s (String c EmptyString) = occurs c s.
Proof.
  induction s as [|a r IH]; [done|].
  cbn [PyStr.contains]. rewrite prefix_cons, prefix_empty, IH, occurs_cons.
  destruct (ascii_dec c a) as [E|Hn]; destruct (ascii_dec a c) as [E'|Hn']; done.
Qed.

Lemma contains_Pi_5 s : PyStr.contains s "Pi 5" = true -> occurs "5" s = true.
Proof.
  induction s as [|a r IH]; [done|].
  cbn [PyStr.contains]. rewrite occurs_cons. intros Hc.
  apply orb_prop in Hc as [Hp|Hc]; [|rewrite (IH Hc); apply orb_true_r].
  apply orb_true_iff. right.
  rewrite prefix_cons in Hp. destruct (ascii_dec _ _); [|done].
  do 3 (destruct r as [|? r]; [done|];
        rewrite prefix_cons in Hp; destruct (ascii_dec _ _) as [<-|]; [|done];
        rewrite ?occurs_cons).
  done.
Qed.

Lemma occurs_lstrip c s :
  ws_byte c = false -> occurs c (PyStr.lstrip s) = occurs c s.
Proof.
  intros Hc. unfold PyStr.lstrip. generalize (String.length s) as fuel.
  intros fuel. revert s. induction fuel as [|fuel IH]; intros s; [done|].
  cbn [PyStr.lstrip_go]. pose proof (space_len_all_ws s) as Hws.
  destruct (PyStr.space_len s) as [|n]; [done|].
  rewrite IH. by apply occurs_drop_ws.
Qed.

Lemma occurs_rstrip c s :
  ws_byte c = false -> occurs c (PyStr.rstrip s) = occurs c s.
Proof.
  intros Hc. induction s as [|a r IH]; [done|].
  cbn [PyStr.rstrip]. cbv zeta. rewrite (occurs_cons c a r), <- IH, <- occurs_cons.
  destruct (PyStr.is_space (String a (PyStr.rstrip r))) eqn:Hsp; [|done].
  symmetry. by eapply is_space_occurs.
Qed.

Lemma occurs_strip c s :
  ws_byte c = false -> occurs c (PyStr.strip s) = occurs c s.
Proof.
  intros Hc. unfold PyStr.strip. by rewrite occurs_rstrip, occurs_lstrip.
Qed.

(** X12.  [detect_pi_model] returns [True] exactly when the model file can
    be read and has the digit 5 anywhere in it: the test for ["Pi 5"] adds
    nothing to the test for ["5"]. *)
Theorem detect_pi_model_any_5 (model_file : option string) :
  controller.detect_pi_model model_file =
  match model_file with
  | Some text => occurs "5" text
  | None => false
  end.
Proof.
  destruct model_file as [text|]; [|done].
  unfold controller.detect_pi_model. cbv zeta.
  rewrite (contains_char "5"), occurs_strip by done.
  destruct (PyStr.contains (PyStr.strip text) "Pi 5") eqn:Hp; [|done].
  apply contains_Pi_5 in Hp. by rewrite occurs_strip in Hp.
Qed.

(** ** The samples of the microphone *)

Lemma byte_range (b : Byte.byte) : 0 <= Z.of_N (Byte.to_N b) <= 255.
Proof. pose proof (Byte.to_N_bounded b). lia. Qed.

(** X13.  The sample made of a frame is the signed 16-bit number of its two
    most significant bytes; the two others are dropped.  It is the shifted
    value itself: the clamp to the 16-bit range never changes it. *)
Theorem sample_16_high_half (b0 b1 b2 b3 : Byte.byte) :
  let hi := Z.of_N (Byte.to_N b2) + 256 * Z.of_N (Byte.to_N b3) in
  controller.sample_16 [b0; b1; b2; b3] = (if hi <? 2 ^ 15 then hi else hi - 2 ^ 16) /\
  controller.sample_16 [b0; b1; b2; b3] = Z.shiftr (controller.unpack_i [b0; b1; b2; b3]) 16.
Proof.
  intros hi. unfold controller.sample_16, controller.unpack_i. cbv zeta.
  cbn [fold_right].
  pose proof (byte_range b0). pose proof (byte_range b1).
  pose proof (byte_range b2). pose proof (byte_range b3).
  subst hi.
  set (x0 := Z.of_N (Byte.to_N b0)) in *. set (x1 := Z.of_N (Byte.to_N b1)) in *.
  set (x2 := Z.of_N (Byte.to_N b2)) in *. set (x3 := Z.of_N (Byte.to_N b3)) in *.
  rewrite !Z.shiftr_div_pow2 by lia.
  change (2 ^ 31) with 2147483648. change (2 ^ 32) with 4294967296.
  change (2 ^ 16) with 65536. change (2 ^ 15) with 32768.
  destruct (Z.ltb_spec (x0 + 256 * (x1 + 256 * (x2 + 256 * (x3 + 256 * 0)))) 2147483648);
    destruct (Z.ltb_spec (x2 + 256 * x3) 32768); split; lia.
Qed.

(** ** The choice of the microphone *)

Lemma first_usb_spec mics : forall k,
  match controller.first_usb k mics with
  | Some i =>
      exists j name, i = (k + j)%nat /\ mics !! j = Some name /\ usb_named name = true /\
        forall j' other, (j' < j)%nat -> mics !! j' = Some other -> usb_named other = false
  | None => Forall (fun name => usb_named name = false) mics
  end.
Proof.
  induction mics as [|name r IH]; intros k; cbn [controller.first_usb]; [done|].
  fold (usb_named name). destruct (usb_named name) eqn:Hn.
  - exists O, name. rewrite Nat.add_0_r. repeat split; try done. intros j' other Hlt. lia.
  - specialize (IH (S k)). destruct (controller.first_usb (S k) r) as [i|].
    + destruct IH as (j & name' & -> & Hj & Hu & Hfirst).
      exists (S j), name'. split; [lia|]. split; [done|]. split; [done|].
      intros [|j'] other Hlt Hl; simpl in Hl; [by inversion Hl; subst|].
      apply (Hfirst j'); [lia|done].
    + by constructor.
Qed.

(** X14.  The index [find_usb_microphone] returns is that of a listed
    microphone.  It is the first one whose name has a USB keyword; when no
    name has one it is 1 if there are two microphones or more, else 0; and
    it is [None] only for an empty list. *)
Theorem find_usb_microphone_choice (mics : list string) :
  match controller.find_usb_microphone (Some mics) with
  | Some i =>
      (i < length mics)%nat /\
      ((exists name, mics !! i = Some name /\ usb_named name = true /\
          forall j other, (j < i)%nat -> mics !! j = Some other -> usb_named other = false) \/
       (Forall (fun name => usb_named name = false) mics /\
        i = if (1 <? length mics)%nat then 1%nat else 0%nat))
  | None => mics = []
  end.
Proof.
  unfold controller.find_usb_microphone.
  pose proof (first_usb_spec mics 0) as Hs.
  destruct (controller.first_usb 0 mics) as [i|].
  - destruct Hs as (j & name & -> & Hj & Hu & Hfirst). simpl.
    split; [by eapply lookup_lt_Some|]. left. by exists name.
  - destruct (1 <? length mics)%nat eqn:Hlen.
    + apply Nat.ltb_lt in Hlen. split; [done|]. by right.
    + destruct mics as [|name r]; [done|].
      split; [simpl; lia|]. by right.
Qed.

Lemma picked_here pre d r :
  named_input d = true -> picked (pre ++ d :: r) (Some (length pre)).
Proof.
  intros Hn i [= <-]. exists d. split; [|done].
  by rewrite lookup_app_r, Nat.sub_diag by lia.
Qed.

Lemma scan_devices_picked devs : forall pre a b c,
  picked (pre ++ devs) a -> picked (pre ++ devs) b -> picked (pre ++ devs) c ->
  picked (pre ++ devs) (controller.scan_devices (length pre) devs a b c).1.1 /\
  picked (pre ++ devs) (controller.scan_devices (length pre) devs a b c).1.2 /\
  picked (pre ++ devs) (controller.scan_devices (length pre) devs a b c).2.
Proof.
  induction devs as [|d r IH]; intros pre a b c Ha Hb Hc; [done|].
  cbn [controller.scan_devices]. cbv zeta.
  assert (E : pre ++ d :: r = (pre ++ [d]) ++ r) by (by rewrite <- app_assoc).
  assert (El : S (length pre) = length (pre ++ [d])) by (rewrite length_app; simpl; lia).
  pose proof (picked_here pre d r) as Hd. unfold named_input, input_capable in Hd.
  rewrite El. rewrite E in *.
  destruct (0 <? maxInputChannels d); [|by apply IH].
  destruct (any_in controller.i2s_keywords _); [apply IH; try done; by apply Hd|].
  destruct (PyStr.contains _ "pulse" && _) eqn:Hp.
  { apply andb_prop in Hp as [Hp _]. apply IH; try done. apply Hd. by rewrite Hp. }
  destruct (PyStr.contains _ "default" && _) eqn:Hdf; [|by apply IH].
  apply andb_prop in Hdf as [Hdf _]. apply IH; try done. apply Hd. rewrite Hdf.
  by rewrite !orb_true_r.
Qed.

(** X15.  The index [find_i2s_microphone] returns is that of a listed
    device with input channels whose name has an I2S keyword, ["pulse"] or
    ["default"]. *)
Theorem find_i2s_microphone_input (devs : list audio_device) (i : nat) :
  controller.find_i2s_microphone devs = Some i ->
  exists d, devs !! i = Some d /\ 0 < maxInputChannels d /\
    (any_in controller.i2s_keywords (PyStr.lower (dev_name d)) = true \/
     PyStr.contains (PyStr.lower (dev_name d)) "pulse" = true \/
     PyStr.contains (PyStr.lower (dev_name d)) "default" = true).
Proof.
  unfold controller.find_i2s_microphone.
  destruct (scan_devices_picked devs [] None None None) as (Ha & Hb & Hc); try done.
  simpl in Ha, Hb, Hc.
  destruct (controller.scan_devices 0 devs None None None) as [[a b] c]. simpl in *.
  intros Hi.
  assert (Hp : exists d, devs !! i = Some d /\ named_input d = true).
  { destruct a as [x|]; [apply Ha; congruence|].
    destruct b as [x|]; [apply Hb; congruence|]. by apply Hc. }
  destruct Hp as (d & Hd & Hn). exists d. split; [done|].
  unfold named_input, input_capable in Hn. apply andb_prop in Hn as [Hin Hn].
  apply Z.ltb_lt in Hin. split; [done|].
  apply orb_prop in Hn as [Hn|Hn]; [apply orb_prop in Hn as [Hn|Hn]|]; tauto.
Qed.

Lemma scan_devices_i2s devs : forall k a b c,
  (Forall (fun d => i2s_input d = false) devs /\
   (controller.scan_devices k devs a b c).1.1 = a) \/
  (exists j d, (controller.scan_devices k devs a b c).1.1 = Some (k + j)%nat /\
     devs !! j = Some d /\ i2s_input d = true /\
     forall j' d', (j < j')%nat -> devs !! j' = Some d' -> i2s_input d' = false).
Proof.
  induction devs as [|d r IH]; intros k a b c; [by left|].
  cbn [controller.scan_devices]. cbv zeta.
  assert (Hno : forall a' b' c', i2s_input d = false ->
    (Forall (fun d => i2s_input d = false) (d :: r) /\
     (controller.scan_devices (S k) r a' b' c').1.1 = a') \/
    (exists j d0, (controller.scan_devices (S k) r a' b' c').1.1 = Some (k + j)%nat /\
       (d :: r) !! j = Some d0 /\ i2s_input d0 = true /\
       forall j' d', (j < j')%nat -> (d :: r) !! j' = Some d' -> i2s_input d' = false)).
  { intros a' b' c' Hd. destruct (IH (S k) a' b' c') as [[Hall Hr]|(j & d0 & Hr & Hj & Hi & Hlast)].
    - left. split; [by constructor|done].
    - right. exists (S j), d0. rewrite Hr. split; [f_equal; lia|]. split; [done|].
      split; [done|]. intros [|j'] d' Hlt Hl; [lia|]. apply (Hlast j'); [lia|done]. }
  destruct (0 <? maxInputChannels d) eqn:Hin.
  2:{ apply Hno. unfold i2s_input, input_capable. by rewrite Hin. }
  destruct (any_in controller.i2s_keywords _) eqn:Hk.
  2:{ assert (Hd : i2s_input d = false).
      { unfold i2s_input, input_capable. by rewrite Hin, Hk. }
      destruct (_ && _); [by apply Hno|]. destruct (_ && _); by apply Hno. }
  assert (Hd : i2s_input d = true).
  { unfold i2s_input, input_capable. by rewrite Hin, Hk. }
  right. destruct (IH (S k) (Some k) b c) as [[Hall Hr]|(j & d0 & Hr & Hj & Hi & Hlast)].
  - exists O, d. rewrite Hr, Nat.add_0_r. simpl. repeat split; try done.
    intros [|j'] d' Hlt Hl; [lia|]. simpl in Hl.
    rewrite Forall_forall in Hall. apply Hall. by eapply list_elem_of_lookup_2.
  - exists (S j), d0. rewrite Hr. split; [f_equal; lia|]. split; [done|].
    split; [done|]. intros [|j'] d' Hlt Hl; [lia|]. apply (Hlast j'); [lia|done].
Qed.

Lemma scan_devices_pulse devs : forall k a b c,
  Forall (fun d => i2s_input d = false) devs ->
  match b with
  | Some x => (controller.scan_devices k devs a b c).1.2 = Some x
  | None =>
      (Forall (fun d => pulse_input d = false) devs /\
       (controller.scan_devices k devs a b c).1.2 = None) \/
      (exists j d, (controller.scan_devices k devs a b c).1.2 = Some (k + j)%nat /\
         devs !! j = Some d /\ pulse_input d = true /\
         forall j' d', (j' < j)%nat -> devs !! j' = Some d' -> pulse_input d' = false)
  end.
Proof.
  induction devs as [|d r IH]; intros k a b c Hno.
  { destruct b; [done|by left]. }
  inversion Hno as [|? ? Hd Hr]; subst.
  cbn [controller.scan_devices]. cbv zeta.
  assert (Hk : (0 <? maxInputChannels d) = true ->
               any_in controller.i2s_keywords (PyStr.lower (dev_name d)) = false).
  { intros Hin. unfold i2s_input, input_capable in Hd. by rewrite Hin in Hd. }
  destruct b as [x|].
  - destruct (0 <? maxInputChannels d) eqn:Hin; [|by apply (IH _ _ (Some x))].
    rewrite (Hk eq_refl). cbn [controller.is_none]. rewrite andb_false_r.
    destruct (_ && _); by apply (IH _ _ (Some x)).
  - assert (Hstep : forall c', pulse_input d = false ->
      (Forall (fun d0 => pulse_input d0 = false) (d :: r) /\
       (controller.scan_devices (S k) r a None c').1.2 = None) \/
      (exists j d0, (controller.scan_devices (S k) r a None c').1.2 = Some (k + j)%nat /\
         (d :: r) !! j = Some d0 /\ pulse_input d0 = true /\
         forall j' d', (j' < j)%nat -> (d :: r) !! j' = Some d' -> pulse_input d' = false)).
    { intros c' Hp.
      destruct (IH (S k) a None c' Hr) as [[Hall Hres]|(j & d0 & Hres & Hj & Hp0 & Hfirst)].
      - left. split; [by constructor|done].
      - right. exists (S j), d0. rewrite Hres. split; [f_equal; lia|].
        split; [done|]. split; [done|].
        intros [|j'] d' Hlt Hl; simpl in Hl.
        + by inversion Hl; subst.
        + apply (Hfirst j'); [lia|done]. }
    destruct (0 <? maxInputChannels d) eqn:Hin.
    2:{ apply Hstep. unfold pulse_input, input_capable. by rewrite Hin. }
    rewrite (Hk eq_refl). cbn [controller.is_none]. rewrite andb_true_r.
    destruct (PyStr.contains _ "pulse") eqn:Hp.
    + right. exists O, d. rewrite (IH (S k) a (Some k) c Hr), Nat.add_0_r.
      unfold pulse_input, input_capable. rewrite Hin, Hp.
      repeat split; try done. intros j' d' Hlt. lia.
    + assert (Hpd : pulse_input d = false).
      { unfold pulse_input, input_capable. by rewrite Hin, Hp. }
      destruct (_ && _); by apply Hstep.
Qed.

Lemma scan_devices_keeps_i2s devs : forall k a b c,
  Forall (fun d => i2s_input d = false) devs ->
  (controller.scan_devices k devs a b c).1.1 = a.
Proof.
  intros k a b c Hno.
  destruct (scan_devices_i2s devs k a b c) as [[_ Hr]|(j & d & _ & Hj & Hi & _)]; [done|].
  rewrite Forall_forall in Hno. rewrite Hno in Hi; [done|].
  by eapply list_elem_of_lookup_2.
Qed.

(** X16.  When an input device has an I2S name, [find_i2s_microphone]
    returns the last such device of the table.  When none has and an input
    device is named ["pulse"], it returns the first such device. *)
Theorem find_i2s_microphone_priority (devs : list audio_device) :
  ((exists j d, devs !! j = Some d /\ i2s_input d = true) ->
   exists i d, controller.find_i2s_microphone devs = Some i /\
     devs !! i = Some d /\ i2s_input d = true /\
     forall j d', (i < j)%nat -> devs !! j = Some d' -> i2s_input d' = false) /\
  (Forall (fun d => i2s_input d = false) devs ->
   (exists j d, devs !! j = Some d /\ pulse_input d = true) ->
   exists i d, controller.find_i2s_microphone devs = Some i /\
     devs !! i = Some d /\ pulse_input d = true /\
     forall j d', (j < i)%nat -> devs !! j = Some d' -> pulse_input d' = false).
Proof.
  unfold controller.find_i2s_microphone. split.
  - intros (j0 & d0 & Hj0 & Hi0).
    destruct (scan_devices_i2s devs 0 None None None)
      as [[Hall _]|(j & d & Hr & Hj & Hi & Hlast)].
    { rewrite Forall_forall in Hall. rewrite Hall in Hi0; [done|].
      by eapply list_elem_of_lookup_2. }
    destruct (controller.scan_devices 0 devs None None None) as [[a b] c].
    simpl in Hr. subst a. by exists j, d.
  - intros Hno (j0 & d0 & Hj0 & Hp0).
    pose proof (scan_devices_keeps_i2s devs 0 None None None Hno) as Ha.
    destruct (scan_devices_pulse devs 0 None None None Hno)
      as [[Hall _]|(j & d & Hr & Hj & Hp & Hfirst)].
    { rewrite Forall_forall in Hall. rewrite Hall in Hp0; [done|].
      by eapply list_elem_of_lookup_2. }
    destruct (controller.scan_devices 0 devs None None None) as [[a b] c].
    simpl in Ha, Hr. subst a b. by exists j, d.
Qed.

Lemma occurs_lstrip_in c s : occurs c (PyStr.lstrip s) = true -> occurs c s = true.
Proof.
  unfold PyStr.lstrip. generalize (String.length s) as fuel.
  intros fuel. revert s. induction fuel as [|fuel IH]; intros s; [done|].
  cbn [PyStr.lstrip_go]. destruct (PyStr.space_len s) as [|n]; [done|].
  intros Ho. apply IH in Ho. by apply occurs_drop_in in Ho.
Qed.

Lemma occurs_rstrip_in c s : occurs c (PyStr.rstrip s) = true -> occurs c s = true.
Proof.
  induction s as [|a r IH]; [done|].
  cbn [PyStr.rstrip]. cbv zeta.
  destruct (PyStr.is_space (String a (PyStr.rstrip r))); [done|].
  rewrite !(occurs_cons c a). intros Ho.
  apply orb_prop in Ho as [->|Ho]; [done|]. rewrite (IH Ho). apply orb_true_r.
Qed.

Lemma occurs_strip_in c s : occurs c (PyStr.strip s) = true -> occurs c s = true.
Proof. unfold PyStr.strip. intros Ho. by apply occurs_lstrip_in, occurs_rstrip_in. Qed.

(** ** The text given to the synthesiser *)

Lemma occurs_append c s t : occurs c (s +:+ t) = occurs c s || occurs c t.
Proof.
  induction s as [|a r IH]; [done|].
  by rewrite append_cons, !occurs_cons, IH, orb_assoc.
Qed.

Lemma occurs_replace_char c c' by_ s :
  occurs c (text_to_voice_raspy.replace_char c' by_ s) = true ->
  occurs c by_ = true \/ (c <> c' /\ occurs c s = true).
Proof.
  induction s as [|a r IH]; [done|].
  cbn [text_to_voice_raspy.replace_char].
  destruct (ascii_dec a c') as [->|Hn].
  - rewrite occurs_append. intros Ho. apply orb_prop in Ho as [Ho|Ho]; [by left|].
    destruct (IH Ho) as [|[Hc Hr]]; [by left|]. right. split; [done|].
    rewrite occurs_cons, Hr. apply orb_true_r.
  - rewrite !occurs_cons. destruct (ascii_dec a c) as [->|].
    + intros _. right. done.
    + simpl. intros Ho. destruct (IH Ho) as [|[Hc Hr]]; [by left|by right].
Qed.

Lemma replace_two_spaces_cons a b r :
  text_to_voice_raspy.replace_two_spaces (String a (String b r)) =
  if ascii_dec a " " then
    if ascii_dec b " " then String " " (text_to_voice_raspy.replace_two_spaces r)
    else String a (text_to_voice_raspy.replace_two_spaces (String b r))
  else String a (text_to_voice_raspy.replace_two_spaces (String b r)).
Proof. reflexivity. Qed.

Lemma occurs_two_spaces c s :
  (occurs c (text_to_voice_raspy.replace_two_spaces s) = true -> occurs c s = true) /\
  (forall a, occurs c (text_to_voice_raspy.replace_two_spaces (String a s)) = true ->
             occurs c (String a s) = true).
Proof.
  induction s as [|b r [IH1 IH2]]; [done|].
  split; [apply IH2|].
  intros a. rewrite replace_two_spaces_cons.
  destruct (ascii_dec a " ") as [->|].
  - destruct (ascii_dec b " ") as [->|].
    + rewrite !(occurs_cons c " "). intros Ho.
      apply orb_prop in Ho as [->|Ho]; [done|]. rewrite (IH1 Ho). by rewrite !orb_true_r.
    + rewrite (occurs_cons c " "), (occurs_cons c " " (String b r)). intros Ho.
      apply orb_prop in Ho as [->|Ho]; [done|]. rewrite (IH2 b Ho). apply orb_true_r.
  - rewrite (occurs_cons c a), (occurs_cons c a (String b r)). intros Ho.
    apply orb_prop in Ho as [->|Ho]; [done|]. rewrite (IH2 b Ho). apply orb_true_r.
Qed.

Lemma clean_text_from c text :
  occurs c (text_to_voice_raspy.clean_text text) = true ->
  c <> text_to_voice_raspy.DQ /\ c <> text_to_voice_raspy.SQ /\ c <> text_to_voice_raspy.NL.
Proof.
  unfold text_to_voice_raspy.clean_text. intros Ho.
  apply occurs_strip_in, occurs_two_spaces in Ho.
  destruct (occurs_replace_char _ _ _ _ Ho) as [Hby|[Hnl Ho1]].
  { repeat split; intros ->; vm_compute in Hby; discriminate. }
  destruct (occurs_replace_char _ _ _ _ Ho1) as [Hby|[Hsq Ho2]]; [done|].
  destruct (occurs_replace_char _ _ _ _ Ho2) as [Hby|[Hdq Ho3]]; [done|].
  done.
Qed.

Lemma clean_text_clean (text : string) :
  occurs text_to_voice_raspy.DQ (text_to_voice_raspy.clean_text text) = false /\
  occurs text_to_voice_raspy.SQ (text_to_voice_raspy.clean_text text) = false /\
  occurs text_to_voice_raspy.NL (text_to_voice_raspy.clean_text text) = false.
Proof.
  repeat split.
  all: match goal with |- ?o = false => destruct o eqn:Ho; [|done] end.
  all: apply clean_text_from in Ho; by destruct Ho as (? & ? & ?).
Qed.

(** X17.  The text given to the synthesiser has no double quote, no single
    quote and no newline, whatever the text to say. *)
Theorem clean_text_no_quotes (text : string) :
  occurs text_to_voice_raspy.DQ (text_to_voice_raspy.clean_text text) = false /\
  occurs text_to_voice_raspy.SQ (text_to_voice_raspy.clean_text text) = false /\
  occurs text_to_voice_raspy.NL (text_to_voice_raspy.clean_text text) = false.
Proof. apply clean_text_clean. Qed.

Lemma count_char_append c s t :
  count_char c (s +:+ t) = (count_char c s + count_char c t)%nat.
Proof.
  induction s as [|a r IH]; [done|].
  rewrite append_cons. cbn [count_char]. rewrite IH. lia.
Qed.

Lemma count_char_absent c s : occurs c s = false -> count_char c s = O.
Proof.
  induction s as [|a r IH]; [done|].
  rewrite occurs_cons. cbn [count_char]. destruct (ascii_dec a c); [done|].
  simpl. intros Ho. by rewrite IH.
Qed.

(** X18.  The command given to the shell has eight double quotes, those
    the format puts around its four fields: the text to say is between the
    first two and cannot close them. *)
Theorem piper_cmd_quotes_balanced (text : string) :
  count_char text_to_voice_raspy.DQ (text_to_voice_raspy.piper_cmd text) = 8%nat /\
  exists rest,
    text_to_voice_raspy.piper_cmd text =
      "echo " +:+ text_to_voice_raspy.quoted (text_to_voice_raspy.clean_text text) +:+ rest /\
    occurs text_to_voice_raspy.DQ (text_to_voice_raspy.clean_text text) = false.
Proof.
  destruct (clean_text_clean text) as (Hdq & _ & _).
  split.
  - unfold text_to_voice_raspy.piper_cmd, text_to_voice_raspy.quoted.
    rewrite !count_char_append, (count_char_absent _ _ Hdq). reflexivity.
  - eexists. split; [reflexivity|done].
Qed.

Lemma replace_char_absent c by_ s :
  occurs c s = false -> text_to_voice_raspy.replace_char c by_ s = s.
Proof.
  induction s as [|a r IH]; [done|].
  rewrite occurs_cons. cbn [text_to_voice_raspy.replace_char].
  destruct (ascii_dec a c); [done|]. simpl. intros Ho. by rewrite IH.
Qed.

Lemma replace_two_spaces_absent s :
  (PyStr.contains s "  " = false -> text_to_voice_raspy.replace_two_spaces s = s) /\
  (forall a, PyStr.contains (String a s) "  " = false ->
             text_to_voice_raspy.replace_two_spaces (String a s) = String a s).
Proof.
  induction s as [|b r [IH1 IH2]]; [done|].
  split; [apply IH2|].
  intros a. rewrite replace_two_spaces_cons.
  change (PyStr.contains (String a (String b r)) "  ")
    with (String.prefix "  " (String a (String b r)) || PyStr.contains (String b r) "  ").
  rewrite !prefix_cons, prefix_empty.
  intros Hc. apply orb_false_iff in Hc as [Hp Hc].
  rewrite (IH2 b Hc).
  destruct (ascii_dec a " ") as [->|]; [|done].
  destruct (ascii_dec b " ") as [->|]; [|done].
  by destruct (ascii_dec " " " ").
Qed.

(** X19.  A text with no quote, no newline, no two spaces in a row and no
    white space at its ends reaches the shell as it is: the cleaning
    changes nothing else, so [$], the backquote and the backslash are
    kept. *)
Theorem clean_text_keeps_plain_text (text : string) :
  occurs text_to_voice_raspy.DQ text = false ->
  occurs text_to_voice_raspy.SQ text = false ->
  occurs text_to_voice_raspy.NL text = false ->
  PyStr.contains text "  " = false ->
  PyStr.strip text = text ->
  text_to_voice_raspy.clean_text text = text.
Proof.
  intros Hdq Hsq Hnl Hsp Hst. unfold text_to_voice_raspy.clean_text.
  rewrite (replace_char_absent _ _ _ Hdq), (replace_char_absent _ _ _ Hsq),
    (replace_char_absent _ _ _ Hnl).
  destruct (replace_two_spaces_absent text) as [-> _]; done.
Qed.

(** ** The monitor: its session and its lines *)

Lemma disconnect_closes w :
  exists w', serial_monitor.disconnect w = Ret () w' /\
             is_open w' = false /\ running w' = false.
Proof.
  unfold serial_monitor.disconnect, bind.
  change (is_open (with_running false w)) with (is_open w).
  destruct (is_open w) eqn:Ho.
  - rewrite ser_close_eq by done. rewrite print_eq. by eexists.
  - by eexists.
Qed.

Section MonitorSession.
Context `{PyFloat}.

Lemma connect_returns port w :
  exists ok w', serial_monitor.connect port w = Ret ok w'.
Proof.
  unfold serial_monitor.connect.
  set (choose := fun w0 : world => _).
  assert (Hc : exists w1, choose w = Ret () w1).
  { subst choose. cbv beta. destruct port as [p|]; [destruct (nonempty p)|]; by eexists. }
  destruct Hc as (w1 & Hc). erewrite bind_Ret by exact Hc.
  destruct (SERIAL_PORT w1) as [p|]; [|by eexists _, _].
  destruct (nonempty p); [|by eexists _, _].
  destruct (next_fault w1) eqn:Hn.
  - erewrite try_Exc.
    2:{ erewrite bind_Exc; [reflexivity|]. by rewrite serial_Serial_eq, Hn. }
    by eexists _, _.
  - erewrite try_Ret.
    2:{ erewrite bind_Ret by (by rewrite serial_Serial_eq, Hn).
        erewrite bind_Ret by apply sleep_eq. apply ret_eq. }
    by eexists _, _.
Qed.

Lemma interactive_mode_returns keys w :
  exists w', serial_monitor.interactive_mode keys w = Ret () w'.
Proof.
  unfold serial_monitor.interactive_mode, serial_monitor.start_monitoring.
  destruct (is_open w) eqn:Ho.
  - unfold bind at 1. rewrite Ho. cbn [negb].
    erewrite bind_Ret by apply print_eq.
    destruct (input_loop_talks keys (logged (EvPrint Help) (with_running true w)))
      as (w1 & evs & Hloop & _).
    erewrite bind_Ret by (apply try_Ret; exact Hloop).
    destruct (disconnect_closes w1) as (w' & Hd & _). by exists w'.
  - unfold bind at 1. rewrite Ho. cbn [negb].
    unfold bind at 1. rewrite print_eq, ret_eq. cbn [negb]. by eexists.
Qed.

(** X20.  [main] of the monitor returns for every port argument, keyboard
    and script of faults, with the connection closed and the reader
    stopped. *)
Theorem monitor_session_ends_closed (argv1 : option string) (keys : list keyboard)
    (w : world) :
  exists w', serial_monitor.main argv1 keys w = Ret () w' /\
             is_open w' = false /\ running w' = false.
Proof.
  unfold serial_monitor.main.
  destruct (connect_returns argv1 w) as (ok & w1 & Hc).
  assert (Hbody : exists w2,
            (connected <- serial_monitor.connect argv1 ;;
             if connected then serial_monitor.interactive_mode keys else ret ()) w
            = Ret () w2).
  { erewrite bind_Ret by exact Hc. destruct ok; [apply interactive_mode_returns|by eexists]. }
  destruct Hbody as (w2 & Hbody).
  erewrite bind_Ret by (apply try_Ret; exact Hbody).
  apply disconnect_closes.
Qed.

(** X21.  A port given to [connect] is the one it opens, whatever the
    discovery would find.  It returns whether the constructor returned;
    after the 2 s sleep nothing is written: the monitor has no handshake.
    When the constructor raises, the serial object is as it was. *)
Theorem connect_explicit_port (p : string) (w : world) :
  nonempty p = true ->
  exists w',
    serial_monitor.connect (Some p) w = Ret (negb (next_fault w)) w' /\
    trace w' = trace w ++
      EvIO (Open p) (negb (next_fault w)) ::
      (if next_fault w then [] else [EvSleep 2000]) /\
    SERIAL_PORT w' = Some p /\
    ser w' = (if next_fault w then ser w else Some true).
Proof.
  intros Hp. unfold serial_monitor.connect. rewrite Hp.
  unfold bind at 1. cbn [SERIAL_PORT with_port]. rewrite Hp.
  destruct w as [clk tr s p0 rn fl rx0 ports en ex cfg].
  destruct fl as [|[] fl]; cbn [next_fault faults negb].
  - erewrite try_Ret by (do 2 step; apply ret_eq).
    eexists. split; [reflexivity|]. simpl. by rewrite <- app_assoc.
  - erewrite try_Exc by (step_exc; reflexivity). rewrite ret_eq.
    eexists. split; [reflexivity|]. done.
  - erewrite try_Ret by (do 2 step; apply ret_eq).
    eexists. split; [reflexivity|]. simpl. by rewrite <- app_assoc.
Qed.

(** X22.  In the monitor a write that raises starts no recovery:
    [send_command] shows the error and returns [False], the connection
    stays as it was, and the next command is written on it. *)
Theorem send_command_no_recovery (c v u : pyval) (w : world) (fs : list bool) :
  is_open w = true ->
  faults w = true :: fs ->
  exists w',
    serial_monitor.send_command c v u w = Ret false w' /\
    trace w' = trace w ++ [EvIO (Write (fstring_cmd c v u)) false; EvPrint SendError] /\
    ser w' = ser w /\
    exists w'' evs,
      serial_monitor.send_command c v u w' = Ret (calmb 2 (faults w')) w'' /\
      trace w'' = trace w' ++ evs /\
      hd_error (writes evs) = Some (fstring_cmd c v u).
Proof.
  intros Ho Hfl. unfold serial_monitor.send_command. rewrite Ho. cbv zeta. cbn [negb].
  destruct w as [clk tr [[]|] p rn fl rx0 ports en ex cfg]; try discriminate.
  simpl in Hfl. subst fl.
  erewrite try_Exc by (step_exc; reflexivity). step. rewrite ret_eq.
  eexists. split; [reflexivity|]. flat. rewrite <- !app_assoc. simpl.
  split; [reflexivity|]. split; [reflexivity|].
  destruct fs as [|[] [|[] fs]].
  all: first [ erewrite try_Ret by (repeat step; apply ret_eq)
             | erewrite try_Exc by (repeat step; step_exc; reflexivity); step; rewrite ret_eq ].
  all: eexists _, _; split; [reflexivity|]; flat.
  all: split; [rewrite <- !app_assoc; simpl; reflexivity|reflexivity].
Qed.

End MonitorSession.

Lemma endswith_char_append s t c :
  t <> EmptyString -> PyStr.endswith_char (s +:+ t) c = PyStr.endswith_char t c.
Proof.
  intros Ht. induction s as [|a r IH]; [done|].
  rewrite append_cons. cbn [PyStr.endswith_char].
  destruct (r +:+ t) eqn:E; [|done].
  destruct r; [|done]. by destruct Ht.
Qed.

Section Lines.
Context `{PyFloat}.

Lemma fstring_cmd_newline c v u : newline_ended (fstring_cmd c v u).
Proof.
  unfold newline_ended, fstring_cmd.
  rewrite endswith_char_append by (by rewrite append_cons).
  change ("," +:+ py_str v +:+ "," +:+ py_str u +:+ PyStr.LF)
    with (String "," (py_str v +:+ "," +:+ py_str u +:+ PyStr.LF)).
  rewrite (endswith_char_append (String "," (py_str v))
             ("," +:+ py_str u +:+ PyStr.LF)) by (by rewrite append_cons).
  change ("," +:+ py_str u +:+ PyStr.LF) with (String "," (py_str u) +:+ PyStr.LF).
  by rewrite endswith_char_append.
Qed.

Lemma raw_line_newline raw_data : newline_ended (raw_line raw_data).
Proof.
  unfold newline_ended, raw_line.
  destruct (PyStr.endswith_char raw_data (PyStr.chr 10)) eqn:He; [done|].
  cbn [negb]. by rewrite endswith_char_append.
Qed.

Lemma send_command_one_line c v u w : one_line (serial_monitor.send_command c v u) w.
Proof.
  destruct (send_command_effect c v u w) as (ok & w' & evs & Hrun & Ht & Hw).
  exists ok, w', evs. split; [done|]. split; [done|].
  destruct Hw as [->| ->]; [by left|right]. eexists. split; [done|apply fstring_cmd_newline].
Qed.

Lemma send_raw_one_line raw_data w : one_line (serial_monitor.send_raw raw_data) w.
Proof.
  destruct (send_raw_effect raw_data w) as (ok & w' & evs & Hrun & Ht & Hw).
  exists ok, w', evs. split; [done|]. split; [done|].
  destruct Hw as [->| ->]; [by left|right]. eexists. split; [done|apply raw_line_newline].
Qed.

Lemma print_one_line n w : one_line (print n) w.
Proof.
  exists (), (logged (EvPrint n) w), [EvPrint n].
  split; [done|]. split; [by split|by left].
Qed.

Lemma ret_one_line {A} (a : A) w : one_line (ret a) w.
Proof. exists a, w, []. split; [done|]. split; [apply talks_nil|by left]. Qed.

Lemma then_ret_one_line {A B} (m : M A) (b : B) w :
  one_line m w -> one_line (bind m (fun _ => ret b)) w.
Proof.
  intros (a & w' & evs & Hrun & Ht & Hw).
  exists b, w', evs. by erewrite bind_Ret by exact Hrun.
Qed.

Lemma try_one_line {A} (m h : M A) w : one_line m w -> one_line (try_except m h) w.
Proof.
  intros (a & w' & evs & Hrun & Ht & Hw).
  exists a, w', evs. by erewrite try_Ret by exact Hrun.
Qed.

Lemma motion_one_line user_input name unit_ verb w :
  one_line (serial_monitor.motion user_input name unit_ verb) w.
Proof.
  unfold serial_monitor.motion.
  destruct (serial_monitor.float_argument user_input) as [x|]; [|apply print_one_line].
  apply try_one_line, then_ret_one_line, send_command_one_line.
Qed.

Lemma speed_command_one_line user_input w :
  one_line (serial_monitor.speed_command user_input) w.
Proof.
  unfold serial_monitor.speed_command.
  destruct (serial_monitor.float_argument user_input) as [speed|]; [|apply print_one_line].
  apply try_one_line.
  destruct (int_le_float 0 speed && float_le_int speed 100).
  - apply then_ret_one_line, send_command_one_line.
  - apply print_one_line.
Qed.

(** X23.  Whatever the operator types, the dispatcher returns, leaves the
    connection as it was, and writes at most one line, which ends with a
    newline. *)
Theorem dispatcher_one_line_per_input (text : string) (w : world) :
  exists f w' evs,
    serial_monitor.handle_input text w = Ret f w' /\
    talks w w' evs /\
    (writes evs = [] \/ exists data, writes evs = [data] /\ newline_ended data).
Proof.
  unfold serial_monitor.handle_input.
  change (one_line (serial_monitor.dispatch (PyStr.lower (PyStr.strip text))) w).
  unfold serial_monitor.dispatch.
  repeat match goal with
         | |- one_line (if ?c then _ else _) _ => destruct c
         end.
  all: try apply ret_one_line.
  all: apply then_ret_one_line.
  all: try apply print_one_line.
  all: try apply send_command_one_line.
  all: try apply motion_one_line.
  - apply speed_command_one_line.
  - apply send_raw_one_line.
Qed.

End Lines.

(** ** What the discovery can return *)

Lemma first_named_sound name ports d :
  first_named name ports = Some d -> In d (devices ports).
Proof.
  induction ports as [|port r IH]; simpl; [done|].
  destruct (String.eqb (device port) name); [intros [= <-]; by left|].
  intros Hf. right. by apply IH.
Qed.

Lemma priority_scan_sound names ports d :
  priority_scan names ports = Some d -> In d (devices ports).
Proof.
  induction names as [|n r IH]; simpl; [done|].
  destruct (first_named n ports) as [d'|] eqn:Hf; [|exact IH].
  intros [= <-]. by eapply first_named_sound.
Qed.

Lemma keyword_scan_sound ports d :
  main_raspy.keyword_scan ports = Some d -> In d (devices ports).
Proof.
  induction ports as [|port r IH]; [done|].
  cbn [main_raspy.keyword_scan]. cbv zeta.
  destruct (any_in _ _); [intros [= <-]; by left|].
  destruct (any_in _ _); [intros [= <-]; by left|].
  destruct (_ || _); [intros [= <-]; by left|].
  intros Hk. right. by apply IH.
Qed.

Lemma first_port_sound ports d : first_port ports = Some d -> In d (devices ports).
Proof. destruct ports as [|port r]; [done|]. intros [= <-]. by left. Qed.

Lemma first_port_some ports : ports <> [] -> exists d, first_port ports = Some d.
Proof. destruct ports as [|port r]; [done|]. intros _. by eexists. Qed.

(** X24.  What a discovery returns is an enumerated path, or /dev/ttyS0
    when its GPIO rule applies; and with an endpoint enumerated neither
    discovery returns [None]. *)
Theorem discovery_result_enumerated (w : world) :
  (forall d, main_raspy.find_esp32_port_rpi w = Some d ->
     (d = "/dev/ttyS0" /\
      GPIO_UART_ENABLE w && main_raspy.check_gpio_uart_available w = true) \/
     In d (devices (comports w))) /\
  (forall d, serial_monitor.find_esp32_port w = Some d ->
     (d = "/dev/ttyS0" /\ ttyS0_exists w = true) \/ In d (devices (comports w))) /\
  (comports w <> [] ->
     main_raspy.find_esp32_port_rpi w <> None /\ serial_monitor.find_esp32_port w <> None).
Proof.
  unfold main_raspy.find_esp32_port_rpi, serial_monitor.find_esp32_port. cbv zeta.
  split; [|split].
  - intros d. destruct (GPIO_UART_ENABLE w && _); [intros [= <-]; by left|].
    intros Hd. right.
    destruct (priority_scan _ _) as [d1|] eqn:Hp;
      [inversion Hd; subst; by eapply priority_scan_sound|].
    destruct (main_raspy.keyword_scan _) as [d2|] eqn:Hk;
      [inversion Hd; subst; by eapply keyword_scan_sound|].
    by apply first_port_sound.
  - intros d. destruct (ttyS0_exists w); [intros [= <-]; by left|].
    intros Hd. right.
    destruct (priority_scan _ _) as [d1|] eqn:Hp;
      [inversion Hd; subst; by eapply priority_scan_sound|].
    by apply first_port_sound.
  - intros Hne. destruct (first_port_some _ Hne) as (d & Hd). split.
    + destruct (GPIO_UART_ENABLE w && _); [done|].
      destruct (priority_scan _ _); [done|].
      destruct (main_raspy.keyword_scan _); [done|]. by rewrite Hd.
    + destruct (ttyS0_exists w); [done|].
      destruct (priority_scan _ _); [done|]. by rewrite Hd.
Qed.

Section CommandTurn.

Context `{PyFloat}.
Variable json_loads : string -> decoded.


End CommandTurn.

(** ** The properties on concrete inputs *)

Section MoreWitnesses.

#[local] Existing Instance Decimal.decimal_float.



Lemma failed_handshake_leaves_port_open_witness :
  exists w' evs,
    main_raspy.init_serial 200 half_open = Ret false w' /\
    trace w' = trace half_open ++ evs /\
    closes evs = O /\
    is_open w' = true.
Proof.
  destruct (failed_handshake_leaves_port_open half_open 200)
    as (w' & evs & Hrun & Ht & Hc & Ho & _).
  - reflexivity.
  - reflexivity.
  - reflexivity.
  - unfold enough_fuel. simpl. lia.
  - exists w', evs. split; [exact Hrun|]. split; [exact Ht|]. split; [exact Hc|exact Ho].
Defined.

Lemma non_object_recovers_witness :
  main_raspy.send_to_robot 200 JSONDecodeError (connected "/dev/ttyUSB0")
    = Ret false (connected "/dev/ttyUSB0") /\
  exists w' evs,
    main_raspy.send_to_robot 200 JNotObject (connected "/dev/ttyUSB0") = Ret false w' /\
    trace w' = trace (connected "/dev/ttyUSB0") ++ evs /\
    closes evs = 1%nat /\
    opens evs = ports_tried (connected "/dev/ttyUSB0") /\
    (writes evs = [] \/ writes evs = [main_raspy.STATUS_probe]).
Proof.
  apply (non_object_recovers (connected "/dev/ttyUSB0") 200).
  - reflexivity.
  - unfold enough_fuel. simpl. lia.
Defined.

Lemma failed_recovery_is_final_witness :
  exists w' evs,
    main_raspy.send_to_robot 200 (JObject ∅) dead_link = Ret false w' /\
    trace w' = trace dead_link ++ evs /\
    closes evs = 1%nat /\
    is_open w' = false /\
    forall cmd,
      main_raspy.send_to_robot 200 cmd w' = Ret false (logged (EvLed false false) w').
Proof.
  apply (failed_recovery_is_final dead_link ∅ 200 []).
  - reflexivity.
  - reflexivity.
  - unfold enough_fuel. simpl. lia.
Defined.


Lemma closed_link_never_reopened_witness :
  exists w' evs,
    controller.main_loop json_table 200
      [Turn (Transcript "maju") (Some "baik { } siap")] unplugged = Ret () w' /\
    trace w' = trace unplugged ++ evs /\
    leds_only evs /\
    is_open w' = false.
Proof.
  apply (closed_link_never_reopened json_table
           [Turn (Transcript "maju") (Some "baik { } siap")] unplugged 200).
  - reflexivity.
  - unfold enough_fuel. simpl. lia.
Defined.

Lemma turn_without_command_witness :
  exists evs,
    controller.main_turn json_table 200 (Turn (Transcript "apa kabar") None)
      (connected "/dev/ttyUSB0") = Ret Continue (lit evs (connected "/dev/ttyUSB0")) /\
    leds_only evs.
Proof.
  apply (turn_without_command json_table (Transcript "apa kabar") None
           (connected "/dev/ttyUSB0") 200).
  right. exists "apa kabar". split; [reflexivity|]. split; reflexivity.
Defined.

Lemma shutdown_word_stops_twice_witness :
  exists w' evs,
    controller.main json_table true 200
      [Turn (Transcript "tolong matikan robot") None] pc_with_usb = Ret () w' /\
    trace w' = trace pc_with_usb ++ evs /\
    writes evs = [main_raspy.STATUS_probe; STOP_line; STOP_line] /\
    opens evs = ["/dev/ttyUSB0"] /\
    closes evs = 1%nat /\
    is_open w' = false.
Proof.
  apply (shutdown_word_stops_twice json_table true "tolong matikan robot" None []
           pc_with_usb "/dev/ttyUSB0" 200).
  - reflexivity.
  - reflexivity.
  - reflexivity.
  - unfold enough_fuel. simpl. lia.
Defined.


Lemma connect_explicit_port_witness :
  exists w',
    serial_monitor.connect (Some "/dev/ttyACM0") pc_with_usb = Ret true w' /\
    trace w' = trace pc_with_usb ++ [EvIO (Open "/dev/ttyACM0") true; EvSleep 2000] /\
    SERIAL_PORT w' = Some "/dev/ttyACM0" /\
    ser w' = Some true.
Proof.
  apply (connect_explicit_port "/dev/ttyACM0" pc_with_usb).
  reflexivity.
Defined.

Lemma send_command_no_recovery_witness :
  exists w',
    serial_monitor.send_command (VStr "STOP") (VInt 0) (VStr "none") broken_link
      = Ret false w' /\
    trace w' = trace broken_link ++ [EvIO (Write STOP_line) false; EvPrint SendError] /\
    ser w' = ser broken_link.
Proof.
  destruct (send_command_no_recovery (VStr "STOP") (VInt 0) (VStr "none") broken_link [])
    as (w' & Hrun & Ht & Hs & _).
  - reflexivity.
  - reflexivity.
  - exists w'. split; [exact Hrun|]. split; [exact Ht|exact Hs].
Defined.

End MoreWitnesses.

Lemma extract_robot_command_sound_witness :
  exists pre post,
    "baik { } siap" = pre +:+ "{ }" +:+ post /\
    brace_group "{ }" /\
    forall pre' m' post',
      "baik { } siap" = pre' +:+ m' +:+ post' -> brace_group m' ->
      (String.length pre <= String.length pre')%nat.
Proof.
  apply (extract_robot_command_sound "baik { } siap" "{ }").
  reflexivity.
Defined.

Lemma extract_robot_command_complete_witness :
  controller.extract_robot_command "baik {} siap" = None /\ ~ brace_group "{}".
Proof.
  split; [reflexivity|].
  apply (extract_robot_command_complete "baik {} siap" eq_refl "baik " "{}" " siap").
  reflexivity.
Defined.

Lemma find_i2s_microphone_input_witness :
  exists d, [voicehat] !! O = Some d /\ 0 < maxInputChannels d /\
    (any_in controller.i2s_keywords (PyStr.lower (dev_name d)) = true \/
     PyStr.contains (PyStr.lower (dev_name d)) "pulse" = true \/
     PyStr.contains (PyStr.lower (dev_name d)) "default" = true).
Proof.
  apply (find_i2s_microphone_input [voicehat] 0).
  reflexivity.
Defined.

Lemma find_i2s_microphone_priority_witness :
  exists i d, controller.find_i2s_microphone [voicehat; voicehat] = Some i /\
    [voicehat; voicehat] !! i = Some d /\ i2s_input d = true /\
    forall j d', (i < j)%nat -> [voicehat; voicehat] !! j = Some d' -> i2s_input d' = false.
Proof.
  destruct (find_i2s_microphone_priority [voicehat; voicehat]) as [Hlast _].
  apply Hlast. exists O, voicehat. split; reflexivity.
Defined.

Lemma clean_text_keeps_plain_text_witness :
  text_to_voice_raspy.clean_text "robot maju $HOME" = "robot maju $HOME".
Proof.
  apply (clean_text_keeps_plain_text "robot maju $HOME"); reflexivity.
Defined.

Lemma discovery_result_enumerated_witness :
  ("/dev/ttyUSB0" = "/dev/ttyS0" /\
   GPIO_UART_ENABLE pc_with_usb && main_raspy.check_gpio_uart_available pc_with_usb = true) \/
  In "/dev/ttyUSB0" (devices (comports pc_with_usb)).
Proof.
  destruct (discovery_result_enumerated pc_with_usb) as (Hrpi & _).
  apply (Hrpi "/dev/ttyUSB0"). reflexivity.
Defined.

(** ** The model on small inputs *)

Example lower_mixed : PyStr.lower "raw STATUS,0,none" = "raw status,0,none".
Proof. reflexivity. Qed.

Example strip_both : PyStr.strip "  speed 150 " = "speed 150".
Proof. reflexivity. Qed.

Example split_runs : PyStr.split "forward   5" = ["forward"; "5"].
Proof. reflexivity. Qed.

Example strip_no_break_space :
  PyStr.strip (String (PyStr.chr 194) (String (PyStr.chr 160) "hai")
               +:+ String (PyStr.chr 194) (String (PyStr.chr 160) EmptyString)) = "hai".
Proof. reflexivity. Qed.

Example split_ideographic_space :
  PyStr.split ("forward" +:+
               String (PyStr.chr 227) (String (PyStr.chr 128) (String (PyStr.chr 128) "5")))
  = ["forward"; "5"].
Proof. reflexivity. Qed.

Example clean_text_no_break_space :
  text_to_voice_raspy.clean_text
    ("hai" +:+ String (PyStr.chr 194) (String (PyStr.chr 160) EmptyString)) = "hai".
Proof. reflexivity. Qed.

Example first_look_1510 : first_look 50 0 1510 = 1550.
Proof. reflexivity. Qed.

Example collect_two_lines :
  collect 0 0 0 [(200, "OK"); (700, "DONE")] =
  (repeat (EvSleep 50) 4 ++ reply_events "OK" ++
   repeat (EvSleep 50) 9 ++ reply_events "DONE" ++ repeat (EvSleep 50) 20, []).
Proof. reflexivity. Qed.

Example settle_late_line :
  settle 0 0 [(1000, "ESP32 ready")] =
  (repeat (EvSleep 100) 10 ++ [EvPrint (DeviceLine "ESP32 ready")] ++
   repeat (EvSleep 100) 30, []).
Proof. reflexivity. Qed.

Example of_Z_negative : PyStr.of_Z (-1) = "-1".
Proof. reflexivity. Qed.

Example contains_keyword : PyStr.contains "usb serial ch340 adapter" "ch340" = true.
Proof. reflexivity. Qed.

Example decimal_5 : Decimal.repr <$> Decimal.of_str "5" = Some "5.0".
Proof. reflexivity. Qed.

Example decimal_fraction : Decimal.repr <$> Decimal.of_str "-0.050" = Some "-0.05".
Proof. reflexivity. Qed.

Example decimal_not_a_number : Decimal.of_str "abc" = None.
Proof. reflexivity. Qed.

Example keyword_match : main_raspy.keyword_scan [usb0] = Some "/dev/ttyUSB0".
Proof. reflexivity. Qed.

Example voice_forward_continuous :
  @serial_cmd_of Decimal.decimal_float
    (@command_json Decimal.decimal_float "FORWARD" (VInt (-1)) "continuous")
  = "FORWARD,-1,continuous" +:+ PyStr.LF.
Proof. vm_compute. reflexivity. Qed.

Example operator_speed_75 :
  writes <$> (match @serial_monitor.handle_input Decimal.decimal_float "Speed 75"
                      (connected "/dev/ttyUSB0") with
              | Ret _ w' => Some (trace w')
              | _ => None
              end)
  = Some ["SPEED,75.0,percent" +:+ PyStr.LF].
Proof. vm_compute. reflexivity. Qed.

Example not_an_object_reconnects :
  opens <$> (match @main_raspy.send_to_robot Decimal.decimal_float 100 JNotObject
                     (connected "/dev/ttyUSB0") with
             | Ret false w' => Some (trace w')
             | _ => None
             end)
  = Some ["/dev/ttyUSB0"].
Proof. vm_compute. reflexivity. Qed.

(** ** The added functions on small inputs *)

Example extract_nested :
  controller.extract_robot_command "ok {a: {b: 1}} done" = Some "{a: {b: 1}".
Proof. reflexivity. Qed.

Example extract_empty_braces : controller.extract_robot_command "{} {x}" = Some "{x}".
Proof. reflexivity. Qed.

Example pi_4_revision_1_5 :
  controller.detect_pi_model (Some "Raspberry Pi 4 Model B Rev 1.5") = true.
Proof. reflexivity. Qed.

Example two_spaces_once :
  text_to_voice_raspy.replace_two_spaces "a    b" = "a  b".
Proof. reflexivity. Qed.

Example usb_second_of_three :
  controller.find_usb_microphone (Some ["bcm2835 Headphones"; "USB PnP Sound Device"; "pulse"])
  = Some 1%nat.
Proof. reflexivity. Qed.
